(** * sugar.presence.activity: the join/share negotiation of an activity

    A shallow embedding of [src/sugar/presence/activity.py].  The three
    classes of the module are three modules here: [JoinCommand]
    ([_JoinCommand]), [ShareCommand] ([_ShareCommand]) and [Activity].

    The code is callback driven: every method either mutates attributes of
    [self], performs an effect on a collaborator (a D-Bus call, a signal
    subscription, a GObject signal emission) or raises.  A method is therefore
    a command in a small monad that threads the object, appends the effects it
    performs to a trace, and may stop with a Python exception; the attributes
    written before the exception stay written, as in Python. *)

From Stdlib Require Import ZArith.
From stdpp Require Import base strings list gmap.

Local Open Scope Z_scope.

(** ** Python values and exceptions *)

(** A telepathy handle is a D-Bus [UInt32]; Python sees an integer. *)
Definition handle := Z.

(** The payload of an error callback (a [DBusException]); only its text
    matters to this module, which passes it on or prints it. *)
Definition error := string.

(** The values found in the [a{sv}] property dictionaries and in the
    attributes of [Activity]. *)
Inductive pyval :=
| VNone
| VStr (s : string)
| VBool (b : bool)
| VInt (n : Z).

Global Instance pyval_eq_dec : EqDecision pyval.
Proof. solve_decision. Defined.

(** [isinstance(val, str)] *)
Definition is_str (v : pyval) : bool :=
  match v with VStr _ => true | _ => false end.

(** [val is None] *)
Definition is_none (v : pyval) : bool :=
  match v with VNone => true | _ => false end.

(** [bool(val)] *)
Definition truthy (v : pyval) : bool :=
  match v with
  | VNone => false
  | VStr s => negb (String.eqb s "")
  | VBool b => b
  | VInt n => negb (n =? 0)
  end.

(** [a == b]; [bool] is a subclass of [int], so [True == 1]. *)
Definition py_eq (a b : pyval) : bool :=
  match a, b with
  | VNone, VNone => true
  | VStr s, VStr t => String.eqb s t
  | VBool x, VBool y => Bool.eqb x y
  | VInt n, VInt m => n =? m
  | VBool x, VInt m => (if x then 1 else 0) =? m
  | VInt n, VBool y => n =? (if y then 1 else 0)
  | _, _ => false
  end.

Inductive exn :=
| RuntimeError (msg : string)
| ValueError (msg : string)
| AttributeError (attr : string)
| TypeError (msg : string)
| KeyError (key : string)
| IndexError
| AssertionError.

Global Instance exn_eq_dec : EqDecision exn.
Proof. solve_decision. Defined.

(** ** Collaborators *)

(** The D-Bus interfaces a channel proxy is indexed by. *)
Inductive iface :=
| CHANNEL
| CHANNEL_INTERFACE_GROUP
| PROPERTIES_INTERFACE.

Global Instance iface_eq_dec : EqDecision iface.
Proof. solve_decision. Defined.

Inductive channel_type :=
| CHANNEL_TYPE_TEXT
| CHANNEL_TYPE_TUBES.

Inductive handle_type :=
| HANDLE_TYPE_ROOM.

Global Instance channel_type_eq_dec : EqDecision channel_type.
Proof. solve_decision. Defined.

Global Instance handle_type_eq_dec : EqDecision handle_type.
Proof. solve_decision. Defined.

(** A ready [telepathy.client.Channel]: its object path and the interfaces
    found by introspection ([iface in channel], [channel[iface]]). *)
Record channel := Channel {
  object_path : string;
  interfaces : list iface;
}.

Global Instance channel_eq_dec : EqDecision channel.
Proof. solve_decision. Defined.

(** ** Commands *)

(** [cmd St Act A]: a method body over an object of type [St] whose effects
    are of type [Act]. *)
Definition cmd (St Act A : Type) : Type := St → St * list Act * (exn + A).

Section Cmd.
Context {St Act : Type}.

Definition ret {A} (a : A) : cmd St Act A := λ s, (s, [], inr a).

Definition bind {A B} (m : cmd St Act A) (k : A → cmd St Act B)
  : cmd St Act B :=
  λ s,
    match m s with
    | (s1, t1, inl e) => (s1, t1, inl e)
    | (s1, t1, inr a) =>
        match k a s1 with
        | (s2, t2, r) => (s2, t1 ++ t2, r)
        end
    end.

(** read [self] *)
Definition self : cmd St Act St := λ s, (s, [], inr s).

(** assign to attributes of [self] *)
Definition assign (f : St → St) : cmd St Act unit := λ s, (f s, [], inr tt).

(** perform an effect on a collaborator *)
Definition perform (a : Act) : cmd St Act unit := λ s, (s, [a], inr tt).

(** [raise e] *)
Definition raise {A} (e : exn) : cmd St Act A := λ s, (s, [], inl e).

Definition state_of {A} (o : St * list Act * (exn + A)) : St := o.1.1.
Definition trace_of {A} (o : St * list Act * (exn + A)) : list Act := o.1.2.
Definition result_of {A} (o : St * list Act * (exn + A)) : exn + A := o.2.
End Cmd.

Declare Scope cmd_scope.
Delimit Scope cmd_scope with cmd.
Notation "x <- m ;; k" := (bind m (λ x, k))
  (at level 100, m at next level, right associativity) : cmd_scope.
Notation "m ;; k" := (bind m (λ _, k))
  (at level 100, right associativity) : cmd_scope.
Local Open Scope cmd_scope.

(** The main loop delivers callbacks one after the other; an exception that
    escapes a callback is reported by the loop and the next callback runs on
    the object as the failed one left it. *)
Definition deliver {St Act Ev} (handler : Ev → cmd St Act unit)
    (s : St) (evs : list Ev) : St * list Act :=
  foldl (λ acc ev, let o := handler ev acc.1 in (state_of o, acc.2 ++ trace_of o))
        (s, []) evs.

(** ** _JoinCommand *)

Module JoinCommand.

Record t := Build {
  _room_handle : option handle;
  _finished : bool;
  _text_channel_group_flags : option Z;
  text_channel : option channel;
  tubes_channel : option channel;
  (** assigned by [got_self_handle] only; reading it earlier is an
      [AttributeError] *)
  _self_handle : option handle;
}.

Inductive group_signal :=
| GroupFlagsChanged
| MembersChanged.

Global Instance group_signal_eq_dec : EqDecision group_signal.
Proof. solve_decision. Defined.

(** What a command does to its collaborators, in program order. *)
Inductive action :=
(** [self._connection.RequestChannel(ctype, htype, handle, True, ...)] *)
| RequestChannel (ctype : channel_type) (htype : handle_type)
    (room : option handle) (suppress_handler : bool)
(** [Channel(bus_name, channel_path, ready_handler=...)] *)
| ChannelProxy (ctype : channel_type) (channel_path : string)
| GetSelfHandle
| ConnectToSignal (sig : group_signal)
| GetGroupFlags
| GetAllMembers
| AddMembers (contacts : list handle) (message : string)
(** [self.text_channel[PROPERTIES_INTERFACE].ListProperties(...)] *)
| ListProperties
(** [self.text_channel[PROPERTIES_INTERFACE].SetProperties(props, ...)] *)
| SetProperties (props_to_set : list (Z * bool))
(** [self.emit('finished', error)] *)
| EmitFinished (err : option error).

Global Instance action_eq_dec : EqDecision action.
Proof. solve_decision. Defined.

Local Abbreviation M := (cmd t action).

(** [__init__] *)
Definition init (room_handle : option handle) : t :=
  {| _room_handle := room_handle;
     _finished := false;
     _text_channel_group_flags := None;
     text_channel := None;
     tubes_channel := None;
     _self_handle := None |}.

Definition set_finished (b : bool) (s : t) : t :=
  {| _room_handle := _room_handle s; _finished := b;
     _text_channel_group_flags := _text_channel_group_flags s;
     text_channel := text_channel s; tubes_channel := tubes_channel s;
     _self_handle := _self_handle s |}.

Definition set_flags (f : option Z) (s : t) : t :=
  {| _room_handle := _room_handle s; _finished := _finished s;
     _text_channel_group_flags := f;
     text_channel := text_channel s; tubes_channel := tubes_channel s;
     _self_handle := _self_handle s |}.

Definition set_text_channel (c : option channel) (s : t) : t :=
  {| _room_handle := _room_handle s; _finished := _finished s;
     _text_channel_group_flags := _text_channel_group_flags s;
     text_channel := c; tubes_channel := tubes_channel s;
     _self_handle := _self_handle s |}.

Definition set_tubes_channel (c : option channel) (s : t) : t :=
  {| _room_handle := _room_handle s; _finished := _finished s;
     _text_channel_group_flags := _text_channel_group_flags s;
     text_channel := text_channel s; tubes_channel := c;
     _self_handle := _self_handle s |}.

Definition set_self_handle (h : option handle) (s : t) : t :=
  {| _room_handle := _room_handle s; _finished := _finished s;
     _text_channel_group_flags := _text_channel_group_flags s;
     text_channel := text_channel s; tubes_channel := tubes_channel s;
     _self_handle := h |}.

(** [self._self_handle] *)
Definition read_self_handle : M handle :=
  s <- self ;;
  match _self_handle s with
  | Some h => ret h
  | None => raise (AttributeError "_self_handle")
  end.

(** [self.text_channel[CHANNEL_INTERFACE_GROUP]] *)
Definition group : M unit :=
  s <- self ;;
  match text_channel s with
  | None => raise (TypeError "'NoneType' object is not subscriptable")
  | Some c =>
      if bool_decide (CHANNEL_INTERFACE_GROUP ∈ interfaces c) then ret tt
      else raise (KeyError "CHANNEL_INTERFACE_GROUP")
  end.

Definition run : M unit :=
  s <- self ;;
  if _finished s then raise (RuntimeError "This command has already finished")
  else
    perform (RequestChannel CHANNEL_TYPE_TEXT HANDLE_TYPE_ROOM
               (_room_handle s) true) ;;
    perform (RequestChannel CHANNEL_TYPE_TUBES HANDLE_TYPE_ROOM
               (_room_handle s) true).

Definition __create_text_channel_cb (channel_path : string) : M unit :=
  perform (ChannelProxy CHANNEL_TYPE_TEXT channel_path).

Definition __create_tubes_channel_cb (channel_path : string) : M unit :=
  perform (ChannelProxy CHANNEL_TYPE_TUBES channel_path).

Definition __error_handler_cb (e : error) : M unit :=
  assign (set_finished true) ;;
  perform (EmitFinished (Some e)).

Definition _add_self_to_channel : M unit :=
  group ;;
  perform GetSelfHandle.

Definition _tubes_ready : M unit :=
  s <- self ;;
  match text_channel s, tubes_channel s with
  | Some _, Some _ => _add_self_to_channel
  | _, _ => ret tt
  end.

Definition __tubes_channel_ready_cb (c : channel) : M unit :=
  assign (set_tubes_channel (Some c)) ;;
  _tubes_ready.

Definition __text_channel_ready_cb (c : channel) : M unit :=
  assign (set_text_channel (Some c)) ;;
  _tubes_ready.

(** [flags |= added; flags &= ~removed] on Python integers *)
Definition __text_channel_group_flags_changed_cb (added removed : Z)
  : M unit :=
  s <- self ;;
  match _text_channel_group_flags s with
  | None => raise (TypeError "unsupported operand type(s) for |=")
  | Some f =>
      assign (set_flags (Some (Z.lor f added))) ;;
      assign (set_flags (Some (Z.land (Z.lor f added) (Z.lnot removed))))
  end.

(** The statements after the [return] of the source are never reached. *)
Definition __text_channel_members_changed_cb
    (message : string) (added removed local_pending remote_pending
      : list handle) (actor reason : Z) : M unit :=
  h <- read_self_handle ;;
  if bool_decide (h ∈ added) then
    assign (set_finished true) ;;
    perform (EmitFinished None)
  else ret tt.

(** The closures of [_add_self_to_channel]. *)
Definition got_all_members (members local_pending remote_pending
    : list handle) : M unit :=
  (match members with
   | [] => ret tt
   | _ => __text_channel_members_changed_cb "" members [] [] [] 0 0
   end) ;;
  h <- read_self_handle ;;
  if bool_decide (h ∈ members) then
    s <- self ;;
    if _finished s then ret tt else raise AssertionError
  else
    perform (AddMembers [h] "").

Definition got_group_flags (flags : Z) : M unit :=
  assign (set_flags (Some flags)) ;;
  perform (ConnectToSignal MembersChanged) ;;
  perform GetAllMembers.

Definition got_self_handle (self_handle : handle) : M unit :=
  assign (set_self_handle (Some self_handle)) ;;
  perform (ConnectToSignal GroupFlagsChanged) ;;
  perform GetGroupFlags.

(** [lambda e: self._join_failed_cb(e, ...)], the error handler given to
    [AddMembers]: the class has no [_join_failed_cb]. *)
Definition add_members_error (e : error) : M unit :=
  raise (AttributeError "_join_failed_cb").

(** *** The property listing handler

    [__join_activity_channel_props_listed_cb] is named only by statements
    that follow the [return] of [__text_channel_members_changed_cb]; no
    call or subscription of the class registers it. *)

(** An entry of [ListProperties]: [(ident, name, sig, flags)]. *)
Definition prop_spec : Type := Z * string * string * Z.

(** The [props] dictionary of the handler. *)
Definition props : gmap string bool :=
  <["anonymous" := false]>
    (<["invite-only" := false]>
      (<["invite-restricted" := false]>
        (<["persistent" := false]>
          (<["private" := true]> ∅)))).

Section PropsListed.
(** [telepathy.constants.PROPERTY_FLAG_WRITE], of the telepathy
    bindings. *)
Variable PROPERTY_FLAG_WRITE : Z.

(** The [for] loop: [props.pop(name, None)] removes the entry it
    returns, so a name listed twice is looked at once. *)
Fixpoint props_loop (prop_specs : list prop_spec)
    (props : gmap string bool) (props_to_set : list (Z * bool))
  : list (Z * bool) :=
  match prop_specs with
  | [] => props_to_set
  | (ident, name, sig, flags) :: rest =>
      match props !! name with
      | Some value =>
          props_loop rest (delete name props)
            (if Z.land flags PROPERTY_FLAG_WRITE =? 0 then props_to_set
             else props_to_set ++ [(ident, value)])
      | None => props_loop rest props props_to_set
      end
  end.

(** [self.text_channel[PROPERTIES_INTERFACE]] *)
Definition properties_interface : M unit :=
  s <- self ;;
  match text_channel s with
  | None => raise (TypeError "'NoneType' object is not subscriptable")
  | Some c =>
      if bool_decide (PROPERTIES_INTERFACE ∈ interfaces c) then ret tt
      else raise (KeyError "PROPERTIES_INTERFACE")
  end.

(** Both branches read [self._joined_cb], which the class does not
    define: the arguments of [SetProperties] are evaluated before the
    call is made. *)
Definition __join_activity_channel_props_listed_cb
    (prop_specs : list prop_spec) : M unit :=
  match props_loop prop_specs props [] with
  | [] => raise (AttributeError "_joined_cb")
  | _ :: _ =>
      properties_interface ;;
      raise (AttributeError "_joined_cb")
  end.
End PropsListed.

(** The callbacks the main loop can deliver to a command, and [run]. *)
Inductive event :=
| Run
| CreateTextChannelReply (channel_path : string)
| CreateTubesChannelReply (channel_path : string)
(** [__error_handler_cb]: the error handler of both [RequestChannel]
    calls, of [GetSelfHandle], [GetGroupFlags] and [GetAllMembers] *)
| ErrorReply (e : error)
| TextChannelReady (c : channel)
| TubesChannelReady (c : channel)
| GotSelfHandle (self_handle : handle)
| GotGroupFlags (flags : Z)
| GotAllMembers (members local_pending remote_pending : list handle)
| FlagsChangedSignal (added removed : Z)
| MembersChangedSignal (message : string)
    (added removed local_pending remote_pending : list handle)
    (actor reason : Z)
(** [lambda: None] *)
| AddMembersReply
| AddMembersError (e : error).

Definition handler (ev : event) : M unit :=
  match ev with
  | Run => run
  | CreateTextChannelReply p => __create_text_channel_cb p
  | CreateTubesChannelReply p => __create_tubes_channel_cb p
  | ErrorReply e => __error_handler_cb e
  | TextChannelReady c => __text_channel_ready_cb c
  | TubesChannelReady c => __tubes_channel_ready_cb c
  | GotSelfHandle h => got_self_handle h
  | GotGroupFlags f => got_group_flags f
  | GotAllMembers m lp rp => got_all_members m lp rp
  | FlagsChangedSignal a r => __text_channel_group_flags_changed_cb a r
  | MembersChangedSignal msg a r lp rp actor reason =>
      __text_channel_members_changed_cb msg a r lp rp actor reason
  | AddMembersReply => ret tt
  | AddMembersError e => add_members_error e
  end.

Definition is_finished (a : action) : bool :=
  match a with EmitFinished _ => true | _ => false end.

(** The number of ['finished'] emissions in a trace. *)
Definition finished_count (tr : list action) : nat :=
  length (filter (λ a, is_finished a = true) tr).

End JoinCommand.

(** ** _ShareCommand *)

Module ShareCommand.

(** [objects] holds the [_JoinCommand] instances this command has created,
    in creation order: each stays alive through the callbacks it registered
    and stays connected to [__joined_cb], also when [_join_command] has been
    bound again.  [_join_command] is a reference into it. *)
Record t := Build {
  _activity_id : pyval;
  _finished : bool;
  _join_command : option nat;
  text_channel : option channel;
  tubes_channel : option channel;
  room_handle : option handle;
  objects : list JoinCommand.t;
}.

Inductive action :=
(** [self._connection.RequestHandles(htype, [activity_id], ...)] *)
| RequestHandles (htype : handle_type) (names : list pyval)
(** [self._connection.AddActivity(activity_id, room_handle, ...)] *)
| AddActivity (activity_id : pyval) (room : option handle)
(** an effect of the [i]-th join command, its ['finished'] included *)
| Join (i : nat) (a : JoinCommand.action)
(** [self.emit('finished', error)] *)
| EmitFinished (err : option error).

Global Instance action_eq_dec : EqDecision action.
Proof. solve_decision. Defined.

Local Abbreviation M := (cmd t action).

(** [__init__] *)
Definition init (activity_id : pyval) : t :=
  {| _activity_id := activity_id;
     _finished := false;
     _join_command := None;
     text_channel := None;
     tubes_channel := None;
     room_handle := None;
     objects := [] |}.

Definition set_finished (b : bool) (s : t) : t :=
  {| _activity_id := _activity_id s; _finished := b;
     _join_command := _join_command s;
     text_channel := text_channel s; tubes_channel := tubes_channel s;
     room_handle := room_handle s; objects := objects s |}.

Definition set_join_command (r : option nat) (s : t) : t :=
  {| _activity_id := _activity_id s; _finished := _finished s;
     _join_command := r;
     text_channel := text_channel s; tubes_channel := tubes_channel s;
     room_handle := room_handle s; objects := objects s |}.

Definition set_channels (text tubes : option channel) (s : t) : t :=
  {| _activity_id := _activity_id s; _finished := _finished s;
     _join_command := _join_command s;
     text_channel := text; tubes_channel := tubes;
     room_handle := room_handle s; objects := objects s |}.

Definition set_room_handle (h : option handle) (s : t) : t :=
  {| _activity_id := _activity_id s; _finished := _finished s;
     _join_command := _join_command s;
     text_channel := text_channel s; tubes_channel := tubes_channel s;
     room_handle := h; objects := objects s |}.

Definition set_objects (l : list JoinCommand.t) (s : t) : t :=
  {| _activity_id := _activity_id s; _finished := _finished s;
     _join_command := _join_command s;
     text_channel := text_channel s; tubes_channel := tubes_channel s;
     room_handle := room_handle s; objects := l |}.

(** The docstring of the source [run] is its only other statement. *)
Definition run : M unit :=
  s <- self ;;
  perform (RequestHandles HANDLE_TYPE_ROOM [_activity_id s]).

Definition __error_handler_cb (e : error) : M unit :=
  assign (set_finished true) ;;
  perform (EmitFinished (Some e)).

Definition __added_activity_cb : M unit :=
  assign (set_finished true) ;;
  perform (EmitFinished None).

(** [__joined_cb(join_command, error)], [join_command] being [objects[i]] *)
Definition __joined_cb (i : nat) (err : option error) : M unit :=
  match err with
  | Some e =>
      assign (set_finished true) ;;
      perform (EmitFinished (Some e))
  | None =>
      s <- self ;;
      match objects s !! i with
      | None => raise (AttributeError "text_channel")
      | Some j =>
          assign (set_channels (JoinCommand.text_channel j)
                               (JoinCommand.tubes_channel j)) ;;
          perform (AddActivity (_activity_id s) (room_handle s))
      end
  end.

(** GObject runs the connected handler inside [emit]; an exception of the
    handler is printed there and does not reach the emitter. *)
Definition swallow (m : M unit) : M unit :=
  λ s, match m s with (s1, t1, _) => (s1, t1, inr tt) end.

(** The effects of join command [i], with [__joined_cb] run at each of its
    ['finished'] emissions.  No method of [_JoinCommand] assigns an
    attribute after it has emitted, so the handler sees the attributes the
    method leaves. *)
Fixpoint emitted (i : nat) (tr : list JoinCommand.action) : M unit :=
  match tr with
  | [] => ret tt
  | a :: tr' =>
      perform (Join i a) ;;
      (match a with
       | JoinCommand.EmitFinished err => swallow (__joined_cb i err)
       | _ => ret tt
       end) ;;
      emitted i tr'
  end.

(** Run a method of join command [i]. *)
Definition on_join (i : nat) (m : cmd JoinCommand.t JoinCommand.action unit)
  : M unit :=
  λ s,
    match objects s !! i with
    | None => (s, [], inr tt)
    | Some j =>
        match m j with
        | (j1, tr, r) =>
            match emitted i tr (set_objects (<[i := j1]> (objects s)) s) with
            | (s1, t1, _) => (s1, t1, r)
            end
        end
    end.

Definition __got_handles_cb (handles : list handle) : M unit :=
  match handles with
  | [] => raise IndexError
  | h :: _ =>
      assign (set_room_handle (Some h)) ;;
      s <- self ;;
      let i := length (objects s) in
      assign (set_objects (objects s ++ [JoinCommand.init (Some h)])) ;;
      assign (set_join_command (Some i)) ;;
      on_join i JoinCommand.run
  end.

Inductive event :=
| Run
| GotHandles (handles : list handle)
(** [__error_handler_cb]: the error handler of [RequestHandles] and of
    [AddActivity] *)
| ErrorReply (e : error)
| AddedActivity
(** a callback delivered to join command [i] *)
| JoinEvent (i : nat) (ev : JoinCommand.event).

Definition handler (ev : event) : M unit :=
  match ev with
  | Run => run
  | GotHandles hs => __got_handles_cb hs
  | ErrorReply e => __error_handler_cb e
  | AddedActivity => __added_activity_cb
  | JoinEvent i ev => on_join i (JoinCommand.handler ev)
  end.

Definition is_finished (a : action) : bool :=
  match a with EmitFinished _ => true | _ => false end.

(** The number of ['finished'] emissions of the share command itself. *)
Definition finished_count (tr : list action) : nat :=
  length (filter (λ a, is_finished a = true) tr).

End ShareCommand.

(** ** Activity *)

Module Activity.

Record t := Build {
  telepathy_text_chan : option channel;
  telepathy_tubes_chan : option channel;
  _room_handle : option handle;
  _join_command : option JoinCommand.t;
  _id : pyval;
  _color : pyval;
  _name : pyval;
  _type : pyval;
  _tags : pyval;
  _private : pyval;
  _joined : pyval;
  (** the pending [GetProperties] call, [None] once answered *)
  _get_properties_call : bool;
}.

Inductive action :=
(** [bus.call_async(..., 'GetProperties', 'u', (room_handle,), ...)] *)
| GetProperties (room : option handle)
(** [telepathy_conn.connect_to_signal('ActivityPropertiesChanged', ...)] *)
| ConnectPropertiesChanged
(** [self.notify(name)] *)
| Notify (name : string)
(** [telepathy_conn.SetProperties(room_handle, properties, ...)] *)
| SetProperties (room : option handle) (properties : gmap string pyval)
(** [group.connect_to_signal('MembersChanged', ...)] *)
| ConnectMembersChanged
(** [channel.connect_to_signal('Closed', ...)] *)
| ConnectClosed
(** [self.emit('joined', ok, message)] *)
| EmitJoined (ok : bool) (message : pyval)
(** [self.emit('buddy-joined', Buddy(telepathy_conn, contact_handle))] *)
| EmitBuddyJoined (contact_handle : handle)
(** [_JoinCommand(...)] *)
| NewJoinCommand (room : option handle)
(** an effect of the join command, its ['finished'] included *)
| Join (a : JoinCommand.action).

Global Instance action_eq_dec : EqDecision action.
Proof. solve_decision. Defined.

Local Abbreviation M := (cmd t action).

Definition set_chans (text tubes : option channel) (s : t) : t :=
  {| telepathy_text_chan := text; telepathy_tubes_chan := tubes;
     _room_handle := _room_handle s; _join_command := _join_command s;
     _id := _id s; _color := _color s; _name := _name s; _type := _type s;
     _tags := _tags s; _private := _private s; _joined := _joined s;
     _get_properties_call := _get_properties_call s |}.

Definition set_join_command (j : option JoinCommand.t) (s : t) : t :=
  {| telepathy_text_chan := telepathy_text_chan s;
     telepathy_tubes_chan := telepathy_tubes_chan s;
     _room_handle := _room_handle s; _join_command := j;
     _id := _id s; _color := _color s; _name := _name s; _type := _type s;
     _tags := _tags s; _private := _private s; _joined := _joined s;
     _get_properties_call := _get_properties_call s |}.

Definition set_id (v : pyval) (s : t) : t :=
  {| telepathy_text_chan := telepathy_text_chan s;
     telepathy_tubes_chan := telepathy_tubes_chan s;
     _room_handle := _room_handle s; _join_command := _join_command s;
     _id := v; _color := _color s; _name := _name s; _type := _type s;
     _tags := _tags s; _private := _private s; _joined := _joined s;
     _get_properties_call := _get_properties_call s |}.

Definition set_color (v : pyval) (s : t) : t :=
  {| telepathy_text_chan := telepathy_text_chan s;
     telepathy_tubes_chan := telepathy_tubes_chan s;
     _room_handle := _room_handle s; _join_command := _join_command s;
     _id := _id s; _color := v; _name := _name s; _type := _type s;
     _tags := _tags s; _private := _private s; _joined := _joined s;
     _get_properties_call := _get_properties_call s |}.

Definition set_name (v : pyval) (s : t) : t :=
  {| telepathy_text_chan := telepathy_text_chan s;
     telepathy_tubes_chan := telepathy_tubes_chan s;
     _room_handle := _room_handle s; _join_command := _join_command s;
     _id := _id s; _color := _color s; _name := v; _type := _type s;
     _tags := _tags s; _private := _private s; _joined := _joined s;
     _get_properties_call := _get_properties_call s |}.

Definition set_type (v : pyval) (s : t) : t :=
  {| telepathy_text_chan := telepathy_text_chan s;
     telepathy_tubes_chan := telepathy_tubes_chan s;
     _room_handle := _room_handle s; _join_command := _join_command s;
     _id := _id s; _color := _color s; _name := _name s; _type := v;
     _tags := _tags s; _private := _private s; _joined := _joined s;
     _get_properties_call := _get_properties_call s |}.

Definition set_tags (v : pyval) (s : t) : t :=
  {| telepathy_text_chan := telepathy_text_chan s;
     telepathy_tubes_chan := telepathy_tubes_chan s;
     _room_handle := _room_handle s; _join_command := _join_command s;
     _id := _id s; _color := _color s; _name := _name s; _type := _type s;
     _tags := v; _private := _private s; _joined := _joined s;
     _get_properties_call := _get_properties_call s |}.

Definition set_private (v : pyval) (s : t) : t :=
  {| telepathy_text_chan := telepathy_text_chan s;
     telepathy_tubes_chan := telepathy_tubes_chan s;
     _room_handle := _room_handle s; _join_command := _join_command s;
     _id := _id s; _color := _color s; _name := _name s; _type := _type s;
     _tags := _tags s; _private := v; _joined := _joined s;
     _get_properties_call := _get_properties_call s |}.

Definition set_joined (v : pyval) (s : t) : t :=
  {| telepathy_text_chan := telepathy_text_chan s;
     telepathy_tubes_chan := telepathy_tubes_chan s;
     _room_handle := _room_handle s; _join_command := _join_command s;
     _id := _id s; _color := _color s; _name := _name s; _type := _type s;
     _tags := _tags s; _private := _private s; _joined := v;
     _get_properties_call := _get_properties_call s |}.

Definition set_get_properties_call (b : bool) (s : t) : t :=
  {| telepathy_text_chan := telepathy_text_chan s;
     telepathy_tubes_chan := telepathy_tubes_chan s;
     _room_handle := _room_handle s; _join_command := _join_command s;
     _id := _id s; _color := _color s; _name := _name s; _type := _type s;
     _tags := _tags s; _private := _private s; _joined := _joined s;
     _get_properties_call := b |}.

Definition _start_tracking_properties : M unit :=
  s <- self ;;
  perform (GetProperties (_room_handle s)) ;;
  assign (set_get_properties_call true) ;;
  perform ConnectPropertiesChanged.

(** [properties.get(key, dflt)] *)
Definition get (properties : gmap string pyval) (key : string)
    (dflt : pyval) : pyval :=
  default dflt (properties !! key).

(** [__init__(connection, room_handle=None, properties=None)] *)
Definition init (room_handle : option handle)
    (properties : option (gmap string pyval))
  : t * list action * (exn + unit) :=
  let blank props :=
    {| telepathy_text_chan := None; telepathy_tubes_chan := None;
       _room_handle := room_handle; _join_command := None;
       _id := get props "id" VNone;
       _color := get props "color" VNone;
       _name := get props "name" VNone;
       _type := get props "type" VNone;
       _tags := get props "tags" VNone;
       _private := get props "private" (VBool true);
       _joined := get props "joined" (VBool false);
       _get_properties_call := false |} in
  match room_handle, properties with
  | None, None =>
      (blank ∅, [],
       inl (ValueError "Need to pass one of room_handle or properties"))
  | _, _ =>
      let s := blank (default ∅ properties) in
      match room_handle with
      | Some _ => _start_tracking_properties s
      | None => (s, [], inr tt)
      end
  end.

(** One of the three [str] blocks of [_update_properties]. *)
Definition update_str (key : string) (field : t → pyval)
    (set : pyval → t → t) (new_props : gmap string pyval) : M unit :=
  s <- self ;;
  let val := get new_props key (field s) in
  if is_str val && negb (py_eq val (field s)) then
    assign (set val) ;;
    perform (Notify key)
  else ret tt.

(** One of the two write-once blocks of [_update_properties]. *)
Definition update_once (key : string) (field : t → pyval)
    (set : pyval → t → t) (new_props : gmap string pyval) : M unit :=
  s <- self ;;
  let val := get new_props key (field s) in
  if is_str val && is_none (field s) then
    assign (set val) ;;
    perform (Notify key)
  else ret tt.

Definition _update_properties (new_props : gmap string pyval) : M unit :=
  update_str "name" _name set_name new_props ;;
  update_str "tags" _tags set_tags new_props ;;
  update_str "color" _color set_color new_props ;;
  (s <- self ;;
   let val := VBool (truthy (get new_props "private" (_private s))) in
   if negb (py_eq val (_private s)) then
     assign (set_private val) ;;
     perform (Notify "private")
   else ret tt) ;;
  update_once "id" _id set_id new_props ;;
  update_once "type" _type set_type new_props.

Definition __activity_properties_changed_cb (room_handle : handle)
    (properties : gmap string pyval) : M unit :=
  _update_properties properties.

Definition _got_properties_cb (properties : gmap string pyval) : M unit :=
  assign (set_get_properties_call false) ;;
  _update_properties properties.

Definition _error_handler_cb (e : error) : M unit := ret tt.

Definition _publish_properties : M unit :=
  s <- self ;;
  let add key v (m : gmap string pyval) :=
    if is_none v then m else <[key := v]> m in
  perform (SetProperties (_room_handle s)
    (<["private" := _private s]>
      (add "tags" (_tags s)
        (add "type" (_type s)
          (add "name" (_name s)
            (add "color" (_color s) ∅)))))).

(** [do_set_property(pspec, val)], [name] being [pspec.name] *)
Definition do_set_property (name : string) (val : pyval) : M unit :=
  (if String.eqb name "name" then assign (set_name val)
   else if String.eqb name "color" then assign (set_color val)
   else if String.eqb name "tags" then assign (set_tags val)
   else if String.eqb name "private" then assign (set_private val)
   else raise (ValueError "Unknown property")) ;;
  _publish_properties.

(** [for contact_handle in added: self.emit('buddy-joined', ...)] *)
Definition __text_channel_members_changed_cb
    (message : string) (added removed local_pending remote_pending
      : list handle) (actor reason : Z) : M unit :=
  foldr (λ contact_handle k, perform (EmitBuddyJoined contact_handle) ;; k)
        (ret tt) added.

Definition __text_channel_closed_cb : M unit :=
  assign (set_joined (VBool false)) ;;
  perform (EmitJoined false (VStr "left activity")).

(** [self.telepathy_text_chan[i]] *)
Definition text_chan_interface (i : iface) : M unit :=
  s <- self ;;
  match telepathy_text_chan s with
  | None => raise (TypeError "'NoneType' object is not subscriptable")
  | Some c =>
      if bool_decide (i ∈ interfaces c) then ret tt
      else raise (KeyError "interface")
  end.

Definition _start_tracking_buddies : M unit :=
  text_chan_interface CHANNEL_INTERFACE_GROUP ;;
  perform ConnectMembersChanged.

Definition _start_tracking_channel : M unit :=
  text_chan_interface CHANNEL ;;
  perform ConnectClosed.

(** [str(error)] *)
Definition str (err : option error) : pyval :=
  match err with
  | None => VStr "None"
  | Some e => VStr e
  end.

(** [__joined_cb(join_command, error)], [join_command] being the command
    held in [_join_command] *)
Definition __joined_cb (err : option error) : M unit :=
  (match err with
   | None =>
       assign (set_joined (VBool true)) ;;
       s <- self ;;
       (match _join_command s with
        | Some j => assign (set_chans (JoinCommand.text_channel j)
                                      (JoinCommand.tubes_channel j))
        | None => raise (AttributeError "text_channel")
        end) ;;
       _start_tracking_buddies ;;
       _start_tracking_channel
   | Some _ => ret tt
   end) ;;
  perform (EmitJoined (bool_decide (err = None)) (str err)).

(** GObject runs the connected handler inside [emit]; an exception of the
    handler is printed there and does not reach the emitter. *)
Definition swallow (m : M unit) : M unit :=
  λ s, match m s with (s1, t1, _) => (s1, t1, inr tt) end.

Fixpoint emitted (tr : list JoinCommand.action) : M unit :=
  match tr with
  | [] => ret tt
  | a :: tr' =>
      perform (Join a) ;;
      (match a with
       | JoinCommand.EmitFinished err => swallow (__joined_cb err)
       | _ => ret tt
       end) ;;
      emitted tr'
  end.

(** Run a method of the join command held in [_join_command]. *)
Definition on_join (m : cmd JoinCommand.t JoinCommand.action unit)
  : M unit :=
  λ s,
    match _join_command s with
    | None => (s, [], inr tt)
    | Some j =>
        match m j with
        | (j1, tr, r) =>
            match emitted tr (set_join_command (Some j1) s) with
            | (s1, t1, _) => (s1, t1, r)
            end
        end
    end.

Definition join : M unit :=
  s <- self ;;
  match _join_command s with
  | Some _ => ret tt
  | None =>
      if truthy (_joined s) then
        perform (EmitJoined true VNone)
      else
        perform (NewJoinCommand (_room_handle s)) ;;
        assign (set_join_command (Some (JoinCommand.init (_room_handle s)))) ;;
        on_join JoinCommand.run
  end.

Inductive event :=
| CallJoin
| CallSetProperty (name : string) (val : pyval)
| GotProperties (properties : gmap string pyval)
| GetPropertiesError (e : error)
| PropertiesChangedSignal (room_handle : handle)
    (properties : gmap string pyval)
| MembersChangedSignal (message : string)
    (added removed local_pending remote_pending : list handle)
    (actor reason : Z)
| ClosedSignal
(** a callback delivered to the join command *)
| JoinEvent (ev : JoinCommand.event).

Definition handler (ev : event) : M unit :=
  match ev with
  | CallJoin => join
  | CallSetProperty name val => do_set_property name val
  | GotProperties props => _got_properties_cb props
  | GetPropertiesError e => _error_handler_cb e
  | PropertiesChangedSignal h props => __activity_properties_changed_cb h props
  | MembersChangedSignal msg a r lp rp actor reason =>
      __text_channel_members_changed_cb msg a r lp rp actor reason
  | ClosedSignal => __text_channel_closed_cb
  | JoinEvent ev => on_join (JoinCommand.handler ev)
  end.

End Activity.

(** ** Activity: sharing, reading properties, leaving *)

(** The methods of [Activity] that use a share command, and those that read
    properties or close the channel.  [_share_command] is assigned by
    [share] only.  [commands] holds the [_ShareCommand] instances [share]
    has created, in creation order: each stays connected to [__shared_cb];
    [_share_command] is a reference into it. *)
Module Facade.

Record t := Build {
  activity : Activity.t;
  _share_command : option nat;
  commands : list ShareCommand.t;
}.

Inductive action :=
(** an effect of the methods of [Activity] modelled above *)
| Base (a : Activity.action)
(** [_ShareCommand(self.telepathy_conn, self._id)] *)
| NewShareCommand (activity_id : pyval)
(** an effect of the [i]-th share command, its ['finished'] included *)
| Share (i : nat) (a : ShareCommand.action)
(** [share_activity_cb(self)] *)
| ShareActivityCb
(** [share_activity_error_cb(self, error)] *)
| ShareActivityErrorCb (e : error)
(** [self._get_properties_call.block()] *)
| Block
(** [self.telepathy_text_chan.Close()] *)
| Close.

Global Instance action_eq_dec : EqDecision action.
Proof. solve_decision. Defined.

Local Abbreviation M := (cmd t action).

(** The object [__init__] leaves. *)
Definition of_activity (a : Activity.t) : t :=
  {| activity := a; _share_command := None; commands := [] |}.

Definition set_activity (a : Activity.t) (s : t) : t :=
  {| activity := a; _share_command := _share_command s;
     commands := commands s |}.

Definition set_share_command (r : option nat) (s : t) : t :=
  {| activity := activity s; _share_command := r; commands := commands s |}.

Definition set_commands (l : list ShareCommand.t) (s : t) : t :=
  {| activity := activity s; _share_command := _share_command s;
     commands := l |}.

Definition set_room_handle (h : option handle) (a : Activity.t)
  : Activity.t :=
  {| Activity.telepathy_text_chan := Activity.telepathy_text_chan a;
     Activity.telepathy_tubes_chan := Activity.telepathy_tubes_chan a;
     Activity._room_handle := h;
     Activity._join_command := Activity._join_command a;
     Activity._id := Activity._id a; Activity._color := Activity._color a;
     Activity._name := Activity._name a; Activity._type := Activity._type a;
     Activity._tags := Activity._tags a;
     Activity._private := Activity._private a;
     Activity._joined := Activity._joined a;
     Activity._get_properties_call := Activity._get_properties_call a |}.

(** A method modelled on [Activity.t], run on the object. *)
Definition lift {A} (m : cmd Activity.t Activity.action A) : M A :=
  λ s, match m (activity s) with
       | (a1, tr, r) => (set_activity a1 s, map Base tr, r)
       end.

(** [__shared_cb(share_activity_cb, share_activity_error_cb, share_command,
    error)], [share_command] being [commands[i]] *)
Definition __shared_cb (i : nat) (err : option error) : M unit :=
  match err with
  | None =>
      s <- self ;;
      match commands s !! i with
      | None => raise (AttributeError "room_handle")
      | Some c =>
          lift (assign (Activity.set_joined (VBool true))) ;;
          lift (assign (set_room_handle (ShareCommand.room_handle c))) ;;
          lift (assign (Activity.set_chans (ShareCommand.text_channel c)
                                           (ShareCommand.tubes_channel c))) ;;
          lift Activity._publish_properties ;;
          lift Activity._start_tracking_properties ;;
          lift Activity._start_tracking_buddies ;;
          lift Activity._start_tracking_channel ;;
          perform ShareActivityCb
      end
  | Some e => perform (ShareActivityErrorCb e)
  end.

(** GObject runs the connected handler inside [emit]; an exception of the
    handler is printed there and does not reach the emitter. *)
Definition swallow (m : M unit) : M unit :=
  λ s, match m s with (s1, t1, _) => (s1, t1, inr tt) end.

(** The effects of share command [i], with [__shared_cb] run at each of its
    own ['finished'] emissions.  No method of [_ShareCommand] assigns an
    attribute after it has emitted. *)
Fixpoint emitted (i : nat) (tr : list ShareCommand.action) : M unit :=
  match tr with
  | [] => ret tt
  | a :: tr' =>
      perform (Share i a) ;;
      (match a with
       | ShareCommand.EmitFinished err => swallow (__shared_cb i err)
       | _ => ret tt
       end) ;;
      emitted i tr'
  end.

(** Run a method of share command [i]. *)
Definition on_share (i : nat)
    (m : cmd ShareCommand.t ShareCommand.action unit) : M unit :=
  λ s,
    match commands s !! i with
    | None => (s, [], inr tt)
    | Some c =>
        match m c with
        | (c1, tr, r) =>
            match emitted i tr (set_commands (<[i := c1]> (commands s)) s) with
            | (s1, t1, _) => (s1, t1, r)
            end
        end
    end.

Definition share : M unit :=
  s <- self ;;
  match Activity._room_handle (activity s) with
  | Some _ => raise (ValueError "Already have a room handle")
  | None =>
      let i := length (commands s) in
      perform (NewShareCommand (Activity._id (activity s))) ;;
      assign (set_commands
                (commands s ++ [ShareCommand.init (Activity._id (activity s))])) ;;
      assign (set_share_command (Some i)) ;;
      on_share i ShareCommand.run
  end.

(** [do_get_property(pspec)], [name] being [pspec.name].  [block()] returns
    when the pending call has completed and its handler has run: [reply] is
    what the call completes with, [None] when it has completed before. *)
Definition do_get_property (name : string)
    (reply : option (error + gmap string pyval)) : M pyval :=
  s <- self ;;
  if String.eqb name "joined" then ret (Activity._joined (activity s))
  else
    (if Activity._get_properties_call (activity s) then
       perform Block ;;
       match reply with
       | Some (inr properties) => lift (Activity._got_properties_cb properties)
       | Some (inl e) => lift (Activity._error_handler_cb e)
       | None => ret tt
       end
     else ret tt) ;;
    s <- self ;;
    if String.eqb name "id" then ret (Activity._id (activity s))
    else if String.eqb name "name" then ret (Activity._name (activity s))
    else if String.eqb name "color" then ret (Activity._color (activity s))
    else if String.eqb name "type" then ret (Activity._type (activity s))
    else if String.eqb name "tags" then ret (Activity._tags (activity s))
    else if String.eqb name "private" then ret (Activity._private (activity s))
    else ret VNone.

Definition leave : M unit :=
  s <- self ;;
  match Activity.telepathy_text_chan (activity s) with
  | None => raise (AttributeError "Close")
  | Some _ => perform Close
  end.

Inductive event :=
| CallShare
| CallLeave
| CallGetProperty (name : string) (reply : option (error + gmap string pyval))
(** a callback delivered to share command [i] *)
| ShareEvent (i : nat) (ev : ShareCommand.event)
(** a call or callback of the methods modelled on [Activity.t] *)
| ActivityEvent (ev : Activity.event).

Definition handler (ev : event) : M unit :=
  match ev with
  | CallShare => share
  | CallLeave => leave
  | CallGetProperty name reply => do_get_property name reply ;; ret tt
  | ShareEvent i ev => on_share i (ShareCommand.handler ev)
  | ActivityEvent ev => lift (Activity.handler ev)
  end.

End Facade.

(** * Vocabulary of the properties *)

Import JoinCommand(event(..), action(..), group_signal(..)).

(** A delivery is terminal when it is the error handler, or a membership
    event, live or made from the member list of [GetAllMembers], whose
    added handles include the self handle. *)
Definition join_terminal (s : JoinCommand.t) (ev : JoinCommand.event) : bool :=
  match ev with
  | ErrorReply _ => true
  | MembersChangedSignal _ added _ _ _ _ _ =>
      match JoinCommand._self_handle s with
      | Some h => bool_decide (h ∈ added)
      | None => false
      end
  | GotAllMembers members _ _ =>
      match JoinCommand._self_handle s with
      | Some h => bool_decide (h ∈ members)
      | None => false
      end
  | _ => false
  end.

(** The terminal deliveries of a sequence, each judged on the command as the
    deliveries before it left it. *)
Fixpoint join_terminals (s : JoinCommand.t) (evs : list JoinCommand.event)
  : nat :=
  match evs with
  | [] => 0
  | ev :: evs' =>
      ((if join_terminal s ev then 1 else 0) +
       join_terminals (state_of (JoinCommand.handler ev s)) evs')%nat
  end.

Definition is_failure (a : JoinCommand.action) : bool :=
  match a with EmitFinished (Some _) => true | _ => false end.

(** The failures among the ['finished'] emissions of a join command. *)
Definition join_failures (tr : list JoinCommand.action) : nat :=
  length (filter (λ a, is_failure a = true) tr).

(** A delivery to the share command is terminal when it is its error
    handler, the reply of [AddActivity], or the error handler of one of its
    join commands. *)
Definition share_terminal (s : ShareCommand.t) (ev : ShareCommand.event)
  : bool :=
  match ev with
  | ShareCommand.ErrorReply _ => true
  | ShareCommand.AddedActivity => true
  | ShareCommand.JoinEvent i (ErrorReply _) =>
      bool_decide (is_Some (ShareCommand.objects s !! i))
  | _ => false
  end.

Fixpoint share_terminals (s : ShareCommand.t) (evs : list ShareCommand.event)
  : nat :=
  match evs with
  | [] => 0
  | ev :: evs' =>
      ((if share_terminal s ev then 1 else 0) +
       share_terminals (state_of (ShareCommand.handler ev s)) evs')%nat
  end.

(** The two orders of the flags subscription and the flags fetch in a
    trace: the fetch is found before each subscription, or the subscription
    is the effect right before each fetch and the fetch the effect right
    after each subscription. *)
Definition fetched_before_subscribed (tr : list JoinCommand.action) : Prop :=
  ∀ pre post,
    tr = pre ++ ConnectToSignal GroupFlagsChanged :: post →
    GetGroupFlags ∈ pre.

Definition subscribed_before_fetched (tr : list JoinCommand.action) : Prop :=
  (∀ pre post,
     tr = pre ++ GetGroupFlags :: post →
     ∃ pre', pre = pre' ++ [ConnectToSignal GroupFlagsChanged]) ∧
  (∀ pre post,
     tr = pre ++ ConnectToSignal GroupFlagsChanged :: post →
     ∃ post', post = GetGroupFlags :: post').

(** A trace in which the subscription and the fetch only occur as the pair
    [got_self_handle] performs. *)
Inductive flags_paired : list JoinCommand.action → Prop :=
| flags_paired_nil : flags_paired []
| flags_paired_pair tr :
    flags_paired tr →
    flags_paired (ConnectToSignal GroupFlagsChanged :: GetGroupFlags :: tr)
| flags_paired_other a tr :
    a ≠ ConnectToSignal GroupFlagsChanged → a ≠ GetGroupFlags →
    flags_paired tr →
    flags_paired (a :: tr).

(** The handles reported by ['buddy-joined'], in the order of emission. *)
Definition buddy_joined_reports (tr : list Activity.action) : list handle :=
  flat_map (λ a, match a with
                 | Activity.EmitBuddyJoined h => [h]
                 | _ => []
                 end) tr.

(** The handles a delivery to the activity announces as added. *)
Definition added_of (ev : Activity.event) : list handle :=
  match ev with
  | Activity.MembersChangedSignal _ added _ _ _ _ _ => added
  | _ => []
  end.

(** Channels as the scenarios use them: a text channel with a group and a
    properties interface, and a tubes channel. *)
Definition text_chan : channel :=
  Channel "/chan/text" [CHANNEL; CHANNEL_INTERFACE_GROUP; PROPERTIES_INTERFACE].

Definition tubes_chan : channel :=
  Channel "/chan/tubes" [CHANNEL].

(** The callbacks of a negotiation up to the member list: both channels
    become ready, the self handle is 7, the flags are 0. *)
Definition negotiation_callbacks : list JoinCommand.event :=
  [CreateTextChannelReply "/chan/text";
   CreateTubesChannelReply "/chan/tubes";
   TextChannelReady text_chan;
   TubesChannelReady tubes_chan;
   GotSelfHandle 7;
   GotGroupFlags 0].

(** [run] and these callbacks. *)
Definition negotiation_events : list JoinCommand.event :=
  Run :: negotiation_callbacks.

(** A share command up to the admission of its join command: the lookup
    answers [h], the join command negotiates, the member list is empty, the
    self handle is added. *)
Definition share_admission_pending (h : handle) : list ShareCommand.event :=
  [ShareCommand.Run; ShareCommand.GotHandles [h]] ++
  map (ShareCommand.JoinEvent 0) negotiation_callbacks ++
  [ShareCommand.JoinEvent 0 (GotAllMembers [] [] []);
   ShareCommand.JoinEvent 0 AddMembersReply].

Definition share_events (h : handle) : list ShareCommand.event :=
  share_admission_pending h ++
  [ShareCommand.JoinEvent 0 (MembersChangedSignal "" [7] [] [] [] 0 0)].

(** The effects of the share command itself in a trace, those of its join
    commands left out. *)
Definition is_own (a : ShareCommand.action) : bool :=
  match a with ShareCommand.Join _ _ => false | _ => true end.

Definition share_own (tr : list ShareCommand.action)
  : list ShareCommand.action :=
  filter (λ a, is_own a = true) tr.

(** An effect other than a call of the properties interface. *)
Definition no_properties_call (a : JoinCommand.action) : Prop :=
  a ≠ ListProperties ∧ ∀ l, a ≠ SetProperties l.

(** A command keeps [I] and performs effects in [T] only. *)
Definition cmd_inv {St Act A} (I : St → Prop) (T : Act → Prop)
    (m : cmd St Act A) : Prop :=
  ∀ s, I s → I (state_of (m s)) ∧ Forall T (trace_of (m s)).

(** The [id] and the [type] of an activity are [v] and [w], where these are
    not [None]. *)
Definition id_type_kept (v w : pyval) (s : Activity.t) : Prop :=
  (v ≠ VNone → Activity._id s = v) ∧ (w ≠ VNone → Activity._type s = w).

(** An effect other than a ['buddy-joined'] emission. *)
Definition no_report (a : Activity.action) : Prop :=
  ∀ h, a ≠ Activity.EmitBuddyJoined h.

(** An activity made for room 42 and not joined, with an id and a type, as
    [__init__] leaves it. *)
Definition activity_42 : Activity.t :=
  {| Activity.telepathy_text_chan := None;
     Activity.telepathy_tubes_chan := None;
     Activity._room_handle := Some 42;
     Activity._join_command := None;
     Activity._id := VStr "abc";
     Activity._color := VNone;
     Activity._name := VNone;
     Activity._type := VStr "org.laptop.Chat";
     Activity._tags := VNone;
     Activity._private := VBool true;
     Activity._joined := VBool false;
     Activity._get_properties_call := true |}.

(** The callbacks that take the join command of an activity from [run] to
    its ['finished']: the negotiation, an empty member list, the self handle
    added. *)
Definition activity_join_events : list Activity.event :=
  Activity.CallJoin ::
  map Activity.JoinEvent
    (negotiation_callbacks ++
     [GotAllMembers [] [] []; AddMembersReply;
      MembersChangedSignal "" [7] [] [] [] 0 0]).

(** ** Vocabulary of the further properties *)

(** Every [b] of a trace has an [a] right before it. *)
Definition immediately_before (a b : JoinCommand.action)
    (tr : list JoinCommand.action) : Prop :=
  ∀ pre post, tr = pre ++ b :: post → ∃ pre', pre = pre' ++ [a].

(** A trace in which [a] and [b] only occur as the pair [a; b]. *)
Inductive paired (a b : JoinCommand.action)
  : list JoinCommand.action → Prop :=
| paired_nil : paired a b []
| paired_pair tr : paired a b tr → paired a b (a :: b :: tr)
| paired_other x tr :
    x ≠ a → x ≠ b → paired a b tr → paired a b (x :: tr).

(** The name of a listed property. *)
Definition spec_name (spec : JoinCommand.prop_spec) : string := spec.1.1.2.

(** What one listed property contributes when it is looked at: the pair to
    set, for a requested name whose flags have the write bit. *)
Definition wanted (W : Z) (props : gmap string bool)
    (spec : JoinCommand.prop_spec) : option (Z * bool) :=
  match props !! spec_name spec with
  | Some value =>
      if Z.land spec.2 W =? 0 then None else Some (spec.1.1.1, value)
  | None => None
  end.

(** The attribute of an activity a property name stands for. *)
Definition field_of (name : string) (s : Activity.t) : pyval :=
  if String.eqb name "name" then Activity._name s
  else if String.eqb name "tags" then Activity._tags s
  else if String.eqb name "color" then Activity._color s
  else if String.eqb name "private" then Activity._private s
  else if String.eqb name "id" then Activity._id s
  else if String.eqb name "type" then Activity._type s
  else VNone.

(** The [_JoinCommand] constructions in a trace of an activity. *)
Definition new_join_commands (tr : list Activity.action) : nat :=
  length (filter (λ a, match a with
                       | Activity.NewJoinCommand _ => true
                       | _ => false
                       end = true) tr).

(** The [AddActivity] calls in a trace of a share command, and the
    ['finished'] emissions with no error of its join commands. *)
Definition registrations (tr : list ShareCommand.action) : nat :=
  length (filter (λ a, match a with
                       | ShareCommand.AddActivity _ _ => true
                       | _ => false
                       end = true) tr).

Definition join_successes (tr : list ShareCommand.action) : nat :=
  length (filter (λ a, match a with
                       | ShareCommand.Join _ (EmitFinished None) => true
                       | _ => false
                       end = true) tr).

(** A delivery to a join command other than the reply of [GetGroupFlags]. *)
Definition not_flags_reply (ev : JoinCommand.event) : Prop :=
  ∀ f, ev ≠ GotGroupFlags f.

(** What [_update_properties] leaves in an attribute that held [old]: for
    [name], [tags] and [color], for [private], and for [id] and [type]. *)
Definition str_changes (key : string) (new_props : gmap string pyval)
    (old : pyval) : bool :=
  is_str (Activity.get new_props key old) &&
  negb (py_eq (Activity.get new_props key old) old).

Definition private_changes (new_props : gmap string pyval) (old : pyval)
  : bool :=
  negb (py_eq (VBool (truthy (Activity.get new_props "private" old))) old).

Definition once_changes (key : string) (new_props : gmap string pyval)
    (old : pyval) : bool :=
  is_str (Activity.get new_props key old) && is_none old.

Definition updated (new_props : gmap string pyval) (s : Activity.t)
  : Activity.t :=
  {| Activity.telepathy_text_chan := Activity.telepathy_text_chan s;
     Activity.telepathy_tubes_chan := Activity.telepathy_tubes_chan s;
     Activity._room_handle := Activity._room_handle s;
     Activity._join_command := Activity._join_command s;
     Activity._id :=
       if once_changes "id" new_props (Activity._id s)
       then Activity.get new_props "id" (Activity._id s) else Activity._id s;
     Activity._color :=
       if str_changes "color" new_props (Activity._color s)
       then Activity.get new_props "color" (Activity._color s)
       else Activity._color s;
     Activity._name :=
       if str_changes "name" new_props (Activity._name s)
       then Activity.get new_props "name" (Activity._name s)
       else Activity._name s;
     Activity._type :=
       if once_changes "type" new_props (Activity._type s)
       then Activity.get new_props "type" (Activity._type s)
       else Activity._type s;
     Activity._tags :=
       if str_changes "tags" new_props (Activity._tags s)
       then Activity.get new_props "tags" (Activity._tags s)
       else Activity._tags s;
     Activity._private :=
       if private_changes new_props (Activity._private s)
       then VBool (truthy (Activity.get new_props "private"
                             (Activity._private s)))
       else Activity._private s;
     Activity._joined := Activity._joined s;
     Activity._get_properties_call := Activity._get_properties_call s |}.

Definition notified (new_props : gmap string pyval) (s : Activity.t)
  : list Activity.action :=
  (if str_changes "name" new_props (Activity._name s)
   then [Activity.Notify "name"] else []) ++
  (if str_changes "tags" new_props (Activity._tags s)
   then [Activity.Notify "tags"] else []) ++
  (if str_changes "color" new_props (Activity._color s)
   then [Activity.Notify "color"] else []) ++
  (if private_changes new_props (Activity._private s)
   then [Activity.Notify "private"] else []) ++
  (if once_changes "id" new_props (Activity._id s)
   then [Activity.Notify "id"] else []) ++
  (if once_changes "type" new_props (Activity._type s)
   then [Activity.Notify "type"] else []).

(** An activity made from properties, with no room yet. *)
Definition activity_new : Activity.t :=
  {| Activity.telepathy_text_chan := None;
     Activity.telepathy_tubes_chan := None;
     Activity._room_handle := None;
     Activity._join_command := None;
     Activity._id := VStr "abc";
     Activity._color := VNone;
     Activity._name := VStr "chat";
     Activity._type := VStr "org.laptop.Chat";
     Activity._tags := VNone;
     Activity._private := VBool true;
     Activity._joined := VBool false;
     Activity._get_properties_call := false |}.

(** [share] and the callbacks of its share command up to the registration:
    the lookup answers 99, the join command negotiates and is admitted. *)
Definition sharing_events : list Facade.event :=
  Facade.CallShare :: map (Facade.ShareEvent 0) (tail (share_events 99)).

(** An effect other than the making or the running of a share command. *)
Definition no_sharing (a : Facade.action) : Prop :=
  match a with
  | Facade.NewShareCommand _ | Facade.Share _ _ => False
  | _ => True
  end.

(** A channel request, if [a] is one, is for room [room]. *)
Definition requests_room (room : option handle) (a : JoinCommand.action)
  : Prop :=
  ∀ ctype htype r suppress,
    a = RequestChannel ctype htype r suppress →
    htype = HANDLE_TYPE_ROOM ∧ r = room ∧ suppress = true.

(** An activity that has a room handle and has made no share command. *)
Definition roomed (s : Facade.t) : Prop :=
  is_Some (Activity._room_handle (Facade.activity s)) ∧
  Facade.commands s = [].

(** What a share command runs at effect [a] of its join command [i]. *)
Definition share_dispatch (i : nat) (a : JoinCommand.action)
  : cmd ShareCommand.t ShareCommand.action unit :=
  match a with
  | EmitFinished err => ShareCommand.swallow (ShareCommand.__joined_cb i err)
  | _ => ret tt
  end.

(** The lookup replies with a handle among the deliveries to a share
    command. *)
Definition lookups (evs : list ShareCommand.event) : nat :=
  length (filter (λ ev, match ev with
                        | ShareCommand.GotHandles (_ :: _) => true
                        | _ => false
                        end = true) evs).

(** The value [__init__] gives an attribute whose key is missing. *)
Definition init_default (key : string) : pyval :=
  if String.eqb key "private" then VBool true
  else if String.eqb key "joined" then VBool false
  else VNone.

(** The errors the ['finished'] emissions of the share command itself carry,
    in the order of a trace; [None] is the emission with no error. *)
Definition own_outcomes (tr : list ShareCommand.action)
  : list (option error) :=
  omap (λ a, match a with
             | ShareCommand.EmitFinished err => Some err
             | _ => None
             end) tr.

(** The errors a join command finishes with in a trace. *)
Definition join_errors (tr : list JoinCommand.action) : list (option error) :=
  omap (λ a, match a with
             | EmitFinished (Some e) => Some (Some e)
             | _ => None
             end) tr.

(** What a delivery to the share command has to emit: a delivery of its
    error handler its error, the reply of [AddActivity] no error, the error
    handler of one of its join commands its error, any other delivery
    nothing. *)
Definition share_outcome (s : ShareCommand.t) (ev : ShareCommand.event)
  : list (option error) :=
  match ev with
  | ShareCommand.ErrorReply e => [Some e]
  | ShareCommand.AddedActivity => [None]
  | ShareCommand.JoinEvent i (ErrorReply e) =>
      if bool_decide (is_Some (ShareCommand.objects s !! i)) then [Some e]
      else []
  | _ => []
  end.

Fixpoint share_outcomes (s : ShareCommand.t) (evs : list ShareCommand.event)
  : list (option error) :=
  match evs with
  | [] => []
  | ev :: evs' =>
      share_outcome s ev ++
      share_outcomes (state_of (ShareCommand.handler ev s)) evs'
  end.

(** A share command whose lookup answers 99 and whose join command is
    refused both channels. *)
Definition share_both_channels_refused : list ShareCommand.event :=
  [ShareCommand.Run; ShareCommand.GotHandles [99];
   ShareCommand.JoinEvent 0 (ErrorReply "no text channel");
   ShareCommand.JoinEvent 0 (ErrorReply "no tubes channel")].

(** The listings the loop of the property handler looks a name up for: the
    first listing of each name, those of the names in [seen] left out. *)
Fixpoint first_listings (seen : list string)
    (prop_specs : list JoinCommand.prop_spec) : list JoinCommand.prop_spec :=
  match prop_specs with
  | [] => []
  | spec :: rest =>
      if bool_decide (spec_name spec ∈ seen) then first_listings seen rest
      else spec :: first_listings (spec_name spec :: seen) rest
  end.

(** * Properties *)

(** ** Delivery *)

Section Deliver.
Context {St Act Ev : Type} (h : Ev → cmd St Act unit).

Lemma deliver_nil (s : St) : deliver h s [] = (s, []).
Proof. reflexivity. Qed.

Lemma deliver_snoc (s : St) (evs : list Ev) (ev : Ev) :
  deliver h s (evs ++ [ev]) =
    (state_of (h ev (deliver h s evs).1),
     (deliver h s evs).2 ++ trace_of (h ev (deliver h s evs).1)).
Proof. unfold deliver. rewrite foldl_app. reflexivity. Qed.

Lemma foldl_deliver_acc (evs : list Ev) (s : St) (tr : list Act) :
  foldl (λ acc ev, let o := h ev acc.1 in
                   (state_of o, acc.2 ++ trace_of o)) (s, tr) evs =
    ((deliver h s evs).1, tr ++ (deliver h s evs).2).
Proof.
  revert s tr. induction evs as [|ev evs IH]; intros s tr; simpl.
  - by rewrite app_nil_r.
  - unfold deliver. simpl. rewrite (IH _ (tr ++ _)), (IH _ (trace_of _)).
    simpl. by rewrite app_assoc.
Qed.

Lemma deliver_cons (s : St) (ev : Ev) (evs : list Ev) :
  deliver h s (ev :: evs) =
    ((deliver h (state_of (h ev s)) evs).1,
     trace_of (h ev s) ++ (deliver h (state_of (h ev s)) evs).2).
Proof. unfold deliver at 1. simpl. apply foldl_deliver_acc. Qed.

Lemma deliver_app (s : St) (evs1 evs2 : list Ev) :
  deliver h s (evs1 ++ evs2) =
    ((deliver h (deliver h s evs1).1 evs2).1,
     (deliver h s evs1).2 ++ (deliver h (deliver h s evs1).1 evs2).2).
Proof.
  unfold deliver at 1. rewrite foldl_app.
  fold (deliver h s evs1). destruct (deliver h s evs1) as [s1 t1].
  apply foldl_deliver_acc.
Qed.
End Deliver.

(** ** Invariants of commands *)

Section Invariant.
Context {St Act : Type} (I : St → Prop) (T : Act → Prop).

Lemma inv_ret {A} (a : A) : cmd_inv I T (ret a).
Proof. intros s Hs. split; [done|constructor]. Qed.

Lemma inv_self : cmd_inv I T self.
Proof. intros s Hs. split; [done|constructor]. Qed.

Lemma inv_raise {A} (e : exn) : cmd_inv I T (raise (A:=A) e).
Proof. intros s Hs. split; [done|constructor]. Qed.

Lemma inv_assign (f : St → St) :
  (∀ s, I s → I (f s)) → cmd_inv I T (assign f).
Proof. intros Hf s Hs. split; [by apply Hf|constructor]. Qed.

Lemma inv_perform (a : Act) : T a → cmd_inv I T (perform a).
Proof. intros Ha s Hs. split; [done|by repeat constructor]. Qed.

Lemma inv_bind {A B} (m : cmd St Act A) (k : A → cmd St Act B) :
  cmd_inv I T m → (∀ a, cmd_inv I T (k a)) → cmd_inv I T (bind m k).
Proof.
  intros Hm Hk s Hs. destruct (Hm s Hs) as [H1 H2].
  unfold bind, state_of, trace_of in *.
  destruct (m s) as [[s1 t1] [e|a]]; simpl in *; [done|].
  destruct (Hk a s1 H1) as [H3 H4]. unfold state_of, trace_of in *.
  destruct (k a s1) as [[s2 t2] r]; simpl in *.
  split; [done|]. by apply Forall_app.
Qed.

Lemma deliver_inv {Ev} (h : Ev → cmd St Act unit) :
  (∀ ev, cmd_inv I T (h ev)) →
  ∀ evs s, I s → I (deliver h s evs).1 ∧ Forall T (deliver h s evs).2.
Proof.
  intros Hh evs. induction evs as [|ev evs IH]; intros s Hs.
  - split; [done|constructor].
  - rewrite deliver_cons. simpl. destruct (Hh ev s Hs) as [H1 H2].
    destruct (IH _ H1) as [H3 H4]. split; [done|]. by apply Forall_app.
Qed.
End Invariant.

Ltac inv_step :=
  first
    [ apply inv_ret | apply inv_self | apply inv_raise
    | apply inv_perform;
        first [done | intros ?; discriminate
              | split; [discriminate|intros ?; discriminate]]
    | apply inv_assign; intros; done
    | apply inv_bind; [|intros ?]
    | match goal with
      | |- cmd_inv _ _ (match ?x with _ => _ end) => destruct x
      end ].

(** Unfolds the commands of a method body. *)
Ltac cmd_unfold :=
  cbv [bind ret self assign perform raise state_of trace_of result_of].

Ltac cmd_cases :=
  repeat (cmd_unfold; simpl;
          match goal with
          | |- context [match ?x with _ => _ end] =>
              lazymatch x with
              | context [match _ with _ => _ end] => fail
              | _ => destruct x eqn:?
              end
          end); cmd_unfold; simpl.

(** ** The join command, one callback at a time *)

Lemma join_finished_count_app (t1 t2 : list JoinCommand.action) :
  JoinCommand.finished_count (t1 ++ t2) =
    (JoinCommand.finished_count t1 + JoinCommand.finished_count t2)%nat.
Proof. unfold JoinCommand.finished_count. by rewrite filter_app, length_app. Qed.

(** Unfolds the methods of the join command. *)
Ltac join_unfold :=
  cbv [JoinCommand.handler
       JoinCommand.run JoinCommand.__create_text_channel_cb
       JoinCommand.__create_tubes_channel_cb JoinCommand.__error_handler_cb
       JoinCommand.__text_channel_ready_cb JoinCommand.__tubes_channel_ready_cb
       JoinCommand._tubes_ready JoinCommand._add_self_to_channel
       JoinCommand.group JoinCommand.got_self_handle
       JoinCommand.got_group_flags JoinCommand.got_all_members
       JoinCommand.__text_channel_group_flags_changed_cb
       JoinCommand.__text_channel_members_changed_cb
       JoinCommand.read_self_handle JoinCommand.add_members_error].

Ltac join_cases ev := destruct ev; join_unfold; cmd_cases.

Lemma join_handler_finished_count (s : JoinCommand.t) (ev : JoinCommand.event) :
  JoinCommand.finished_count (trace_of (JoinCommand.handler ev s)) =
    if join_terminal s ev then 1%nat else 0%nat.
Proof. join_cases ev; try reflexivity; congruence. Qed.

(** [_finished] is set by the terminal deliveries and never cleared. *)
Lemma join_handler_finished_flag (s : JoinCommand.t) (ev : JoinCommand.event) :
  JoinCommand._finished (state_of (JoinCommand.handler ev s)) =
    JoinCommand._finished s || join_terminal s ev.
Proof.
  join_cases ev; rewrite ?orb_false_r, ?orb_true_r; done.
Qed.

Lemma join_deliver_finished_count (evs : list JoinCommand.event)
    (s : JoinCommand.t) :
  JoinCommand.finished_count (deliver JoinCommand.handler s evs).2 =
    join_terminals s evs.
Proof.
  revert s. induction evs as [|ev evs IH]; intros s; [reflexivity|].
  rewrite deliver_cons. simpl.
  by rewrite join_finished_count_app, join_handler_finished_count, IH.
Qed.

Lemma join_deliver_finished_flag (evs : list JoinCommand.event)
    (s : JoinCommand.t) :
  JoinCommand._finished (deliver JoinCommand.handler s evs).1 =
    JoinCommand._finished s ||
    bool_decide (1 ≤ JoinCommand.finished_count
                       (deliver JoinCommand.handler s evs).2)%nat.
Proof.
  revert s. induction evs as [|ev evs IH]; intros s.
  - simpl. by rewrite orb_false_r.
  - rewrite deliver_cons. simpl.
    rewrite IH, join_handler_finished_flag, join_finished_count_app,
      join_handler_finished_count.
    by destruct (JoinCommand._finished s), (join_terminal s ev).
Qed.


(** ** The share command, one callback at a time *)

Lemma share_finished_count_app (t1 t2 : list ShareCommand.action) :
  ShareCommand.finished_count (t1 ++ t2) =
    (ShareCommand.finished_count t1 + ShareCommand.finished_count t2)%nat.
Proof. unfold ShareCommand.finished_count. by rewrite filter_app, length_app. Qed.

Lemma share_finished_count_cons (a : ShareCommand.action)
    (tr : list ShareCommand.action) :
  ShareCommand.finished_count (a :: tr) =
    ((if ShareCommand.is_finished a then 1 else 0) +
     ShareCommand.finished_count tr)%nat.
Proof.
  unfold ShareCommand.finished_count. rewrite filter_cons.
  destruct (ShareCommand.is_finished a); by case_decide.
Qed.

Lemma join_failures_cons (a : JoinCommand.action)
    (tr : list JoinCommand.action) :
  join_failures (a :: tr) =
    ((if is_failure a then 1 else 0) + join_failures tr)%nat.
Proof.
  unfold join_failures. rewrite filter_cons.
  destruct (is_failure a); by case_decide.
Qed.

(** The share command emits once for each failure its join command emits,
    and not at all for the other effects of the join command. *)
Lemma share_emitted_finished_count (i : nat) (tr : list JoinCommand.action)
    (s : ShareCommand.t) :
  ShareCommand.finished_count (trace_of (ShareCommand.emitted i tr s)) =
    join_failures tr.
Proof.
  revert s. induction tr as [|a tr IH]; intros s; [reflexivity|].
  rewrite join_failures_cons. simpl.
  unfold bind at 1. unfold perform at 1.
  unfold bind at 1.
  destruct a as [| | | | | | | | |[e|]]; simpl.
  all: unfold ShareCommand.swallow, ShareCommand.__joined_cb.
  all: cmd_cases.
  all: rewrite ?share_finished_count_cons, ?share_finished_count_app; simpl.
  all: match goal with
       | H : ShareCommand.emitted _ _ ?s1 = (_, _, _) |- _ =>
           specialize (IH s1); rewrite H in IH; unfold trace_of in IH;
           simpl in IH
       end.
  all: repeat match goal with
       | H : (_, _, _) = (_, _, _) |- _ => injection H as <- <- <-
       end.
  all: simpl; lia.
Qed.

Lemma join_handler_failures (j : JoinCommand.t) (ev : JoinCommand.event) :
  join_failures (trace_of (JoinCommand.handler ev j)) =
    match ev with ErrorReply _ => 1%nat | _ => 0%nat end.
Proof. join_cases ev; done. Qed.

(** Running a method of join command [i]: the share command emits once for
    each failure the method emits. *)
Lemma share_on_join_finished_count (i : nat)
    (m : cmd JoinCommand.t JoinCommand.action unit) (s : ShareCommand.t) :
  ShareCommand.finished_count (trace_of (ShareCommand.on_join i m s)) =
    match ShareCommand.objects s !! i with
    | Some j => join_failures (trace_of (m j))
    | None => 0%nat
    end.
Proof.
  unfold ShareCommand.on_join.
  destruct (ShareCommand.objects s !! i) as [j|]; [|reflexivity].
  destruct (m j) as [[j1 tr] r].
  pose proof (share_emitted_finished_count i tr
    (ShareCommand.set_objects (<[i:=j1]> (ShareCommand.objects s)) s)) as H.
  destruct (ShareCommand.emitted _ _ _) as [[s1 t1] r1]. exact H.
Qed.

Lemma share_handler_finished_count (s : ShareCommand.t)
    (ev : ShareCommand.event) :
  ShareCommand.finished_count (trace_of (ShareCommand.handler ev s)) =
    if share_terminal s ev then 1%nat else 0%nat.
Proof.
  destruct ev as [|hs|e| |i jev]; simpl; try reflexivity.
  - destruct hs as [|h hs]; [reflexivity|].
    unfold ShareCommand.__got_handles_cb.
    cmd_unfold. simpl.
    pose proof (share_on_join_finished_count
      (length (ShareCommand.objects s)) JoinCommand.run) as H.
    unfold trace_of in H.
    match goal with
    | |- context [ShareCommand.on_join _ _ ?s1] =>
        specialize (H s1); destruct (ShareCommand.on_join _ _ s1) as [[s2 t2] r2]
    end.
    simpl in *. rewrite H.
    rewrite list_lookup_middle by done. reflexivity.
  - rewrite share_on_join_finished_count.
    destruct (ShareCommand.objects s !! i) as [j|] eqn:Hj.
    + rewrite join_handler_failures. by destruct jev.
    + by destruct jev.
Qed.

Lemma share_deliver_finished_count (evs : list ShareCommand.event)
    (s : ShareCommand.t) :
  ShareCommand.finished_count (deliver ShareCommand.handler s evs).2 =
    share_terminals s evs.
Proof.
  revert s. induction evs as [|ev evs IH]; intros s; [reflexivity|].
  rewrite deliver_cons. simpl.
  by rewrite share_finished_count_app, share_handler_finished_count, IH.
Qed.

(** ** The claims on the join command *)

(** C1, as amended.  Every terminal delivery, to a join command or to a share
    command, produces one ['finished'] emission of its own, whether or not
    the command has finished before: over any sequence of deliveries the
    number of emissions is the number of terminal deliveries. *)
Theorem finished_once_per_terminal_delivery :
  (∀ (s : JoinCommand.t) (evs : list JoinCommand.event),
     JoinCommand.finished_count (deliver JoinCommand.handler s evs).2 =
       join_terminals s evs) ∧
  (∀ (s : ShareCommand.t) (evs : list ShareCommand.event),
     ShareCommand.finished_count (deliver ShareCommand.handler s evs).2 =
       share_terminals s evs).
Proof.
  split; intros s evs.
  - apply join_deliver_finished_count.
  - apply share_deliver_finished_count.
Qed.

(** C1 fails when both channel requests fail: each error callback emits. *)
Lemma both_channel_requests_fail :
  (deliver JoinCommand.handler (JoinCommand.init (Some 42))
     [Run; ErrorReply "no text channel"; ErrorReply "no tubes channel"]).2 =
    [RequestChannel CHANNEL_TYPE_TEXT HANDLE_TYPE_ROOM (Some 42) true;
     RequestChannel CHANNEL_TYPE_TUBES HANDLE_TYPE_ROOM (Some 42) true;
     EmitFinished (Some "no text channel");
     EmitFinished (Some "no tubes channel")] ∧
  JoinCommand.finished_count
    (deliver JoinCommand.handler (JoinCommand.init (Some 42))
       [Run; ErrorReply "no text channel"; ErrorReply "no tubes channel"]).2
    ≠ 1%nat.
Proof. split; [reflexivity|]. vm_compute. discriminate. Qed.

(** The same for the membership event that adds the self handle, delivered
    twice. *)
Lemma self_handle_added_twice :
  (deliver JoinCommand.handler
     (deliver JoinCommand.handler (JoinCommand.init (Some 42))
        negotiation_events).1
     [MembersChangedSignal "" [7] [] [] [] 0 0;
      MembersChangedSignal "" [7] [] [] [] 0 0]).2 =
    [EmitFinished None; EmitFinished None].
Proof. reflexivity. Qed.

(** No callback of the join command lists or sets channel properties. *)
Lemma join_handler_no_properties (ev : JoinCommand.event) :
  cmd_inv (λ _, True) no_properties_call (JoinCommand.handler ev).
Proof.
  destruct ev; join_unfold; repeat inv_step.
Qed.

Lemma join_deliver_no_properties (evs : list JoinCommand.event)
    (s : JoinCommand.t) :
  Forall no_properties_call (deliver JoinCommand.handler s evs).2.
Proof.
  by apply (deliver_inv (λ _, True) no_properties_call JoinCommand.handler
              join_handler_no_properties evs s).
Qed.

(** The property listing handler stops with an exception before any effect,
    whatever the channel lists. *)
Lemma props_listed_raises (W : Z) (prop_specs : list JoinCommand.prop_spec)
    (s : JoinCommand.t) :
  ∃ e, JoinCommand.__join_activity_channel_props_listed_cb W prop_specs s =
         (s, [], inl e).
Proof.
  unfold JoinCommand.__join_activity_channel_props_listed_cb,
    JoinCommand.properties_interface.
  cmd_cases; eauto.
Qed.

(** C2, on the code.  The join command of room 42 has both channels ready,
    the text channel with a properties interface, and self handle 7.  The
    membership event that adds handle 7 sets [_finished] and emits
    ['finished'] with no error at once: the properties are not listed and
    none is set. *)
Theorem self_handle_added_skips_properties :
  let s := (deliver JoinCommand.handler (JoinCommand.init (Some 42))
              negotiation_events).1 in
  JoinCommand.text_channel s = Some text_chan ∧
  PROPERTIES_INTERFACE ∈ interfaces text_chan ∧
  JoinCommand.handler (MembersChangedSignal "" [7] [] [] [] 0 0) s =
    (JoinCommand.set_finished true s, [EmitFinished None], inr tt).
Proof.
  split; [reflexivity|]. split; [|reflexivity].
  unfold text_chan. simpl. set_solver.
Qed.

(** The room handle of a join command is never assigned again. *)
Lemma join_handler_room_handle (s : JoinCommand.t) (ev : JoinCommand.event) :
  JoinCommand._room_handle (state_of (JoinCommand.handler ev s)) =
    JoinCommand._room_handle s.
Proof. join_cases ev; done. Qed.

Lemma join_deliver_room_handle (evs : list JoinCommand.event)
    (s : JoinCommand.t) :
  JoinCommand._room_handle (deliver JoinCommand.handler s evs).1 =
    JoinCommand._room_handle s.
Proof.
  revert s. induction evs as [|ev evs IH]; intros s; [reflexivity|].
  rewrite deliver_cons. simpl. by rewrite IH, join_handler_room_handle.
Qed.

(** C3, as amended.  After any deliveries to a join command made for [room],
    [run] raises [RuntimeError] at the call, with no effect, when the command
    has emitted ['finished']; when it has not, [run] returns and requests the
    two channels, however often it was called before. *)
Theorem join_run_after_finished (room : option handle)
    (evs : list JoinCommand.event) :
  let s := (deliver JoinCommand.handler (JoinCommand.init room) evs).1 in
  let tr := (deliver JoinCommand.handler (JoinCommand.init room) evs).2 in
  JoinCommand.run s =
    if bool_decide (1 ≤ JoinCommand.finished_count tr)%nat
    then (s, [], inl (RuntimeError "This command has already finished"))
    else (s, [RequestChannel CHANNEL_TYPE_TEXT HANDLE_TYPE_ROOM room true;
              RequestChannel CHANNEL_TYPE_TUBES HANDLE_TYPE_ROOM room true],
          inr tt).
Proof.
  intros s tr.
  pose proof (join_deliver_finished_flag evs (JoinCommand.init room)) as Hf.
  pose proof (join_deliver_room_handle evs (JoinCommand.init room)) as Hr.
  fold s in Hf, Hr. fold tr in Hf. simpl in Hf, Hr.
  unfold JoinCommand.run. cmd_unfold. rewrite Hf, Hr.
  by destruct (bool_decide _).
Qed.

(** C3 fails for a second [run] before the command has finished: the call
    returns and the two channels are requested again. *)
Lemma join_run_twice :
  deliver JoinCommand.handler (JoinCommand.init (Some 42)) [Run; Run] =
    (JoinCommand.init (Some 42),
     [RequestChannel CHANNEL_TYPE_TEXT HANDLE_TYPE_ROOM (Some 42) true;
      RequestChannel CHANNEL_TYPE_TUBES HANDLE_TYPE_ROOM (Some 42) true;
      RequestChannel CHANNEL_TYPE_TEXT HANDLE_TYPE_ROOM (Some 42) true;
      RequestChannel CHANNEL_TYPE_TUBES HANDLE_TYPE_ROOM (Some 42) true]) ∧
  result_of (JoinCommand.run
               (state_of (JoinCommand.run (JoinCommand.init (Some 42))))) =
    inr tt.
Proof. split; reflexivity. Qed.

(** [_ShareCommand.run] reads no attribute but the activity id: it returns
    and repeats the lookup in every state, finished or not. *)
Lemma share_run_unguarded (s : ShareCommand.t) :
  ShareCommand.run s =
    (s, [ShareCommand.RequestHandles HANDLE_TYPE_ROOM
           [ShareCommand._activity_id s]], inr tt).
Proof. reflexivity. Qed.

(** ** The order of the flags subscription and the flags fetch *)

Lemma flags_paired_app (t1 t2 : list JoinCommand.action) :
  flags_paired t1 → flags_paired t2 → flags_paired (t1 ++ t2).
Proof.
  induction 1; intros H2; simpl; [assumption| |].
  - apply flags_paired_pair; auto.
  - apply flags_paired_other; auto.
Qed.

Lemma join_handler_flags_paired (s : JoinCommand.t) (ev : JoinCommand.event) :
  flags_paired (trace_of (JoinCommand.handler ev s)).
Proof.
  join_cases ev;
    repeat match goal with
           | H : (_, _, _) = (_, _, _) |- _ => injection H as <- <- <-
           end; simpl;
    repeat first
      [ apply flags_paired_nil
      | apply flags_paired_pair
      | apply flags_paired_other; [discriminate|discriminate|] ].
Qed.

Lemma join_deliver_flags_paired (evs : list JoinCommand.event)
    (s : JoinCommand.t) :
  flags_paired (deliver JoinCommand.handler s evs).2.
Proof.
  revert s. induction evs as [|ev evs IH]; intros s; [constructor|].
  rewrite deliver_cons. simpl.
  apply flags_paired_app; [apply join_handler_flags_paired|apply IH].
Qed.

Lemma flags_paired_fetch (tr pre post : list JoinCommand.action) :
  flags_paired tr → tr = pre ++ GetGroupFlags :: post →
  ∃ pre', pre = pre' ++ [ConnectToSignal GroupFlagsChanged].
Proof.
  intros H. revert pre. induction H as [|tr H IH|a tr Ha1 Ha2 H IH];
    intros pre Heq.
  - by destruct pre.
  - destruct pre as [|x [|y pre]]; simplify_eq/=.
    + by exists [].
    + destruct (IH pre eq_refl) as [pre' ->].
      by exists (ConnectToSignal GroupFlagsChanged :: GetGroupFlags :: pre').
  - destruct pre as [|x pre]; simplify_eq/=.
    destruct (IH pre eq_refl) as [pre' ->]. by exists (x :: pre').
Qed.

Lemma flags_paired_subscription (tr pre post : list JoinCommand.action) :
  flags_paired tr →
  tr = pre ++ ConnectToSignal GroupFlagsChanged :: post →
  ∃ post', post = GetGroupFlags :: post'.
Proof.
  intros H. revert pre. induction H as [|tr H IH|a tr Ha1 Ha2 H IH];
    intros pre Heq.
  - by destruct pre.
  - destruct pre as [|x [|y pre]]; simplify_eq/=; eauto.
  - destruct pre as [|x pre]; simplify_eq/=; eauto.
Qed.

(** C4, as amended.  In the trace of any deliveries to a join command, the
    effect right before each [GetGroupFlags] is the subscription to
    [GroupFlagsChanged], and the effect right after each such subscription is
    [GetGroupFlags]: the subscription is installed first, the fetch is issued
    second. *)
Theorem flags_subscribed_then_fetched (s : JoinCommand.t)
    (evs : list JoinCommand.event) :
  subscribed_before_fetched (deliver JoinCommand.handler s evs).2.
Proof.
  pose proof (join_deliver_flags_paired evs s) as H.
  split; intros pre post Heq.
  - by apply (flags_paired_fetch _ pre post H).
  - by apply (flags_paired_subscription _ pre post H).
Qed.

(** C4 fails on the negotiation of room 42: the subscription is installed
    when no fetch has been issued yet. *)
Lemma flags_subscribed_first :
  (deliver JoinCommand.handler (JoinCommand.init (Some 42))
     negotiation_events).2 =
    [RequestChannel CHANNEL_TYPE_TEXT HANDLE_TYPE_ROOM (Some 42) true;
     RequestChannel CHANNEL_TYPE_TUBES HANDLE_TYPE_ROOM (Some 42) true;
     ChannelProxy CHANNEL_TYPE_TEXT "/chan/text";
     ChannelProxy CHANNEL_TYPE_TUBES "/chan/tubes";
     GetSelfHandle;
     ConnectToSignal GroupFlagsChanged;
     GetGroupFlags;
     ConnectToSignal MembersChanged;
     GetAllMembers] ∧
  ¬ fetched_before_subscribed
      (deliver JoinCommand.handler (JoinCommand.init (Some 42))
         negotiation_events).2.
Proof.
  split; [reflexivity|]. intros H.
  specialize (H [RequestChannel CHANNEL_TYPE_TEXT HANDLE_TYPE_ROOM (Some 42) true;
                 RequestChannel CHANNEL_TYPE_TUBES HANDLE_TYPE_ROOM (Some 42) true;
                 ChannelProxy CHANNEL_TYPE_TEXT "/chan/text";
                 ChannelProxy CHANNEL_TYPE_TUBES "/chan/tubes";
                 GetSelfHandle]
                [GetGroupFlags; ConnectToSignal MembersChanged; GetAllMembers]
                eq_refl).
  repeat (apply elem_of_cons in H as [H|H]; [discriminate|]).
  by apply elem_of_nil in H.
Qed.

(** ** The member list and the flag deltas *)

(** C6.  The callback of [GetAllMembers] leaves the command and the trace as
    the membership handler does when it is given the member list as added
    handles, followed by one [AddMembers] of the self handle when that
    handle is not in the list.  When it is in the list the handler has set
    [_finished], so the assertion passes: the callback never raises
    [AssertionError]. *)
Theorem got_all_members_reconciles (s : JoinCommand.t)
    (members local_pending remote_pending : list handle) :
  result_of (JoinCommand.got_all_members members local_pending remote_pending s)
    ≠ inl AssertionError ∧
  ∀ h : handle,
    JoinCommand._self_handle s = Some h →
    let fed :=
      JoinCommand.__text_channel_members_changed_cb "" members [] [] [] 0 0 s in
    JoinCommand.got_all_members members local_pending remote_pending s =
      (state_of fed,
       trace_of fed ++
         (if bool_decide (h ∈ members) then [] else [AddMembers [h] ""]),
       inr tt) ∧
    (h ∈ members →
     JoinCommand._finished (state_of fed) = true ∧
     trace_of fed = [EmitFinished None]).
Proof.
  split.
  - unfold JoinCommand.got_all_members,
      JoinCommand.__text_channel_members_changed_cb,
      JoinCommand.read_self_handle.
    destruct members as [|m members]; cmd_cases; try discriminate.
    all: repeat match goal with
         | H : (_, _, _) = (_, _, _) |- _ => injection H as <- <- <-
         end; simpl in *; simplify_eq/=.
    all: try congruence.
  - intros h Hh fed. subst fed.
    unfold JoinCommand.got_all_members,
      JoinCommand.__text_channel_members_changed_cb,
      JoinCommand.read_self_handle.
    destruct members as [|m members]; cmd_unfold; simpl; rewrite Hh; simpl.
    + split; [reflexivity|]. intros H. by apply elem_of_nil in H.
    + destruct (bool_decide (h ∈ m :: members)) eqn:Hin; simpl.
      * rewrite Hh. simpl. rewrite Hin. simpl. split; [reflexivity|].
        by intros _.
      * rewrite Hh. simpl. rewrite Hin. split; [reflexivity|].
        intros H. by apply bool_decide_eq_false in Hin.
Qed.

Lemma got_all_members_reconciles_witness :
  JoinCommand._self_handle
    (deliver JoinCommand.handler (JoinCommand.init (Some 42))
       negotiation_events).1 = Some 7 ∧
  JoinCommand.got_all_members [5; 7] [] []
    (deliver JoinCommand.handler (JoinCommand.init (Some 42))
       negotiation_events).1 =
    (JoinCommand.set_finished true
       (deliver JoinCommand.handler (JoinCommand.init (Some 42))
          negotiation_events).1,
     [EmitFinished None], inr tt).
Proof.
  split; [reflexivity|].
  exact (proj1 (proj2 (got_all_members_reconciles
                         (deliver JoinCommand.handler
                            (JoinCommand.init (Some 42)) negotiation_events).1
                         [5; 7] [] []) 7 eq_refl)).
Defined.

(** C8.  From flags [F], the flag-change handler run on [(A1, R1)] and then
    on [(A2, R2)] leaves the flags [(((F | A1) & ~R1) | A2) & ~R2]; it
    performs no effect and does not raise. *)
Theorem flag_deltas_compose (s : JoinCommand.t) (F A1 R1 A2 R2 : Z) :
  JoinCommand._text_channel_group_flags s = Some F →
  deliver JoinCommand.handler s
    [FlagsChangedSignal A1 R1; FlagsChangedSignal A2 R2] =
    (JoinCommand.set_flags
       (Some (Z.land (Z.lor (Z.land (Z.lor F A1) (Z.lnot R1)) A2)
                     (Z.lnot R2))) s,
     []).
Proof.
  intros HF. unfold deliver. simpl.
  unfold JoinCommand.__text_channel_group_flags_changed_cb.
  cmd_unfold. simpl. rewrite HF. simpl. reflexivity.
Qed.

Lemma flag_deltas_compose_witness :
  JoinCommand._text_channel_group_flags
    (JoinCommand.set_flags (Some 5) (JoinCommand.init (Some 42))) = Some 5 ∧
  deliver JoinCommand.handler
    (JoinCommand.set_flags (Some 5) (JoinCommand.init (Some 42)))
    [FlagsChangedSignal 10 1; FlagsChangedSignal 16 2] =
    (JoinCommand.set_flags (Some 28) (JoinCommand.init (Some 42)), []).
Proof.
  split; [reflexivity|].
  apply (flag_deltas_compose
           (JoinCommand.set_flags (Some 5) (JoinCommand.init (Some 42)))
           5 10 1 16 2).
  reflexivity.
Defined.

(** ** The share command *)

(** The stages of a share command, one delivery at a time: [run] looks the
    activity id up as a room handle; the reply creates a join command for
    the handle and runs it; a ['finished'] of that join command with no
    error registers the activity with [AddActivity] and emits nothing; the
    reply of [AddActivity] emits ['finished'] with no error.  An error of
    the lookup or of [AddActivity], and an error the join command finishes
    with, is emitted as the error of a ['finished'] of the share command. *)
Lemma share_stages (s : ShareCommand.t) :
  ShareCommand.handler ShareCommand.Run s =
    (s, [ShareCommand.RequestHandles HANDLE_TYPE_ROOM
           [ShareCommand._activity_id s]], inr tt) ∧
  (∀ h hs,
     let i := length (ShareCommand.objects s) in
     ShareCommand.handler (ShareCommand.GotHandles (h :: hs)) s =
       (ShareCommand.set_join_command (Some i)
          (ShareCommand.set_objects
             (ShareCommand.objects s ++ [JoinCommand.init (Some h)])
             (ShareCommand.set_room_handle (Some h) s)),
        [ShareCommand.Join i
           (RequestChannel CHANNEL_TYPE_TEXT HANDLE_TYPE_ROOM (Some h) true);
         ShareCommand.Join i
           (RequestChannel CHANNEL_TYPE_TUBES HANDLE_TYPE_ROOM (Some h) true)],
        inr tt)) ∧
  (∀ i j ev j1 r,
     ShareCommand.objects s !! i = Some j →
     JoinCommand.handler ev j = (j1, [EmitFinished None], r) →
     ShareCommand.handler (ShareCommand.JoinEvent i ev) s =
       (ShareCommand.set_channels
          (JoinCommand.text_channel j1) (JoinCommand.tubes_channel j1)
          (ShareCommand.set_objects (<[i := j1]> (ShareCommand.objects s)) s),
        [ShareCommand.Join i (EmitFinished None);
         ShareCommand.AddActivity (ShareCommand._activity_id s)
           (ShareCommand.room_handle s)],
        r)) ∧
  (∀ i j e,
     ShareCommand.objects s !! i = Some j →
     ShareCommand.handler (ShareCommand.JoinEvent i (ErrorReply e)) s =
       (ShareCommand.set_finished true
          (ShareCommand.set_objects
             (<[i := JoinCommand.set_finished true j]> (ShareCommand.objects s))
             s),
        [ShareCommand.Join i (EmitFinished (Some e));
         ShareCommand.EmitFinished (Some e)],
        inr tt)) ∧
  (∀ e,
     ShareCommand.handler (ShareCommand.ErrorReply e) s =
       (ShareCommand.set_finished true s,
        [ShareCommand.EmitFinished (Some e)], inr tt)) ∧
  ShareCommand.handler ShareCommand.AddedActivity s =
    (ShareCommand.set_finished true s, [ShareCommand.EmitFinished None],
     inr tt).
Proof.
  split; [reflexivity|]. split; [|split; [|split; [|split; reflexivity]]].
  - intros h hs i. simpl. unfold ShareCommand.__got_handles_cb.
    cmd_unfold. simpl. unfold ShareCommand.on_join. simpl.
    rewrite list_lookup_middle by done. simpl.
    unfold JoinCommand.run. cmd_unfold. simpl.
    rewrite list_insert_id by (by apply list_lookup_middle). reflexivity.
  - intros i j ev j1 r Hj Hev. simpl. unfold ShareCommand.on_join.
    rewrite Hj, Hev. simpl.
    unfold ShareCommand.swallow, ShareCommand.__joined_cb.
    cmd_unfold. simpl.
    rewrite list_lookup_insert_eq by (by eapply lookup_lt_Some).
    reflexivity.
  - intros i j e Hj. simpl. unfold ShareCommand.on_join.
    rewrite Hj. reflexivity.
Qed.

(** The scenario of the registration failure: activity id ["abc"] resolves
    to room handle 99, the join command succeeds, [AddActivity] fails.  The
    share command emits ['finished'] once, with the error of the
    registration. *)
Lemma share_registration_failure :
  share_own
    (deliver ShareCommand.handler (ShareCommand.init (VStr "abc"))
       (share_events 99 ++ [ShareCommand.ErrorReply "registration failed"])).2 =
    [ShareCommand.RequestHandles HANDLE_TYPE_ROOM [VStr "abc"];
     ShareCommand.AddActivity (VStr "abc") (Some 99);
     ShareCommand.EmitFinished (Some "registration failed")].
Proof. reflexivity. Qed.

(** ** The activity, one callback at a time *)

Section ActivityInvariant.
Context (v w : pyval).

Local Abbreviation I := (id_type_kept v w).
Local Abbreviation T := no_report.

Lemma update_str_inv (key : string) (field : Activity.t → pyval)
    (set : pyval → Activity.t → Activity.t)
    (new_props : gmap string pyval) :
  (∀ x s, I s → I (set x s)) →
  cmd_inv I T (Activity.update_str key field set new_props).
Proof.
  intros Hset. unfold Activity.update_str.
  apply inv_bind; [apply inv_self|intros s0].
  destruct (_ && _); [|apply inv_ret].
  apply inv_bind; [apply inv_assign; intros; by apply Hset|intros _].
  apply inv_perform. intros ?; discriminate.
Qed.

Lemma update_once_id_inv (new_props : gmap string pyval) :
  cmd_inv I T (Activity.update_once "id" Activity._id Activity.set_id new_props).
Proof.
  intros s [Hv Hw]. unfold Activity.update_once. cmd_unfold. simpl.
  destruct (is_str _ && is_none (Activity._id s)) eqn:Hc; simpl.
  - apply andb_prop in Hc as [Hstr Hnone].
    destruct (Activity._id s) eqn:Hid; try discriminate.
    split; [|repeat constructor; intros ?; discriminate].
    split; simpl; [|done]. intros Hne. by specialize (Hv Hne).
  - split; [done|constructor].
Qed.

Lemma update_once_type_inv (new_props : gmap string pyval) :
  cmd_inv I T
    (Activity.update_once "type" Activity._type Activity.set_type new_props).
Proof.
  intros s [Hv Hw]. unfold Activity.update_once. cmd_unfold. simpl.
  destruct (is_str _ && is_none (Activity._type s)) eqn:Hc; simpl.
  - apply andb_prop in Hc as [Hstr Hnone].
    destruct (Activity._type s) eqn:Hid; try discriminate.
    split; [|repeat constructor; intros ?; discriminate].
    split; simpl; [done|]. intros Hne. by specialize (Hw Hne).
  - split; [done|constructor].
Qed.

Lemma update_properties_inv (new_props : gmap string pyval) :
  cmd_inv I T (Activity._update_properties new_props).
Proof.
  unfold Activity._update_properties.
  repeat first
    [ apply update_once_id_inv | apply update_once_type_inv
    | apply update_str_inv; intros; done
    | inv_step ].
Qed.

Lemma swallow_inv (m : cmd Activity.t Activity.action unit) :
  cmd_inv I T m → cmd_inv I T (Activity.swallow m).
Proof.
  intros Hm s Hs. specialize (Hm s Hs). unfold Activity.swallow.
  unfold state_of, trace_of in *. by destruct (m s) as [[s1 t1] r].
Qed.

Lemma joined_cb_inv (err : option error) :
  cmd_inv I T (Activity.__joined_cb err).
Proof.
  unfold Activity.__joined_cb, Activity._start_tracking_buddies,
    Activity._start_tracking_channel, Activity.text_chan_interface.
  repeat inv_step.
Qed.

Lemma emitted_inv (tr : list JoinCommand.action) :
  cmd_inv I T (Activity.emitted tr).
Proof.
  induction tr as [|a tr IH]; simpl; [apply inv_ret|].
  repeat first [ apply swallow_inv, joined_cb_inv | exact IH | inv_step ].
Qed.

Lemma on_join_inv (m : cmd JoinCommand.t JoinCommand.action unit) :
  cmd_inv I T (Activity.on_join m).
Proof.
  intros s Hs. unfold Activity.on_join.
  destruct (Activity._join_command s) as [j|]; [|split; [done|constructor]].
  destruct (m j) as [[j1 tr] r].
  pose proof (emitted_inv tr (Activity.set_join_command (Some j1) s) Hs) as H.
  unfold state_of, trace_of in *.
  by destruct (Activity.emitted _ _) as [[s1 t1] r1].
Qed.

(** The membership handler of the activity emits ['buddy-joined'] for each
    added handle, in order, and does nothing else. *)
Lemma members_changed_reports (message : string)
    (added removed local_pending remote_pending : list handle)
    (actor reason : Z) (s : Activity.t) :
  Activity.__text_channel_members_changed_cb message added removed
    local_pending remote_pending actor reason s =
    (s, map Activity.EmitBuddyJoined added, inr tt).
Proof.
  unfold Activity.__text_channel_members_changed_cb.
  induction added as [|h added IH]; [reflexivity|].
  simpl. unfold bind at 1. unfold perform at 1. by rewrite IH.
Qed.

Lemma activity_handler_inv (ev : Activity.event) :
  added_of ev = [] → cmd_inv I T (Activity.handler ev).
Proof.
  destruct ev; simpl; intros Hadded.
  - unfold Activity.join.
    repeat first [ apply on_join_inv | inv_step ].
  - unfold Activity.do_set_property, Activity._publish_properties.
    repeat first [ inv_step | destruct (String.eqb _ _) ].
  - unfold Activity._got_properties_cb.
    repeat first [ apply update_properties_inv | inv_step ].
  - apply inv_ret.
  - apply update_properties_inv.
  - subst added. intros s Hs. rewrite members_changed_reports.
    split; [done|constructor].
  - unfold Activity.__text_channel_closed_cb. repeat inv_step.
  - apply on_join_inv.
Qed.
End ActivityInvariant.

Lemma buddy_joined_reports_app (t1 t2 : list Activity.action) :
  buddy_joined_reports (t1 ++ t2) =
    buddy_joined_reports t1 ++ buddy_joined_reports t2.
Proof. apply flat_map_app. Qed.

Lemma buddy_joined_reports_map (hs : list handle) :
  buddy_joined_reports (map Activity.EmitBuddyJoined hs) = hs.
Proof. induction hs as [|h hs IH]; simpl; [done|]. by rewrite IH. Qed.

Lemma buddy_joined_reports_none (tr : list Activity.action) :
  Forall no_report tr → buddy_joined_reports tr = [].
Proof.
  induction 1 as [|a tr Ha _ IH]; [done|]. simpl. rewrite IH.
  destruct a; try done. by destruct (Ha contact_handle).
Qed.

Lemma activity_handler_reports (s : Activity.t) (ev : Activity.event) :
  buddy_joined_reports (trace_of (Activity.handler ev s)) = added_of ev.
Proof.
  destruct (added_of ev) as [|h hs] eqn:Hadded.
  - apply buddy_joined_reports_none.
    apply (activity_handler_inv VNone VNone ev Hadded s). by split.
  - destruct ev; try discriminate. simpl in *. subst added.
    rewrite members_changed_reports. apply buddy_joined_reports_map.
Qed.

Lemma activity_handler_id_type (v w : pyval) (ev : Activity.event) :
  cmd_inv (id_type_kept v w) (λ _, True) (Activity.handler ev).
Proof.
  intros s Hs. split; [|by apply Forall_true].
  destruct (added_of ev) as [|h hs] eqn:Hadded.
  - by apply (activity_handler_inv v w ev Hadded s).
  - destruct ev; try discriminate. simpl. by rewrite members_changed_reports.
Qed.

(** ** The claims on the activity *)

(** C5, as amended.  Over any deliveries to an activity, the handles reported
    by ['buddy-joined'] are the added handles of the membership events, each
    as often as it is listed and in the order of delivery, whatever was
    reported before. *)
Theorem buddy_joined_per_added_handle (s : Activity.t)
    (evs : list Activity.event) :
  buddy_joined_reports (deliver Activity.handler s evs).2 =
    flat_map added_of evs.
Proof.
  revert s. induction evs as [|ev evs IH]; intros s; [reflexivity|].
  rewrite deliver_cons. simpl.
  by rewrite buddy_joined_reports_app, activity_handler_reports, IH.
Qed.

(** C5 fails on a live event that repeats the handle of the event before
    it: handle 5 is reported twice, and the handler reports no removal. *)
Lemma same_handle_reported_twice :
  (deliver Activity.handler activity_42
     [Activity.MembersChangedSignal "" [5] [] [] [] 0 0;
      Activity.MembersChangedSignal "" [5] [] [] [] 0 0]).2 =
    [Activity.EmitBuddyJoined 5; Activity.EmitBuddyJoined 5] ∧
  ¬ NoDup
      (buddy_joined_reports
         (deliver Activity.handler activity_42
            [Activity.MembersChangedSignal "" [5] [] [] [] 0 0;
             Activity.MembersChangedSignal "" [5] [] [] [] 0 0]).2).
Proof.
  split; [reflexivity|]. simpl. intros H.
  apply NoDup_cons in H as [H _]. apply H. by left.
Qed.

(** C9, as amended.  [join] on an activity that holds a join command and is
    not joined returns with no effect; on an activity that is joined and
    holds no join command it emits ['joined'] with [True] and returns.  In
    both cases the activity is left as it was: no join command is made. *)
Theorem join_when_busy_or_joined (s : Activity.t) :
  (∀ j, Activity._join_command s = Some j →
        truthy (Activity._joined s) = false →
        Activity.join s = (s, [], inr tt)) ∧
  (Activity._join_command s = None →
   truthy (Activity._joined s) = true →
   Activity.join s = (s, [Activity.EmitJoined true VNone], inr tt)).
Proof.
  split.
  - intros j Hj _. unfold Activity.join. cmd_unfold. by rewrite Hj.
  - intros Hj Hjoined. unfold Activity.join. cmd_unfold.
    by rewrite Hj, Hjoined.
Qed.

Lemma join_when_busy_or_joined_witness :
  Activity.join (state_of (Activity.join activity_42)) =
    (state_of (Activity.join activity_42), [], inr tt) ∧
  Activity.join (Activity.set_joined (VBool true) activity_42) =
    (Activity.set_joined (VBool true) activity_42,
     [Activity.EmitJoined true VNone], inr tt).
Proof.
  split.
  - apply (proj1 (join_when_busy_or_joined
                    (state_of (Activity.join activity_42)))
             (JoinCommand.init (Some 42)));
      reflexivity.
  - apply (proj2 (join_when_busy_or_joined
                    (Activity.set_joined (VBool true) activity_42)));
      reflexivity.
Defined.

(** C9 fails while a join command is in flight: the second [join] makes no
    join command, and emits nothing either. *)
Lemma join_in_flight_is_silent :
  (deliver Activity.handler activity_42
     [Activity.CallJoin; Activity.CallJoin]).2 =
    [Activity.NewJoinCommand (Some 42);
     Activity.Join
       (RequestChannel CHANNEL_TYPE_TEXT HANDLE_TYPE_ROOM (Some 42) true);
     Activity.Join
       (RequestChannel CHANNEL_TYPE_TUBES HANDLE_TYPE_ROOM (Some 42) true)] ∧
  trace_of (Activity.join (state_of (Activity.join activity_42))) = [].
Proof. split; reflexivity. Qed.

(** After its join command has finished with no error the activity is
    joined and still holds the command: [join] emits nothing. *)
Lemma join_after_joined_is_silent :
  truthy (Activity._joined
            (deliver Activity.handler activity_42 activity_join_events).1) =
    true ∧
  trace_of (Activity.join
              (deliver Activity.handler activity_42 activity_join_events).1) =
    [].
Proof. split; reflexivity. Qed.

(** C10.  Over any deliveries to an activity, an [id] that is not [None]
    stays as it is, and so does a [type] that is not [None]. *)
Theorem id_type_write_once (s : Activity.t) (evs : list Activity.event) :
  (Activity._id s ≠ VNone →
   Activity._id (deliver Activity.handler s evs).1 = Activity._id s) ∧
  (Activity._type s ≠ VNone →
   Activity._type (deliver Activity.handler s evs).1 = Activity._type s).
Proof.
  apply (deliver_inv (id_type_kept (Activity._id s) (Activity._type s))
           (λ _, True) Activity.handler
           (activity_handler_id_type _ _) evs s).
  by split.
Qed.

Lemma id_type_write_once_witness :
  Activity._id
    (deliver Activity.handler activity_42
       [Activity.GotProperties (<["id" := VStr "other"]> ∅);
        Activity.PropertiesChangedSignal 42
          (<["id" := VStr "xyz"]> (<["type" := VStr "org.laptop.Memorize"]> ∅));
        Activity.CallSetProperty "name" (VStr "chat")]).1 = VStr "abc" ∧
  Activity._type
    (deliver Activity.handler activity_42
       [Activity.GotProperties (<["id" := VStr "other"]> ∅);
        Activity.PropertiesChangedSignal 42
          (<["id" := VStr "xyz"]> (<["type" := VStr "org.laptop.Memorize"]> ∅));
        Activity.CallSetProperty "name" (VStr "chat")]).1 =
    VStr "org.laptop.Chat".
Proof.
  split.
  - apply (proj1 (id_type_write_once activity_42 _)). discriminate.
  - apply (proj2 (id_type_write_once activity_42 _)). discriminate.
Defined.

(** The write happens: an [id] that is [None] takes the string a property
    update carries. *)
Lemma id_assigned_when_none (s : Activity.t) (new_props : gmap string pyval)
    (x : string) :
  Activity._id s = VNone →
  new_props !! "id" = Some (VStr x) →
  Activity._id (state_of (Activity._update_properties new_props s)) = VStr x.
Proof.
  intros Hid Hx.
  unfold Activity._update_properties, Activity.update_str,
    Activity.update_once, Activity.get.
  rewrite Hx. cmd_unfold. simpl.
  repeat match goal with
         | |- context [if ?c then _ else _] => destruct c eqn:?; simpl
         end; rewrite ?Hid in *; simpl in *; try done.
Qed.

(** [do_set_property] accepts [name], [color], [tags] and [private] only:
    [id] and [type] cannot be set through it. *)
Lemma do_set_property_id_type (s : Activity.t) (val : pyval) :
  Activity.do_set_property "id" val s =
    (s, [], inl (ValueError "Unknown property")) ∧
  Activity.do_set_property "type" val s =
    (s, [], inl (ValueError "Unknown property")).
Proof. split; reflexivity. Qed.

(** ** Scenarios *)

(** The successful join: room 42, both channels ready, self handle 7, flags
    0, no members yet; the command adds itself and finishes when the
    membership event reports handle 7. *)
Lemma join_scenario :
  deliver JoinCommand.handler (JoinCommand.init (Some 42))
    (negotiation_events ++
     [GotAllMembers [] [] []; AddMembersReply;
      MembersChangedSignal "" [7] [] [] [] 0 0]) =
    ({| JoinCommand._room_handle := Some 42;
        JoinCommand._finished := true;
        JoinCommand._text_channel_group_flags := Some 0;
        JoinCommand.text_channel := Some text_chan;
        JoinCommand.tubes_channel := Some tubes_chan;
        JoinCommand._self_handle := Some 7 |},
     [RequestChannel CHANNEL_TYPE_TEXT HANDLE_TYPE_ROOM (Some 42) true;
      RequestChannel CHANNEL_TYPE_TUBES HANDLE_TYPE_ROOM (Some 42) true;
      ChannelProxy CHANNEL_TYPE_TEXT "/chan/text";
      ChannelProxy CHANNEL_TYPE_TUBES "/chan/tubes";
      GetSelfHandle;
      ConnectToSignal GroupFlagsChanged;
      GetGroupFlags;
      ConnectToSignal MembersChanged;
      GetAllMembers;
      AddMembers [7] "";
      EmitFinished None]).
Proof. reflexivity. Qed.

(** A failure of the tubes channel request finishes the command with that
    error, whatever became of the text channel. *)
Lemma join_tubes_request_fails :
  (deliver JoinCommand.handler (JoinCommand.init (Some 42))
     [Run; CreateTextChannelReply "/chan/text"; TextChannelReady text_chan;
      ErrorReply "no such channel type"]).2 =
    [RequestChannel CHANNEL_TYPE_TEXT HANDLE_TYPE_ROOM (Some 42) true;
     RequestChannel CHANNEL_TYPE_TUBES HANDLE_TYPE_ROOM (Some 42) true;
     ChannelProxy CHANNEL_TYPE_TEXT "/chan/text";
     EmitFinished (Some "no such channel type")].
Proof. reflexivity. Qed.

(** [__init__] with a room handle and properties. *)
Lemma activity_42_init :
  Activity.init (Some 42)
    (Some (<["id" := VStr "abc"]> (<["type" := VStr "org.laptop.Chat"]> ∅))) =
    (activity_42,
     [Activity.GetProperties (Some 42); Activity.ConnectPropertiesChanged],
     inr tt).
Proof. vm_compute. reflexivity. Qed.

(** [__init__] needs a room handle or properties. *)
Lemma activity_init_needs_argument :
  result_of (Activity.init None None) =
    inl (ValueError "Need to pass one of room_handle or properties").
Proof. reflexivity. Qed.

(** The activity after its join command has finished: joined, with the
    channels of the command, subscribed to the membership and closed
    signals. *)
Lemma activity_join_scenario :
  let s := (deliver Activity.handler activity_42 activity_join_events).1 in
  Activity._joined s = VBool true ∧
  Activity.telepathy_text_chan s = Some text_chan ∧
  Activity.telepathy_tubes_chan s = Some tubes_chan ∧
  (deliver Activity.handler activity_42 activity_join_events).2 =
    [Activity.NewJoinCommand (Some 42);
     Activity.Join
       (RequestChannel CHANNEL_TYPE_TEXT HANDLE_TYPE_ROOM (Some 42) true);
     Activity.Join
       (RequestChannel CHANNEL_TYPE_TUBES HANDLE_TYPE_ROOM (Some 42) true);
     Activity.Join (ChannelProxy CHANNEL_TYPE_TEXT "/chan/text");
     Activity.Join (ChannelProxy CHANNEL_TYPE_TUBES "/chan/tubes");
     Activity.Join GetSelfHandle;
     Activity.Join (ConnectToSignal GroupFlagsChanged);
     Activity.Join GetGroupFlags;
     Activity.Join (ConnectToSignal MembersChanged);
     Activity.Join GetAllMembers;
     Activity.Join (AddMembers [7] "");
     Activity.Join (EmitFinished None);
     Activity.ConnectMembersChanged;
     Activity.ConnectClosed;
     Activity.EmitJoined true (VStr "None")].
Proof. repeat split. Qed.

(** * Further properties *)

(** ** The join command: channels, subscriptions, flags *)

(** X1.  On a join command that has neither channel yet, the two readiness
    callbacks commute: in either order the command ends with both channels
    and asks for the self handle once, after the second callback; when the
    text channel has no group interface it asks for nothing. *)
Theorem channels_ready_in_any_order (s : JoinCommand.t) (c1 c2 : channel) :
  JoinCommand.text_channel s = None →
  JoinCommand.tubes_channel s = None →
  deliver JoinCommand.handler s [TextChannelReady c1; TubesChannelReady c2] =
    deliver JoinCommand.handler s [TubesChannelReady c2; TextChannelReady c1] ∧
  deliver JoinCommand.handler s [TextChannelReady c1; TubesChannelReady c2] =
    (JoinCommand.set_tubes_channel (Some c2)
       (JoinCommand.set_text_channel (Some c1) s),
     if bool_decide (CHANNEL_INTERFACE_GROUP ∈ interfaces c1)
     then [GetSelfHandle] else []) ∧
  trace_of (JoinCommand.handler (TextChannelReady c1) s) = [] ∧
  trace_of (JoinCommand.handler (TubesChannelReady c2) s) = [].
Proof.
  intros Htext Htubes. unfold deliver. simpl.
  unfold JoinCommand.__text_channel_ready_cb,
    JoinCommand.__tubes_channel_ready_cb, JoinCommand._tubes_ready,
    JoinCommand._add_self_to_channel, JoinCommand.group.
  cmd_unfold. simpl. rewrite Htext, Htubes. simpl.
  destruct (bool_decide (CHANNEL_INTERFACE_GROUP ∈ interfaces c1)); simpl;
    repeat split; by destruct s; simplify_eq/=.
Qed.

Lemma channels_ready_in_any_order_witness :
  deliver JoinCommand.handler (JoinCommand.init (Some 42))
    [TextChannelReady text_chan; TubesChannelReady tubes_chan] =
    deliver JoinCommand.handler (JoinCommand.init (Some 42))
      [TubesChannelReady tubes_chan; TextChannelReady text_chan].
Proof.
  exact (proj1 (channels_ready_in_any_order (JoinCommand.init (Some 42))
                  text_chan tubes_chan eq_refl eq_refl)).
Defined.

Section Paired.
Context (a b : JoinCommand.action).

Lemma paired_app (t1 t2 : list JoinCommand.action) :
  paired a b t1 → paired a b t2 → paired a b (t1 ++ t2).
Proof.
  induction 1; intros H2; simpl; [assumption| |].
  - apply paired_pair; auto.
  - apply paired_other; auto.
Qed.

Lemma paired_immediately_before (tr : list JoinCommand.action) :
  a ≠ b → paired a b tr → immediately_before a b tr.
Proof.
  intros Hab H. induction H as [|tr H IH|x tr Hx1 Hx2 H IH];
    intros pre post Heq.
  - by destruct pre.
  - destruct pre as [|y [|z pre]]; simplify_eq/=.
    + by exists [].
    + destruct (IH pre post eq_refl) as [pre' ->].
      by eexists (_ :: _ :: pre').
  - destruct pre as [|y pre]; simplify_eq/=.
    destruct (IH pre post eq_refl) as [pre' ->]. by eexists (_ :: pre').
Qed.

Lemma deliver_paired (s : JoinCommand.t) (evs : list JoinCommand.event) :
  (∀ ev s, paired a b (trace_of (JoinCommand.handler ev s))) →
  paired a b (deliver JoinCommand.handler s evs).2.
Proof.
  intros Hh. revert s. induction evs as [|ev evs IH]; intros s; [constructor|].
  rewrite deliver_cons. simpl. by apply paired_app.
Qed.
End Paired.

Lemma join_handler_members_paired (ev : JoinCommand.event)
    (s : JoinCommand.t) :
  paired (ConnectToSignal MembersChanged) GetAllMembers
    (trace_of (JoinCommand.handler ev s)).
Proof.
  join_cases ev;
    repeat match goal with
           | H : (_, _, _) = (_, _, _) |- _ => injection H as <- <- <-
           end; simpl;
    repeat first
      [ apply paired_nil
      | apply paired_pair
      | apply paired_other; [discriminate|discriminate|] ].
Qed.

(** X2.  In the trace of any deliveries to a join command, the effect right
    before each [GetAllMembers] is the subscription to [MembersChanged]: the
    member list is never fetched before membership events can be received. *)
Theorem members_subscribed_then_fetched (s : JoinCommand.t)
    (evs : list JoinCommand.event) :
  immediately_before (ConnectToSignal MembersChanged) GetAllMembers
    (deliver JoinCommand.handler s evs).2.
Proof.
  apply paired_immediately_before; [discriminate|].
  apply deliver_paired, join_handler_members_paired.
Qed.

(** ** The flag deltas, bit by bit *)

Lemma flags_changed_known (s : JoinCommand.t) (F A R : Z) :
  JoinCommand._text_channel_group_flags s = Some F →
  JoinCommand.handler (FlagsChangedSignal A R) s =
    (JoinCommand.set_flags (Some (Z.land (Z.lor F A) (Z.lnot R))) s, [],
     inr tt).
Proof.
  intros HF. simpl. unfold JoinCommand.__text_channel_group_flags_changed_cb.
  cmd_unfold. simpl. by rewrite HF.
Qed.

Lemma flag_delta_bit (F A R i : Z) :
  0 ≤ i →
  Z.testbit (Z.land (Z.lor F A) (Z.lnot R)) i =
    (Z.testbit F i || Z.testbit A i) && negb (Z.testbit R i).
Proof.
  intros Hi. by rewrite Z.land_spec, Z.lor_spec, Z.lnot_spec.
Qed.

(** X3.  A flag-change delivery on known flags leaves, at every bit, the old
    bit or the added bit, cleared when the bit is removed: a bit both added
    and removed ends cleared. *)
Theorem flag_delta_bits (s : JoinCommand.t) (F A R : Z) :
  JoinCommand._text_channel_group_flags s = Some F →
  ∃ G,
    JoinCommand._text_channel_group_flags
      (state_of (JoinCommand.handler (FlagsChangedSignal A R) s)) = Some G ∧
    ∀ i, 0 ≤ i →
         Z.testbit G i =
           (Z.testbit F i || Z.testbit A i) && negb (Z.testbit R i).
Proof.
  intros HF. rewrite (flags_changed_known s F A R HF).
  eexists. split; [reflexivity|]. intros i Hi. by apply flag_delta_bit.
Qed.

Lemma flag_delta_bits_witness :
  ∃ G,
    JoinCommand._text_channel_group_flags
      (state_of (JoinCommand.handler (FlagsChangedSignal 6 3)
                   (JoinCommand.set_flags (Some 9)
                      (JoinCommand.init (Some 42))))) = Some G ∧
    ∀ i, 0 ≤ i →
         Z.testbit G i =
           (Z.testbit 9 i || Z.testbit 6 i) && negb (Z.testbit 3 i).
Proof.
  exact (flag_delta_bits
           (JoinCommand.set_flags (Some 9) (JoinCommand.init (Some 42)))
           9 6 3 eq_refl).
Defined.

Lemma lor_below_pow2 (F A n : Z) :
  0 ≤ n → 0 ≤ F < 2 ^ n → 0 ≤ A < 2 ^ n → 0 ≤ Z.lor F A < 2 ^ n.
Proof.
  intros Hn [HF0 HF] [HA0 HA]. split; [by apply Z.lor_nonneg|].
  destruct (decide (Z.lor F A = 0)) as [->|Hne]; [by apply Z.pow_pos_nonneg|].
  assert (0 < Z.lor F A) as Hpos.
  { pose proof (proj2 (Z.lor_nonneg F A) (conj HF0 HA0)). lia. }
  assert (0 < n) as Hn0.
  { destruct (decide (n = 0)) as [->|?]; [|lia]. exfalso. apply Hne.
    change (2 ^ 0) with 1 in *. by replace F with 0 by lia;
      replace A with 0 by lia. }
  apply Z.log2_lt_pow2; [done|]. rewrite Z.log2_lor by done.
  apply Z.max_lub_lt.
  - destruct (decide (F = 0)) as [->|?]; [simpl; lia|].
    apply Z.log2_lt_pow2; lia.
  - destruct (decide (A = 0)) as [->|?]; [simpl; lia|].
    apply Z.log2_lt_pow2; lia.
Qed.

Lemma ldiff_below (x R n : Z) :
  0 ≤ n → 0 ≤ x < 2 ^ n → 0 ≤ Z.land x (Z.lnot R) < 2 ^ n.
Proof.
  intros Hn [Hx0 Hx].
  assert (0 ≤ Z.land x (Z.lnot R)) as H0 by (apply Z.land_nonneg; by left).
  split; [done|].
  destruct (decide (Z.land x (Z.lnot R) = 0)) as [->|Hne];
    [by apply Z.pow_pos_nonneg|].
  apply Z.log2_lt_pow2; [lia|].
  destruct (Z.lt_ge_cases (Z.log2 (Z.land x (Z.lnot R))) n) as [|Hge]; [done|].
  exfalso.
  pose proof (Z.bit_log2 (Z.land x (Z.lnot R)) ltac:(lia)) as Hbit.
  rewrite Z.land_spec in Hbit. apply andb_prop in Hbit as [Hbit _].
  rewrite Z.bits_above_log2 in Hbit; [done|done|].
  destruct (decide (x = 0)) as [->|?]; [by rewrite Z.land_0_l in Hne|].
  assert (Z.log2 x < n) by (apply Z.log2_lt_pow2; lia). lia.
Qed.

(** X4.  Flags and added bits that fit [n] bits give flags that fit [n]
    bits, whatever is removed: the flags of a channel stay an unsigned
    32-bit value. *)
Theorem flag_delta_range (s : JoinCommand.t) (F A R n : Z) :
  JoinCommand._text_channel_group_flags s = Some F →
  0 ≤ n → 0 ≤ F < 2 ^ n → 0 ≤ A < 2 ^ n →
  ∃ G,
    JoinCommand._text_channel_group_flags
      (state_of (JoinCommand.handler (FlagsChangedSignal A R) s)) = Some G ∧
    0 ≤ G < 2 ^ n.
Proof.
  intros HF Hn HFr HAr. rewrite (flags_changed_known s F A R HF).
  eexists. split; [reflexivity|].
  apply ldiff_below; [done|]. by apply lor_below_pow2.
Qed.

Lemma flag_delta_range_witness :
  ∃ G,
    JoinCommand._text_channel_group_flags
      (state_of (JoinCommand.handler (FlagsChangedSignal 6 3)
                   (JoinCommand.set_flags (Some 9)
                      (JoinCommand.init (Some 42))))) = Some G ∧
    0 ≤ G < 2 ^ 32.
Proof.
  apply (flag_delta_range
           (JoinCommand.set_flags (Some 9) (JoinCommand.init (Some 42)))
           9 6 3 32 eq_refl); lia.
Defined.

(** X5.  A flag-change delivery repeated with the same arguments changes
    nothing the second time. *)
Theorem flag_delta_idempotent (s : JoinCommand.t) (F A R : Z) :
  JoinCommand._text_channel_group_flags s = Some F →
  deliver JoinCommand.handler s
    [FlagsChangedSignal A R; FlagsChangedSignal A R] =
    deliver JoinCommand.handler s [FlagsChangedSignal A R].
Proof.
  intros HF. rewrite !deliver_cons, !deliver_nil.
  rewrite (flags_changed_known s F A R HF). unfold state_of, trace_of.
  cbn [fst snd].
  rewrite (flags_changed_known
             (JoinCommand.set_flags (Some (Z.land (Z.lor F A) (Z.lnot R))) s)
             (Z.land (Z.lor F A) (Z.lnot R)) A R eq_refl).
  simpl. f_equal. unfold JoinCommand.set_flags. simpl. f_equal. f_equal.
  apply Z.bits_inj'. intros i Hi. rewrite !flag_delta_bit by done.
  by destruct (Z.testbit F i), (Z.testbit A i), (Z.testbit R i).
Qed.

Lemma flag_delta_idempotent_witness :
  deliver JoinCommand.handler
    (JoinCommand.set_flags (Some 9) (JoinCommand.init (Some 42)))
    [FlagsChangedSignal 6 3; FlagsChangedSignal 6 3] =
    deliver JoinCommand.handler
      (JoinCommand.set_flags (Some 9) (JoinCommand.init (Some 42)))
      [FlagsChangedSignal 6 3].
Proof.
  exact (flag_delta_idempotent
           (JoinCommand.set_flags (Some 9) (JoinCommand.init (Some 42)))
           9 6 3 eq_refl).
Defined.

Lemma join_handler_flags_unknown (s : JoinCommand.t) (ev : JoinCommand.event) :
  JoinCommand._text_channel_group_flags s = None →
  not_flags_reply ev →
  JoinCommand._text_channel_group_flags
    (state_of (JoinCommand.handler ev s)) = None.
Proof.
  intros Hs Hev. destruct ev; try by destruct (Hev flags).
  all: join_unfold; cmd_cases; simpl; try done.
  all: simplify_eq.
Qed.

Lemma join_deliver_flags_unknown (evs : list JoinCommand.event)
    (s : JoinCommand.t) :
  JoinCommand._text_channel_group_flags s = None →
  Forall not_flags_reply evs →
  JoinCommand._text_channel_group_flags
    (deliver JoinCommand.handler s evs).1 = None.
Proof.
  revert s. induction evs as [|ev evs IH]; intros s Hs Hevs; [done|].
  apply Forall_cons in Hevs as [Hev Hevs]. rewrite deliver_cons. simpl.
  apply IH; [|done]. by apply join_handler_flags_unknown.
Qed.

(** X6.  The flags of a join command are unknown until [GetGroupFlags] has
    answered: after any deliveries without that reply, a flag-change signal
    raises [TypeError] and leaves the command as it is.  The subscription to
    the signal is installed before the fetch, so such a signal can arrive. *)
Theorem flags_unknown_until_reply (room : option handle)
    (evs : list JoinCommand.event) (A R : Z) :
  Forall not_flags_reply evs →
  JoinCommand.handler (FlagsChangedSignal A R)
    (deliver JoinCommand.handler (JoinCommand.init room) evs).1 =
    ((deliver JoinCommand.handler (JoinCommand.init room) evs).1, [],
     inl (TypeError "unsupported operand type(s) for |=")).
Proof.
  intros Hevs.
  pose proof (join_deliver_flags_unknown evs (JoinCommand.init room)
                eq_refl Hevs) as H.
  simpl. unfold JoinCommand.__text_channel_group_flags_changed_cb.
  cmd_unfold. by rewrite H.
Qed.

Lemma flags_unknown_until_reply_witness :
  JoinCommand.handler (FlagsChangedSignal 1 0)
    (deliver JoinCommand.handler (JoinCommand.init (Some 42))
       [Run; CreateTextChannelReply "/chan/text";
        CreateTubesChannelReply "/chan/tubes"; TextChannelReady text_chan;
        TubesChannelReady tubes_chan; GotSelfHandle 7]).1 =
    ((deliver JoinCommand.handler (JoinCommand.init (Some 42))
        [Run; CreateTextChannelReply "/chan/text";
         CreateTubesChannelReply "/chan/tubes"; TextChannelReady text_chan;
         TubesChannelReady tubes_chan; GotSelfHandle 7]).1, [],
     inl (TypeError "unsupported operand type(s) for |=")).
Proof.
  apply (flags_unknown_until_reply (Some 42)
           [Run; CreateTextChannelReply "/chan/text";
            CreateTubesChannelReply "/chan/tubes"; TextChannelReady text_chan;
            TubesChannelReady tubes_chan; GotSelfHandle 7] 1 0).
  repeat constructor; intros f; discriminate.
Defined.

(** ** The properties a join command would set *)

Section PropsLoop.
Context (W : Z).

Lemma props_loop_sound (prop_specs : list JoinCommand.prop_spec)
    (props : gmap string bool) (acc : list (Z * bool)) (p : Z * bool) :
  p ∈ JoinCommand.props_loop W prop_specs props acc →
  p ∈ acc ∨
  ∃ spec, spec ∈ prop_specs ∧ props !! spec_name spec = Some p.2 ∧
          spec.1.1.1 = p.1 ∧ Z.land spec.2 W ≠ 0.
Proof.
  revert props acc.
  induction prop_specs as [|[[[ident name] sig] flags] rest IH];
    intros props acc Hp; simpl in Hp; [by left|].
  destruct (props !! name) as [value|] eqn:Hname.
  - apply IH in Hp as [Hp|(spec & Hin & Hlook & Hid & Hw)].
    + destruct (Z.land flags W =? 0) eqn:Hw; [by left|].
      apply elem_of_app in Hp as [Hp|Hp]; [by left|].
      apply list_elem_of_singleton in Hp as ->. right.
      exists (ident, name, sig, flags). split; [by left|].
      split; [done|]. split; [done|]. by apply Z.eqb_neq.
    + right. exists spec. split; [by right|].
      apply lookup_delete_Some in Hlook as [_ Hlook]. done.
  - apply IH in Hp as [Hp|(spec & Hin & Hrest)]; [by left|].
    right. exists spec. split; [by right|done].
Qed.

Lemma props_loop_length (prop_specs : list JoinCommand.prop_spec)
    (props : gmap string bool) (acc : list (Z * bool)) :
  (length (JoinCommand.props_loop W prop_specs props acc) ≤
   length acc + size props)%nat.
Proof.
  revert props acc.
  induction prop_specs as [|[[[ident name] sig] flags] rest IH];
    intros props acc; simpl; [lia|].
  destruct (props !! name) as [value|] eqn:Hname; [|apply IH].
  etrans; [apply IH|].
  rewrite map_size_delete_Some by eauto.
  assert (size props ≠ 0%nat) as Hsize.
  { intros Hz. apply map_size_empty_inv in Hz. by rewrite Hz in Hname. }
  destruct (Z.land flags W =? 0); rewrite ?length_app; simpl; lia.
Qed.

Lemma wanted_delete (name : string) (props : gmap string bool)
    (rest : list JoinCommand.prop_spec) :
  name ∉ spec_name <$> rest →
  omap (wanted W (delete name props)) rest = omap (wanted W props) rest.
Proof.
  induction rest as [|spec rest IH]; intros Hnot; [done|].
  rewrite fmap_cons in Hnot. apply not_elem_of_cons in Hnot as [Hne Hnot].
  csimpl. rewrite IH by done.
  unfold wanted. by rewrite lookup_delete_ne.
Qed.

Lemma props_loop_distinct (prop_specs : list JoinCommand.prop_spec)
    (props : gmap string bool) (acc : list (Z * bool)) :
  NoDup (spec_name <$> prop_specs) →
  JoinCommand.props_loop W prop_specs props acc =
    acc ++ omap (wanted W props) prop_specs.
Proof.
  revert props acc.
  induction prop_specs as [|[[[ident name] sig] flags] rest IH];
    intros props acc Hnodup; simpl; [by rewrite app_nil_r|].
  rewrite fmap_cons in Hnodup. apply NoDup_cons in Hnodup as [Hnot Hnodup].
  change (spec_name (ident, name, sig, flags)) with name in Hnot.
  csimpl. unfold wanted at 1.
  change (spec_name (ident, name, sig, flags)) with name. cbn [fst snd].
  destruct (props !! name) as [value|] eqn:Hname; [|by apply IH].
  rewrite IH by done. rewrite wanted_delete by done.
  destruct (Z.land flags W =? 0); [done|]. by rewrite <- app_assoc.
Qed.
End PropsLoop.

Lemma props_lookup (name : string) (value : bool) :
  JoinCommand.props !! name = Some value →
  name ∈ ["anonymous"; "invite-only"; "invite-restricted"; "persistent";
          "private"] ∧
  value = bool_decide (name = "private").
Proof.
  unfold JoinCommand.props. intros H.
  repeat (apply lookup_insert_Some in H as [[<- <-]|[? H]];
          [split; [set_solver|done]|]).
  by rewrite lookup_empty in H.
Qed.

(** X7.  Every pair the property listing handler collects to set comes from
    a listed property whose flags have the write bit and whose name is one of
    [anonymous], [invite-only], [invite-restricted], [persistent] and
    [private]; its value is [True] for [private] and [False] for the
    others. *)
Theorem props_to_set_sound (W : Z) (prop_specs : list JoinCommand.prop_spec)
    (ident : Z) (value : bool) :
  (ident, value) ∈ JoinCommand.props_loop W prop_specs JoinCommand.props [] →
  ∃ name sig flags,
    (ident, name, sig, flags) ∈ prop_specs ∧
    Z.land flags W ≠ 0 ∧
    name ∈ ["anonymous"; "invite-only"; "invite-restricted"; "persistent";
            "private"] ∧
    value = bool_decide (name = "private").
Proof.
  intros Hin. apply props_loop_sound in Hin as [Hin|Hin];
    [by apply elem_of_nil in Hin|].
  destruct Hin as ([[[ident' name] sig] flags] & Hin & Hlook & Hid & Hw).
  simpl in *. subst ident'. exists name, sig, flags.
  split; [done|]. split; [done|]. by apply props_lookup.
Qed.

Lemma props_to_set_sound_witness :
  ∃ name sig flags,
    (3, name, sig, flags) ∈
      [(1, "name", "s", 3); (3, "private", "b", 3); (4, "persistent", "b", 1)]
    ∧ Z.land flags 2 ≠ 0 ∧
    name ∈ ["anonymous"; "invite-only"; "invite-restricted"; "persistent";
            "private"] ∧
    true = bool_decide (name = "private").
Proof.
  apply (props_to_set_sound 2
           [(1, "name", "s", 3); (3, "private", "b", 3);
            (4, "persistent", "b", 1)] 3 true).
  vm_compute. by left.
Defined.

Lemma omap_length_le {A B : Type} (f : A → option B) (l : list A) :
  (length (omap f l) ≤ length l)%nat.
Proof.
  induction l as [|x l IH]; [done|]. csimpl.
  destruct (f x); simpl; lia.
Qed.

Lemma unnamed_filter_nil (name : string) (l : list JoinCommand.prop_spec) :
  name ∉ spec_name <$> l →
  filter (λ spec, spec_name spec = name) l = [].
Proof.
  induction l as [|spec l IH]; intros Hnot; [done|].
  rewrite fmap_cons in Hnot. apply not_elem_of_cons in Hnot as [Hne Hnot].
  rewrite filter_cons. destruct (decide (spec_name spec = name)); [done|].
  by apply IH.
Qed.

Lemma named_at_most_once (name : string) (l : list JoinCommand.prop_spec) :
  NoDup (spec_name <$> l) →
  (length (filter (λ spec, spec_name spec = name) l) ≤ 1)%nat.
Proof.
  induction l as [|spec l IH]; intros Hnodup; [simpl; lia|].
  rewrite fmap_cons in Hnodup. apply NoDup_cons in Hnodup as [Hnot Hnodup].
  rewrite filter_cons. destruct (decide (spec_name spec = name)) as [Heq|Hne];
    [|by apply IH].
  rewrite Heq in Hnot. rewrite unnamed_filter_nil by done. simpl. lia.
Qed.

Lemma first_listings_sublist (seen : list string)
    (prop_specs : list JoinCommand.prop_spec) :
  sublist (first_listings seen prop_specs) prop_specs.
Proof.
  revert seen. induction prop_specs as [|spec rest IH]; intros seen; simpl;
    [constructor|].
  destruct (bool_decide (spec_name spec ∈ seen)); by constructor.
Qed.

Lemma first_listings_unseen (seen : list string)
    (prop_specs : list JoinCommand.prop_spec) (name : string) :
  name ∈ seen → name ∉ spec_name <$> first_listings seen prop_specs.
Proof.
  revert seen. induction prop_specs as [|spec rest IH]; intros seen Hseen;
    simpl; [by apply not_elem_of_nil|].
  destruct (bool_decide (spec_name spec ∈ seen)) eqn:Hin; [by apply IH|].
  apply bool_decide_eq_false in Hin. rewrite fmap_cons.
  apply not_elem_of_cons. split; [by intros ->|].
  apply IH. by right.
Qed.

Lemma first_listings_distinct (seen : list string)
    (prop_specs : list JoinCommand.prop_spec) :
  NoDup (spec_name <$> first_listings seen prop_specs).
Proof.
  revert seen. induction prop_specs as [|spec rest IH]; intros seen; simpl;
    [constructor|].
  destruct (bool_decide (spec_name spec ∈ seen)); [apply IH|].
  rewrite fmap_cons. apply NoDup_cons. split; [|apply IH].
  apply first_listings_unseen. by left.
Qed.

(** The loop pops a name at its first listing, so it looks a name up in the
    table at its first listing only. *)
Lemma props_loop_first_listings (W : Z)
    (prop_specs : list JoinCommand.prop_spec)
    (table props : gmap string bool) (seen : list string)
    (acc : list (Z * bool)) :
  (∀ name, props !! name =
             if bool_decide (name ∈ seen) then None else table !! name) →
  JoinCommand.props_loop W prop_specs props acc =
    acc ++ omap (wanted W table) (first_listings seen prop_specs).
Proof.
  revert props seen acc.
  induction prop_specs as [|[[[ident name] sig] flags] rest IH];
    intros props seen acc Hprops; simpl; [by rewrite app_nil_r|].
  change (spec_name (ident, name, sig, flags)) with name.
  pose proof (Hprops name) as Hname.
  destruct (bool_decide (name ∈ seen)) eqn:Hseen.
  - rewrite Hname. by apply IH.
  - csimpl. unfold wanted at 1.
    change (spec_name (ident, name, sig, flags)) with name. cbn [fst snd].
    rewrite <- Hname.
    destruct (props !! name) as [value|] eqn:Hlook.
    + rewrite (IH (delete name props) (name :: seen)).
      * destruct (Z.land flags W =? 0); [done|]. by rewrite <- app_assoc.
      * intros key. destruct (decide (key = name)) as [->|Hne].
        -- rewrite lookup_delete_eq.
           by rewrite bool_decide_eq_true_2 by (by left).
        -- rewrite lookup_delete_ne by done. rewrite Hprops.
           destruct (bool_decide (key ∈ seen)) eqn:Hkey.
           ++ apply bool_decide_eq_true in Hkey.
              by rewrite bool_decide_eq_true_2 by (by right).
           ++ apply bool_decide_eq_false in Hkey.
              rewrite bool_decide_eq_false_2; [done|].
              intros [?|?]%elem_of_cons; done.
    + apply IH. intros key. destruct (decide (key = name)) as [->|Hne].
      * by rewrite bool_decide_eq_true_2 by (by left).
      * rewrite Hprops.
        destruct (bool_decide (key ∈ seen)) eqn:Hkey.
        -- apply bool_decide_eq_true in Hkey.
           by rewrite bool_decide_eq_true_2 by (by right).
        -- apply bool_decide_eq_false in Hkey.
           rewrite bool_decide_eq_false_2; [done|].
           intros [?|?]%elem_of_cons; done.
Qed.

(** X8.  The handler looks a name up at its first listing only: the pairs it
    collects are, in the order of the listing, those of the first listing of
    each name that is in the table and has the write bit there, each with
    the value of the table.  The first listings are listings of the channel
    and have distinct names, so the handler collects at most one pair for
    each name of its table, and at most five pairs, however many properties
    the channel lists and however often it lists a name. *)
Theorem props_to_set_one_per_name (W : Z)
    (prop_specs : list JoinCommand.prop_spec) :
  JoinCommand.props_loop W prop_specs JoinCommand.props [] =
    omap (wanted W JoinCommand.props) (first_listings [] prop_specs) ∧
  sublist (first_listings [] prop_specs) prop_specs ∧
  NoDup (spec_name <$> first_listings [] prop_specs) ∧
  (∀ name,
     length (omap (wanted W JoinCommand.props)
               (filter (λ spec, spec_name spec = name)
                  (first_listings [] prop_specs))) ≤ 1)%nat ∧
  (length (JoinCommand.props_loop W prop_specs JoinCommand.props []) ≤ 5)%nat.
Proof.
  split; [by apply (props_loop_first_listings W prop_specs JoinCommand.props
                     JoinCommand.props [] [])|].
  split; [apply first_listings_sublist|].
  split; [apply first_listings_distinct|].
  split; [|etrans; [apply props_loop_length|]; by vm_compute].
  intros name. etrans; [apply omap_length_le|].
  apply named_at_most_once, first_listings_distinct.
Qed.

(** X9.  When the channel lists no name twice, the pairs collected are, in
    the order of the listing, those of the listed properties that are in
    the table and have the write bit, each with the value of the table. *)
Theorem props_to_set_distinct (W : Z)
    (prop_specs : list JoinCommand.prop_spec) :
  NoDup (spec_name <$> prop_specs) →
  JoinCommand.props_loop W prop_specs JoinCommand.props [] =
    omap (wanted W JoinCommand.props) prop_specs.
Proof. intros Hnodup. by rewrite props_loop_distinct. Qed.

Lemma props_to_set_distinct_witness :
  JoinCommand.props_loop 2
    [(1, "name", "s", 3); (3, "private", "b", 3); (4, "persistent", "b", 1)]
    JoinCommand.props [] =
    omap (wanted 2 JoinCommand.props)
      [(1, "name", "s", 3); (3, "private", "b", 3); (4, "persistent", "b", 1)].
Proof.
  apply (props_to_set_distinct 2
           [(1, "name", "s", 3); (3, "private", "b", 3);
            (4, "persistent", "b", 1)]).
  apply (bool_decide_unpack (NoDup ["name"; "private"; "persistent"])).
  vm_compute. exact I.
Defined.

(** A name listed twice is looked at once: the first listing decides, also
    when it has no write bit and the second has. *)
Lemma props_to_set_first_listing :
  JoinCommand.props_loop 2
    [(1, "private", "b", 1); (2, "private", "b", 3)] JoinCommand.props [] = [].
Proof. by vm_compute. Qed.

(** ** The properties of an activity *)

(** Unfolds the commands and the attribute updates of an activity, and
    nothing of the Python values. *)
Ltac activity_cbv :=
  cbv [bind ret self assign perform raise state_of trace_of result_of
       Activity._update_properties Activity.update_str Activity.update_once
       Activity.set_name Activity.set_tags Activity.set_color
       Activity.set_private Activity.set_id Activity.set_type
       Activity._name Activity._tags Activity._color Activity._private
       Activity._id Activity._type Activity.telepathy_text_chan
       Activity.telepathy_tubes_chan Activity._room_handle
       Activity._join_command Activity._joined Activity._get_properties_call
       updated notified str_changes private_changes once_changes app].

Ltac split_conditions :=
  repeat (match goal with
          | |- context [if ?c then _ else _] =>
              lazymatch c with
              | context [if _ then _ else _] => fail
              | context [match _ with _ => _ end] => fail
              | _ => destruct c eqn:?
              end
          end; activity_cbv).

Lemma update_properties_updated (new_props : gmap string pyval)
    (s : Activity.t) :
  Activity._update_properties new_props s =
    (updated new_props s, notified new_props s, inr tt).
Proof. destruct s. activity_cbv. split_conditions; reflexivity. Qed.

Lemma py_eq_str_refl (v : pyval) : is_str v = true → py_eq v v = true.
Proof. destruct v; try done. intros _. apply String.eqb_refl. Qed.

Lemma get_lookup (new_props : gmap string pyval) (key : string)
    (old : pyval) :
  (∃ v, new_props !! key = Some v ∧ ∀ x, Activity.get new_props key x = v) ∨
  (new_props !! key = None ∧ ∀ x, Activity.get new_props key x = x).
Proof.
  unfold Activity.get. destruct (new_props !! key) as [v|]; [left|right];
    eauto.
Qed.

Lemma str_changes_iff (key : string) (new_props : gmap string pyval)
    (old : pyval) :
  (if str_changes key new_props old
   then Activity.get new_props key old else old) ≠ old ↔
  str_changes key new_props old = true.
Proof.
  unfold str_changes. destruct (is_str _ && _) eqn:Hc; [|done].
  split; [done|]. intros _ Heq. apply andb_prop in Hc as [Hstr Hne].
  rewrite Heq in Hne. rewrite <- Heq in Hne at 1.
  by rewrite Heq, py_eq_str_refl in Hne by (by rewrite <- Heq).
Qed.

Lemma private_changes_iff (new_props : gmap string pyval) (old : pyval) :
  (if private_changes new_props old
   then VBool (truthy (Activity.get new_props "private" old)) else old) ≠ old
  ↔ private_changes new_props old = true.
Proof.
  unfold private_changes. destruct (negb _) eqn:Hc; [|done].
  split; [done|]. intros _ Heq. rewrite <- Heq in Hc at 2. simpl in Hc.
  by rewrite Bool.eqb_reflx in Hc.
Qed.

Lemma once_changes_iff (key : string) (new_props : gmap string pyval)
    (old : pyval) :
  (if once_changes key new_props old
   then Activity.get new_props key old else old) ≠ old ↔
  once_changes key new_props old = true.
Proof.
  unfold once_changes. destruct (is_str _ && _) eqn:Hc; [|done].
  split; [done|]. intros _ Heq. apply andb_prop in Hc as [Hstr Hnone].
  rewrite Heq in Hstr. by destruct old.
Qed.

Lemma str_changes_again (key : string) (new_props : gmap string pyval)
    (old : pyval) :
  str_changes key new_props
    (if str_changes key new_props old
     then Activity.get new_props key old else old) = false.
Proof.
  destruct (str_changes key new_props old) eqn:Hc; [|done].
  unfold str_changes in *. apply andb_prop in Hc as [Hstr _].
  destruct (get_lookup new_props key old) as [(v & _ & Hv)|[_ Hv]].
  - rewrite !Hv in *. by rewrite py_eq_str_refl, andb_false_r.
  - rewrite !Hv in *. by rewrite py_eq_str_refl, andb_false_r.
Qed.

Lemma private_changes_again (new_props : gmap string pyval) (old : pyval) :
  private_changes new_props
    (if private_changes new_props old
     then VBool (truthy (Activity.get new_props "private" old)) else old) =
    false.
Proof.
  destruct (private_changes new_props old) eqn:Hc; [|done].
  unfold private_changes in *.
  destruct (get_lookup new_props "private" old) as [(v & _ & Hv)|[_ Hv]];
    rewrite !Hv; simpl; by rewrite Bool.eqb_reflx.
Qed.

Lemma once_changes_again (key : string) (new_props : gmap string pyval)
    (old : pyval) :
  once_changes key new_props
    (if once_changes key new_props old
     then Activity.get new_props key old else old) = false.
Proof.
  destruct (once_changes key new_props old) eqn:Hc; [|done].
  unfold once_changes in *. apply andb_prop in Hc as [Hstr _].
  destruct (Activity.get new_props key old); try done.
  apply andb_false_r.
Qed.

(** X11.  A property update delivered again changes nothing and notifies
    nothing the second time. *)
Theorem update_properties_idempotent (new_props : gmap string pyval)
    (s : Activity.t) :
  Activity._update_properties new_props
    (state_of (Activity._update_properties new_props s)) =
    (state_of (Activity._update_properties new_props s), [], inr tt).
Proof.
  rewrite !update_properties_updated. unfold state_of. cbn [fst].
  unfold updated at 1, notified. cbn [Activity._name Activity._tags
    Activity._color Activity._private Activity._id Activity._type updated].
  rewrite !str_changes_again, !private_changes_again, !once_changes_again.
  reflexivity.
Qed.

Lemma notify_elem_if (key k : string) (c : bool) :
  Activity.Notify key ∈ (if c then [Activity.Notify k] else []) ↔
  key = k ∧ c = true.
Proof.
  destruct c.
  - rewrite list_elem_of_singleton. split; [by intros [= ->]|by intros [-> _]].
  - split; [intros H; by apply elem_of_nil in H|by intros [_ ?]].
Qed.

(** X12.  A property update notifies a property exactly when the attribute
    of that property is changed by the update. *)
Theorem update_properties_notifies_changes (new_props : gmap string pyval)
    (s : Activity.t) (key : string) :
  Activity.Notify key ∈ trace_of (Activity._update_properties new_props s) ↔
  field_of key (state_of (Activity._update_properties new_props s)) ≠
    field_of key s.
Proof.
  rewrite update_properties_updated. unfold trace_of, state_of. cbn [fst snd].
  unfold notified. rewrite !elem_of_app, !notify_elem_if.
  unfold field_of.
  destruct (String.eqb_spec key "name") as [->|?];
    [cbn [updated Activity._name]; rewrite str_changes_iff; intuition congruence|].
  destruct (String.eqb_spec key "tags") as [->|?];
    [cbn [updated Activity._tags]; rewrite str_changes_iff; intuition congruence|].
  destruct (String.eqb_spec key "color") as [->|?];
    [cbn [updated Activity._color]; rewrite str_changes_iff; intuition congruence|].
  destruct (String.eqb_spec key "private") as [->|?];
    [cbn [updated Activity._private]; rewrite private_changes_iff;
     intuition congruence|].
  destruct (String.eqb_spec key "id") as [->|?];
    [cbn [updated Activity._id]; rewrite once_changes_iff; intuition congruence|].
  destruct (String.eqb_spec key "type") as [->|?];
    [cbn [updated Activity._type]; rewrite once_changes_iff; intuition congruence|].
  intuition congruence.
Qed.

(** The dictionary [_publish_properties] sends, key by key. *)
Lemma publish_lookup (s : Activity.t) :
  ∃ properties,
    Activity._publish_properties s =
      (s, [Activity.SetProperties (Activity._room_handle s) properties],
       inr tt) ∧
    properties !! "private" = Some (Activity._private s) ∧
    (∀ key, key ∈ ["color"; "name"; "type"; "tags"] →
            properties !! key =
              if is_none (field_of key s) then None
              else Some (field_of key s)) ∧
    (∀ key, key ∉ ["color"; "name"; "type"; "tags"; "private"] →
            properties !! key = None).
Proof.
  unfold Activity._publish_properties. cmd_unfold. eexists.
  split; [reflexivity|]. split; [by rewrite lookup_insert_eq|]. split.
  - intros key Hkey.
    repeat (apply elem_of_cons in Hkey as [->|Hkey]);
      [..|by apply elem_of_nil in Hkey].
    all: unfold field_of; simpl.
    all: destruct (is_none (Activity._color s)) eqn:?,
           (is_none (Activity._name s)) eqn:?,
           (is_none (Activity._type s)) eqn:?,
           (is_none (Activity._tags s)) eqn:?; by simplify_map_eq.
  - intros key Hkey.
    repeat (apply not_elem_of_cons in Hkey as [? Hkey]).
    destruct (is_none (Activity._color s)), (is_none (Activity._name s)),
      (is_none (Activity._type s)), (is_none (Activity._tags s));
      by simplify_map_eq.
Qed.

(** X13.  [_publish_properties] sends one dictionary for the room of the
    activity.  It always holds [private]; it holds [color], [name], [type]
    and [tags] exactly when they are not [None], with their values; it holds
    no other key: [id] and [joined] are never published. *)
Theorem publish_properties_content (s : Activity.t) :
  ∃ properties,
    Activity._publish_properties s =
      (s, [Activity.SetProperties (Activity._room_handle s) properties],
       inr tt) ∧
    properties !! "private" = Some (Activity._private s) ∧
    (∀ key, key ∈ ["color"; "name"; "type"; "tags"] →
            properties !! key =
              if is_none (field_of key s) then None
              else Some (field_of key s)) ∧
    (∀ key, key ∉ ["color"; "name"; "type"; "tags"; "private"] →
            properties !! key = None).
Proof. apply publish_lookup. Qed.

(** X14.  [do_set_property] accepts the names [name], [color], [tags] and
    [private]: it stores the value in the attribute of that name and leaves
    every other attribute as it is, the other properties, [id] and [type],
    [joined], the room handle, the join command, both channels and the
    pending properties call; then it publishes the dictionary
    [_publish_properties] makes of the attributes so set, for the room of
    the activity, which holds the value under the name unless the value is
    [None].  Any other name, [id], [type] and [joined] included, raises
    [ValueError] with nothing stored and nothing published. *)
Theorem do_set_property_settable (s : Activity.t) (name : string)
    (val : pyval) :
  (name ∈ ["name"; "color"; "tags"; "private"] →
   ∃ s' properties,
     Activity.do_set_property name val s =
       (s', [Activity.SetProperties (Activity._room_handle s) properties],
        inr tt) ∧
     field_of name s' = val ∧
     (∀ key, key ≠ name → field_of key s' = field_of key s) ∧
     Activity._id s' = Activity._id s ∧
     Activity._type s' = Activity._type s ∧
     Activity._joined s' = Activity._joined s ∧
     Activity._room_handle s' = Activity._room_handle s ∧
     Activity._join_command s' = Activity._join_command s ∧
     Activity.telepathy_text_chan s' = Activity.telepathy_text_chan s ∧
     Activity.telepathy_tubes_chan s' = Activity.telepathy_tubes_chan s ∧
     Activity._get_properties_call s' = Activity._get_properties_call s ∧
     Activity._publish_properties s' =
       (s', [Activity.SetProperties (Activity._room_handle s) properties],
        inr tt) ∧
     (is_none val = false → properties !! name = Some val)) ∧
  (name ∉ ["name"; "color"; "tags"; "private"] →
   Activity.do_set_property name val s =
     (s, [], inl (ValueError "Unknown property"))).
Proof.
  split.
  - intros Hname.
    repeat (apply elem_of_cons in Hname as [->|Hname]);
      [..|by apply elem_of_nil in Hname].
    all: unfold Activity.do_set_property; simpl;
      unfold bind at 1; unfold assign at 1;
      match goal with
      | |- context [Activity._publish_properties ?s1] =>
          let props := fresh "props" in
          let Hpub := fresh "Hpub" in
          let Hpriv := fresh "Hpriv" in
          let Hin := fresh "Hin" in
          destruct (publish_lookup s1) as (props & Hpub & Hpriv & Hin & _);
          rewrite Hpub;
          exists s1, props; split; [reflexivity|]; split; [reflexivity|];
          split;
            [ intros key Hkey; unfold field_of; simpl;
              repeat match goal with
                     | |- context [String.eqb key ?k] =>
                         destruct (String.eqb_spec key k) as [->|?]; try done
                     end
            | repeat (split; [reflexivity|]);
              split; [exact Hpub|];
              intros Hval;
              first
                [ exact Hpriv
                | rewrite Hin by (by repeat constructor);
                  unfold field_of; simpl; by rewrite Hval ] ]
      end.
  - intros Hname. repeat (apply not_elem_of_cons in Hname as [? Hname]).
    unfold Activity.do_set_property.
    repeat match goal with
           | |- context [String.eqb name ?k] =>
               destruct (String.eqb_spec name k) as [->|?]; try done
           end.
Qed.

Lemma do_set_property_settable_witness :
  ∃ s' properties,
    Activity.do_set_property "name" (VStr "chat") activity_42 =
      (s', [Activity.SetProperties (Activity._room_handle activity_42)
              properties], inr tt) ∧
    field_of "name" s' = VStr "chat" ∧
    (∀ key, key ≠ "name" → field_of key s' = field_of key activity_42) ∧
    Activity._id s' = Activity._id activity_42 ∧
    Activity._type s' = Activity._type activity_42 ∧
    Activity._joined s' = Activity._joined activity_42 ∧
    Activity._room_handle s' = Activity._room_handle activity_42 ∧
    Activity._join_command s' = Activity._join_command activity_42 ∧
    Activity.telepathy_text_chan s' =
      Activity.telepathy_text_chan activity_42 ∧
    Activity.telepathy_tubes_chan s' =
      Activity.telepathy_tubes_chan activity_42 ∧
    Activity._get_properties_call s' =
      Activity._get_properties_call activity_42 ∧
    Activity._publish_properties s' =
      (s', [Activity.SetProperties (Activity._room_handle activity_42)
              properties], inr tt) ∧
    (is_none (VStr "chat") = false → properties !! "name" = Some (VStr "chat")).
Proof.
  apply (proj1 (do_set_property_settable activity_42 "name" (VStr "chat"))).
  by left.
Defined.

(** ** The join command of an activity *)

(** The callbacks of an activity other than [join] keep every property [I]
    that can only be lost by a change of the room handle or by dropping the
    join command, and never make a join command. *)
Section ActivityFrame.
Context (I : Activity.t → Prop) (T : Activity.action → Prop).
Hypothesis HI :
  ∀ s s', I s →
          Activity._room_handle s' = Activity._room_handle s →
          (is_Some (Activity._join_command s) →
           is_Some (Activity._join_command s')) → I s'.
Hypothesis HT : ∀ a, (∀ r, a ≠ Activity.NewJoinCommand r) → T a.

Lemma frame_assign (f : Activity.t → Activity.t) :
  (∀ s, Activity._room_handle (f s) = Activity._room_handle s) →
  (∀ s, Activity._join_command (f s) = Activity._join_command s) →
  cmd_inv I T (assign f).
Proof.
  intros Hr Hf. apply inv_assign. intros s Hs. apply (HI s); [done|done|].
  by rewrite Hf.
Qed.

Lemma frame_perform (a : Activity.action) :
  (∀ r, a ≠ Activity.NewJoinCommand r) → cmd_inv I T (perform a).
Proof. intros Ha. apply inv_perform. by apply HT. Qed.

Ltac frame_step :=
  first
    [ apply frame_assign; intros; reflexivity
    | apply frame_perform; intros ?; discriminate
    | apply inv_ret | apply inv_self | apply inv_raise
    | apply inv_bind; [|intros ?]
    | match goal with
      | |- cmd_inv _ _ (match ?x with _ => _ end) => destruct x
      end ].

Lemma frame_update_properties (new_props : gmap string pyval) :
  cmd_inv I T (Activity._update_properties new_props).
Proof.
  unfold Activity._update_properties, Activity.update_str,
    Activity.update_once.
  repeat first [ frame_step | destruct (_ && _) ].
Qed.

Lemma frame_joined_cb (err : option error) :
  cmd_inv I T (Activity.__joined_cb err).
Proof.
  unfold Activity.__joined_cb, Activity._start_tracking_buddies,
    Activity._start_tracking_channel, Activity.text_chan_interface.
  repeat frame_step.
Qed.

Lemma frame_swallow (m : cmd Activity.t Activity.action unit) :
  cmd_inv I T m → cmd_inv I T (Activity.swallow m).
Proof.
  intros Hm s Hs. specialize (Hm s Hs). unfold Activity.swallow.
  unfold state_of, trace_of in *. by destruct (m s) as [[s1 t1] r].
Qed.

Lemma frame_emitted (tr : list JoinCommand.action) :
  cmd_inv I T (Activity.emitted tr).
Proof.
  induction tr as [|a tr IH]; simpl; [apply inv_ret|].
  repeat first [ apply frame_swallow, frame_joined_cb | exact IH
               | frame_step ].
Qed.

Lemma frame_on_join (m : cmd JoinCommand.t JoinCommand.action unit) :
  cmd_inv I T (Activity.on_join m).
Proof.
  intros s Hs. unfold Activity.on_join.
  destruct (Activity._join_command s) as [j|] eqn:Hj;
    [|split; [done|constructor]].
  destruct (m j) as [[j1 tr] r].
  assert (I (Activity.set_join_command (Some j1) s)) as Hs1.
  { apply (HI s); [done|done|]. simpl. eauto. }
  pose proof (frame_emitted tr _ Hs1) as H.
  unfold state_of, trace_of in *.
  by destruct (Activity.emitted _ _) as [[s1 t1] r1].
Qed.

Lemma frame_handler (ev : Activity.event) :
  ev ≠ Activity.CallJoin → cmd_inv I T (Activity.handler ev).
Proof.
  destruct ev; simpl; intros Hev; [done|..].
  - unfold Activity.do_set_property, Activity._publish_properties.
    repeat first [ frame_step | destruct (String.eqb _ _) ].
  - unfold Activity._got_properties_cb.
    repeat first [ apply frame_update_properties | frame_step ].
  - apply inv_ret.
  - apply frame_update_properties.
  - intros s Hs. rewrite members_changed_reports. split; [done|].
    apply Forall_map, Forall_true. intros h. apply HT. intros r. discriminate.
  - unfold Activity.__text_channel_closed_cb. repeat frame_step.
  - apply frame_on_join.
Qed.
End ActivityFrame.

Lemma new_join_commands_app (t1 t2 : list Activity.action) :
  new_join_commands (t1 ++ t2) =
    (new_join_commands t1 + new_join_commands t2)%nat.
Proof. unfold new_join_commands. by rewrite filter_app, length_app. Qed.

Lemma new_join_commands_none (tr : list Activity.action) :
  Forall (λ a, ∀ r, a ≠ Activity.NewJoinCommand r) tr →
  new_join_commands tr = 0%nat.
Proof.
  induction 1 as [|a tr Ha _ IH]; [done|].
  change (a :: tr) with ([a] ++ tr). rewrite new_join_commands_app, IH.
  destruct a; try done. by destruct (Ha room).
Qed.

Lemma holding_frame (s s' : Activity.t) :
  is_Some (Activity._join_command s) →
  Activity._room_handle s' = Activity._room_handle s →
  (is_Some (Activity._join_command s) →
   is_Some (Activity._join_command s')) →
  is_Some (Activity._join_command s').
Proof. auto. Qed.

Lemma call_join_cases (ev : Activity.event) :
  ev = Activity.CallJoin ∨ ev ≠ Activity.CallJoin.
Proof. destruct ev; by (left + right). Qed.

Lemma holding_handler (s : Activity.t) (ev : Activity.event) :
  is_Some (Activity._join_command s) →
  is_Some (Activity._join_command (state_of (Activity.handler ev s))) ∧
  new_join_commands (trace_of (Activity.handler ev s)) = 0%nat.
Proof.
  intros Hs. destruct (call_join_cases ev) as [->|Hev].
  - destruct Hs as [j Hj]. simpl. unfold Activity.join. cmd_unfold.
    rewrite Hj. simpl. rewrite Hj. eauto.
  - destruct (frame_handler (λ s, is_Some (Activity._join_command s))
                (λ a, ∀ r, a ≠ Activity.NewJoinCommand r)
                holding_frame (λ _ H, H) ev Hev s Hs) as [H1 H2].
    split; [done|]. by apply new_join_commands_none.
Qed.

Lemma join_starts (s : Activity.t) :
  Activity._join_command s = None →
  truthy (Activity._joined s) = false →
  Activity.join s =
    (state_of (Activity.on_join JoinCommand.run
                 (Activity.set_join_command
                    (Some (JoinCommand.init (Activity._room_handle s))) s)),
     Activity.NewJoinCommand (Activity._room_handle s) ::
       trace_of (Activity.on_join JoinCommand.run
                   (Activity.set_join_command
                      (Some (JoinCommand.init (Activity._room_handle s))) s)),
     result_of (Activity.on_join JoinCommand.run
                  (Activity.set_join_command
                     (Some (JoinCommand.init (Activity._room_handle s))) s))).
Proof.
  intros Hs Hj. unfold Activity.join. cmd_unfold. rewrite Hs, Hj.
  by destruct (Activity.on_join _ _) as [[s2 t2] r2].
Qed.

Lemma free_handler (s : Activity.t) (ev : Activity.event) :
  Activity._join_command s = None →
  (new_join_commands (trace_of (Activity.handler ev s)) ≤ 1)%nat ∧
  (new_join_commands (trace_of (Activity.handler ev s)) ≠ 0%nat →
   is_Some (Activity._join_command (state_of (Activity.handler ev s)))).
Proof.
  intros Hs. destruct (call_join_cases ev) as [->|Hev].
  - simpl. destruct (truthy (Activity._joined s)) eqn:Hj.
    + unfold Activity.join. cmd_unfold. rewrite Hs, Hj.
      split; [vm_compute; lia|by vm_compute].
    + rewrite (join_starts s Hs Hj). unfold trace_of, state_of. cbn [fst snd].
      set (s1 := Activity.set_join_command _ s).
      destruct (frame_on_join (λ _, True)
                  (λ a, ∀ r, a ≠ Activity.NewJoinCommand r)
                  (λ _ _ _ _ _, I) (λ _ H, H) JoinCommand.run s1 I) as [_ H1].
      destruct (frame_on_join (λ s, is_Some (Activity._join_command s))
                  (λ _, True) holding_frame (λ _ _, I)
                  JoinCommand.run s1 ltac:(simpl; eauto)) as [H2 _].
      unfold trace_of, state_of in *. split; [|done].
      change (?a :: ?t) with ([a] ++ t).
      rewrite new_join_commands_app, (new_join_commands_none _ H1).
      vm_compute. lia.
  - destruct (frame_handler (λ _, True)
                (λ a, ∀ r, a ≠ Activity.NewJoinCommand r)
                (λ _ _ _ _ _, I) (λ _ H, H) ev Hev s I) as [_ H].
    rewrite new_join_commands_none by done. split; [lia|done].
Qed.

Lemma holding_deliver (evs : list Activity.event) (s : Activity.t) :
  is_Some (Activity._join_command s) →
  is_Some (Activity._join_command (deliver Activity.handler s evs).1) ∧
  new_join_commands (deliver Activity.handler s evs).2 = 0%nat.
Proof.
  revert s. induction evs as [|ev evs IH]; intros s Hs; [done|].
  rewrite deliver_cons. simpl.
  destruct (holding_handler s ev Hs) as [H1 H2].
  destruct (IH _ H1) as [H3 H4]. split; [done|].
  by rewrite new_join_commands_app, H2, H4.
Qed.

(** X17.  An activity makes at most one join command, whatever is called
    and delivered: once it holds one it holds one for good, and makes no
    other, so that no later [join] starts a negotiation. *)
Theorem at_most_one_join_command (s : Activity.t)
    (evs : list Activity.event) :
  (new_join_commands (deliver Activity.handler s evs).2 ≤ 1)%nat ∧
  (is_Some (Activity._join_command s) →
   is_Some (Activity._join_command (deliver Activity.handler s evs).1) ∧
   new_join_commands (deliver Activity.handler s evs).2 = 0%nat ∧
   Activity.join (deliver Activity.handler s evs).1 =
     ((deliver Activity.handler s evs).1, [], inr tt)).
Proof.
  split.
  - revert s. induction evs as [|ev evs IH]; intros s; [vm_compute; lia|].
    rewrite deliver_cons. cbn [fst snd]. rewrite new_join_commands_app.
    destruct (Activity._join_command s) as [j|] eqn:Hj.
    + destruct (holding_handler s ev) as [H1 H2]; [by rewrite Hj|].
      rewrite H2. apply IH.
    + destruct (free_handler s ev Hj) as [H1 H2].
      destruct (decide (new_join_commands
                          (trace_of (Activity.handler ev s)) = 0%nat))
        as [->|Hne]; [apply IH|].
      destruct (holding_deliver evs _ (H2 Hne)) as [_ ->]. lia.
  - intros Hs. destruct (holding_deliver evs s Hs) as [[j Hj] H2].
    split; [eauto|]. split; [done|].
    unfold Activity.join. cmd_unfold. by rewrite Hj.
Qed.

Lemma at_most_one_join_command_witness :
  Activity.join
    (deliver Activity.handler (state_of (Activity.join activity_42))
       [Activity.ClosedSignal; Activity.CallJoin]).1 =
    ((deliver Activity.handler (state_of (Activity.join activity_42))
        [Activity.ClosedSignal; Activity.CallJoin]).1, [], inr tt).
Proof.
  apply (proj2 (at_most_one_join_command
                  (state_of (Activity.join activity_42))
                  [Activity.ClosedSignal; Activity.CallJoin])).
  simpl. eauto.
Defined.

Lemma room_frame (r : option handle) (s s' : Activity.t) :
  Activity._room_handle s = r →
  Activity._room_handle s' = Activity._room_handle s →
  (is_Some (Activity._join_command s) →
   is_Some (Activity._join_command s')) →
  Activity._room_handle s' = r.
Proof. congruence. Qed.

(** The calls and callbacks of an activity modelled on [Activity.t] leave
    its room handle. *)
Lemma activity_handler_room_handle (ev : Activity.event) (s : Activity.t) :
  Activity._room_handle (state_of (Activity.handler ev s)) =
    Activity._room_handle s.
Proof.
  destruct (call_join_cases ev) as [->|Hev].
  - simpl. destruct (Activity._join_command s) as [j|] eqn:Hj.
    + unfold Activity.join. cmd_unfold. by rewrite Hj.
    + destruct (truthy (Activity._joined s)) eqn:Hjoined.
      * unfold Activity.join. cmd_unfold. by rewrite Hj, Hjoined.
      * rewrite (join_starts s Hj Hjoined). unfold state_of at 1. cbn [fst].
        by apply (frame_on_join
                    (λ s', Activity._room_handle s' = Activity._room_handle s)
                    (λ _, True) (room_frame _) (λ _ _, I) JoinCommand.run).
  - by apply (frame_handler
                (λ s', Activity._room_handle s' = Activity._room_handle s)
                (λ _, True) (room_frame _) (λ _ _, I) ev Hev s).
Qed.

(** X18.  What the ['finished'] of its join command does to an activity.  An
    error leaves the activity as it was and emits ['joined'] with [False]
    and the text of the error.  No error makes the activity joined, gives it
    the two channels of the command, subscribes to [MembersChanged] and
    [Closed] on a text channel that has the group and channel interfaces,
    and emits ['joined'] with [True] last. *)
Theorem activity_join_outcomes (s : Activity.t) (j : JoinCommand.t) :
  Activity._join_command s = Some j →
  (∀ e,
     Activity.handler (Activity.JoinEvent (ErrorReply e)) s =
       (Activity.set_join_command (Some (JoinCommand.set_finished true j)) s,
        [Activity.Join (EmitFinished (Some e));
         Activity.EmitJoined false (VStr e)],
        inr tt)) ∧
  (∀ ev j1 r c,
     JoinCommand.handler ev j = (j1, [EmitFinished None], r) →
     JoinCommand.text_channel j1 = Some c →
     CHANNEL_INTERFACE_GROUP ∈ interfaces c →
     CHANNEL ∈ interfaces c →
     Activity.handler (Activity.JoinEvent ev) s =
       (Activity.set_chans (Some c) (JoinCommand.tubes_channel j1)
          (Activity.set_joined (VBool true)
             (Activity.set_join_command (Some j1) s)),
        [Activity.Join (EmitFinished None);
         Activity.ConnectMembersChanged;
         Activity.ConnectClosed;
         Activity.EmitJoined true (VStr "None")],
        r)).
Proof.
  intros Hj. split.
  - intros e. simpl. unfold Activity.on_join. rewrite Hj. reflexivity.
  - intros ev j1 r c Hev Hc Hgroup Hchan. simpl. unfold Activity.on_join.
    rewrite Hj, Hev. simpl.
    unfold Activity.swallow, Activity.__joined_cb,
      Activity._start_tracking_buddies, Activity._start_tracking_channel,
      Activity.text_chan_interface.
    cmd_unfold. simpl. rewrite Hc. simpl.
    rewrite (bool_decide_eq_true_2 _ Hgroup). simpl.
    rewrite (bool_decide_eq_true_2 _ Hchan). reflexivity.
Qed.

Lemma activity_join_outcomes_witness :
  Activity.handler
    (Activity.JoinEvent (MembersChangedSignal "" [7] [] [] [] 0 0))
    (deliver Activity.handler activity_42
       (Activity.CallJoin ::
        map Activity.JoinEvent negotiation_callbacks)).1 =
    (Activity.set_chans (Some text_chan) (Some tubes_chan)
       (Activity.set_joined (VBool true)
          (Activity.set_join_command
             (Some (JoinCommand.set_finished true
                      (deliver JoinCommand.handler
                         (JoinCommand.init (Some 42)) negotiation_events).1))
             (deliver Activity.handler activity_42
                (Activity.CallJoin ::
                 map Activity.JoinEvent negotiation_callbacks)).1)),
     [Activity.Join (EmitFinished None);
      Activity.ConnectMembersChanged;
      Activity.ConnectClosed;
      Activity.EmitJoined true (VStr "None")],
     inr tt).
Proof.
  apply (proj2 (activity_join_outcomes
                  (deliver Activity.handler activity_42
                     (Activity.CallJoin ::
                      map Activity.JoinEvent negotiation_callbacks)).1
                  (deliver JoinCommand.handler
                     (JoinCommand.init (Some 42)) negotiation_events).1
                  eq_refl)
           (MembersChangedSignal "" [7] [] [] [] 0 0)
           (JoinCommand.set_finished true
              (deliver JoinCommand.handler
                 (JoinCommand.init (Some 42)) negotiation_events).1)
           (inr tt) text_chan eq_refl eq_refl).
  - unfold text_chan. simpl. by repeat constructor.
  - unfold text_chan. simpl. by repeat constructor.
Defined.

(** X19.  After the [Closed] signal an activity that holds no join command
    can join again: [join] makes a join command for the room of the
    activity and requests the two channels.  (One that holds a join command
    cannot, by X17.) *)
Theorem rejoin_after_closed (s : Activity.t) :
  Activity._join_command s = None →
  deliver Activity.handler s [Activity.ClosedSignal; Activity.CallJoin] =
    (Activity.set_join_command
       (Some (JoinCommand.init (Activity._room_handle s)))
       (Activity.set_joined (VBool false) s),
     [Activity.EmitJoined false (VStr "left activity");
      Activity.NewJoinCommand (Activity._room_handle s);
      Activity.Join (RequestChannel CHANNEL_TYPE_TEXT HANDLE_TYPE_ROOM
                       (Activity._room_handle s) true);
      Activity.Join (RequestChannel CHANNEL_TYPE_TUBES HANDLE_TYPE_ROOM
                       (Activity._room_handle s) true)]).
Proof.
  intros Hj. unfold deliver. simpl.
  unfold Activity.__text_channel_closed_cb, Activity.join. cmd_unfold. simpl.
  rewrite Hj. simpl. unfold Activity.on_join. simpl. reflexivity.
Qed.

Lemma rejoin_after_closed_witness :
  deliver Activity.handler (Activity.set_joined (VBool true) activity_42)
    [Activity.ClosedSignal; Activity.CallJoin] =
    (Activity.set_join_command (Some (JoinCommand.init (Some 42)))
       (Activity.set_joined (VBool false)
          (Activity.set_joined (VBool true) activity_42)),
     [Activity.EmitJoined false (VStr "left activity");
      Activity.NewJoinCommand (Some 42);
      Activity.Join (RequestChannel CHANNEL_TYPE_TEXT HANDLE_TYPE_ROOM
                       (Some 42) true);
      Activity.Join (RequestChannel CHANNEL_TYPE_TUBES HANDLE_TYPE_ROOM
                       (Some 42) true)]).
Proof.
  exact (rejoin_after_closed (Activity.set_joined (VBool true) activity_42)
           eq_refl).
Defined.

(** ** Sharing an activity *)



(** X21.  A failure of the share command, at the lookup or the registration
    or of its join command, reaches [share_activity_error_cb] with the
    error of that failure, once, and leaves the activity as it was. *)
Theorem share_finished_failure (s : Facade.t) (i : nat)
    (c : ShareCommand.t) (e : error) :
  Facade.commands s !! i = Some c →
  Facade.handler (Facade.ShareEvent i (ShareCommand.ErrorReply e)) s =
    (Facade.set_commands
       (<[i := ShareCommand.set_finished true c]> (Facade.commands s)) s,
     [Facade.Share i (ShareCommand.EmitFinished (Some e));
      Facade.ShareActivityErrorCb e],
     inr tt) ∧
  ∀ k j,
    ShareCommand.objects c !! k = Some j →
    trace_of (Facade.handler
                (Facade.ShareEvent i (ShareCommand.JoinEvent k (ErrorReply e)))
                s) =
      [Facade.Share i (ShareCommand.Join k (EmitFinished (Some e)));
       Facade.Share i (ShareCommand.EmitFinished (Some e));
       Facade.ShareActivityErrorCb e] ∧
    Facade.activity
      (state_of (Facade.handler
                   (Facade.ShareEvent i
                      (ShareCommand.JoinEvent k (ErrorReply e))) s)) =
      Facade.activity s.
Proof.
  intros Hc. split.
  - simpl. unfold Facade.on_share. rewrite Hc. reflexivity.
  - intros k j Hj. simpl. unfold Facade.on_share. rewrite Hc. simpl.
    unfold ShareCommand.on_join. rewrite Hj. simpl. by split.
Qed.

Lemma share_finished_failure_witness :
  Facade.handler
    (Facade.ShareEvent 0 (ShareCommand.ErrorReply "registration failed"))
    (deliver Facade.handler (Facade.of_activity activity_new)
       sharing_events).1 =
    (Facade.set_commands
       (<[0%nat := ShareCommand.set_finished true
                     (deliver ShareCommand.handler
                        (ShareCommand.init (VStr "abc")) (share_events 99)).1]>
          (Facade.commands
             (deliver Facade.handler (Facade.of_activity activity_new)
                sharing_events).1))
       (deliver Facade.handler (Facade.of_activity activity_new)
          sharing_events).1,
     [Facade.Share 0 (ShareCommand.EmitFinished (Some "registration failed"));
      Facade.ShareActivityErrorCb "registration failed"],
     inr tt).
Proof.
  apply (share_finished_failure
           (deliver Facade.handler (Facade.of_activity activity_new)
              sharing_events).1 0
           (deliver ShareCommand.handler
              (ShareCommand.init (VStr "abc")) (share_events 99)).1
           "registration failed").
  vm_compute. reflexivity.
Defined.

(** The share command of the scenario has resolved room handle 99 and
    holds the two channels of its join command. *)
Lemma sharing_events_command :
  Facade.commands
    (deliver Facade.handler (Facade.of_activity activity_new)
       sharing_events).1 =
    [(deliver ShareCommand.handler (ShareCommand.init (VStr "abc"))
        (share_events 99)).1] ∧
  ShareCommand.room_handle
    (deliver ShareCommand.handler (ShareCommand.init (VStr "abc"))
       (share_events 99)).1 = Some 99 ∧
  ShareCommand.text_channel
    (deliver ShareCommand.handler (ShareCommand.init (VStr "abc"))
       (share_events 99)).1 = Some text_chan ∧
  ShareCommand.tubes_channel
    (deliver ShareCommand.handler (ShareCommand.init (VStr "abc"))
       (share_events 99)).1 = Some tubes_chan.
Proof. by vm_compute. Qed.

Lemma facade_lift_roomed {A} (m : cmd Activity.t Activity.action A) :
  (∀ a, Activity._room_handle (state_of (m a)) = Activity._room_handle a) →
  cmd_inv roomed no_sharing (Facade.lift m).
Proof.
  intros Hm s [Hroom Hcommands]. unfold Facade.lift.
  specialize (Hm (Facade.activity s)). unfold state_of, trace_of in *.
  destruct (m (Facade.activity s)) as [[a1 tr] r]. simpl in *. split.
  - split; [simpl; by rewrite Hm|done].
  - apply Forall_map. by apply Forall_true.
Qed.

Lemma facade_handler_roomed (ev : Facade.event) :
  cmd_inv roomed no_sharing (Facade.handler ev).
Proof.
  destruct ev as [| |name reply|i ev|ev]; simpl.
  - intros s [[h Hroom] Hcommands]. unfold Facade.share. cmd_unfold.
    rewrite Hroom. by repeat split; eauto.
  - unfold Facade.leave. repeat inv_step.
  - unfold Facade.do_get_property.
    repeat first
      [ apply facade_lift_roomed;
        first [ apply (activity_handler_room_handle (Activity.GotProperties _))
              | done ]
      | inv_step ].
  - intros s [Hroom Hcommands]. unfold Facade.on_share.
    rewrite Hcommands. by repeat split.
  - apply facade_lift_roomed, activity_handler_room_handle.
Qed.

(** X22.  An activity made for a room never shares: whatever is called and
    delivered, it makes and runs no share command, and every [share] raises
    [ValueError] with no effect. *)
Theorem roomed_activity_never_shares (a : Activity.t)
    (evs : list Facade.event) :
  is_Some (Activity._room_handle a) →
  Forall no_sharing
    (deliver Facade.handler (Facade.of_activity a) evs).2 ∧
  Facade.share (deliver Facade.handler (Facade.of_activity a) evs).1 =
    ((deliver Facade.handler (Facade.of_activity a) evs).1, [],
     inl (ValueError "Already have a room handle")).
Proof.
  intros Hroom.
  destruct (deliver_inv roomed no_sharing Facade.handler
              facade_handler_roomed evs (Facade.of_activity a))
    as [[[h Hh] _] Htr]; [by split|].
  split; [done|]. unfold Facade.share. cmd_unfold. by rewrite Hh.
Qed.

Lemma roomed_activity_never_shares_witness :
  Facade.share
    (deliver Facade.handler (Facade.of_activity activity_42)
       [Facade.ActivityEvent Activity.CallJoin; Facade.CallShare]).1 =
    ((deliver Facade.handler (Facade.of_activity activity_42)
        [Facade.ActivityEvent Activity.CallJoin; Facade.CallShare]).1, [],
     inl (ValueError "Already have a room handle")).
Proof.
  apply (proj2 (roomed_activity_never_shares activity_42
                  [Facade.ActivityEvent Activity.CallJoin; Facade.CallShare]
                  (ex_intro _ 42 eq_refl))).
Defined.

(** ** Reading properties *)

(** X15.  A property set through [do_set_property] is what
    [do_get_property] returns for the same name, when no [GetProperties]
    call is pending; the read has no effect. *)
Theorem set_then_get_property (s : Facade.t) (name : string) (val : pyval)
    (reply : option (error + gmap string pyval)) :
  name ∈ ["name"; "color"; "tags"; "private"] →
  Activity._get_properties_call (Facade.activity s) = false →
  Facade.do_get_property name reply
    (state_of (Facade.lift (Activity.do_set_property name val) s)) =
    (state_of (Facade.lift (Activity.do_set_property name val) s), [],
     inr val).
Proof.
  intros Hname Hpending.
  repeat (apply elem_of_cons in Hname as [->|Hname]);
    [..|by apply elem_of_nil in Hname].
  all: unfold Facade.do_get_property, Facade.lift, Activity.do_set_property,
         Activity._publish_properties; cmd_unfold; simpl;
       rewrite Hpending; reflexivity.
Qed.

Lemma set_then_get_property_witness :
  Facade.do_get_property "tags" None
    (state_of (Facade.lift (Activity.do_set_property "tags" (VStr "fun"))
                 (Facade.of_activity activity_new))) =
    (state_of (Facade.lift (Activity.do_set_property "tags" (VStr "fun"))
                 (Facade.of_activity activity_new)), [],
     inr (VStr "fun")).
Proof.
  apply (set_then_get_property (Facade.of_activity activity_new) "tags"
           (VStr "fun") None).
  - by repeat constructor.
  - reflexivity.
Defined.




(** ** The registrations of a share command *)

Lemma registrations_app (t1 t2 : list ShareCommand.action) :
  registrations (t1 ++ t2) = (registrations t1 + registrations t2)%nat.
Proof. unfold registrations. by rewrite filter_app, length_app. Qed.

Lemma join_successes_app (t1 t2 : list ShareCommand.action) :
  join_successes (t1 ++ t2) = (join_successes t1 + join_successes t2)%nat.
Proof. unfold join_successes. by rewrite filter_app, length_app. Qed.

Lemma share_dispatch_returns (i : nat) (a : JoinCommand.action)
    (s : ShareCommand.t) :
  result_of (share_dispatch i a s) = inr tt ∧
  ShareCommand.objects (state_of (share_dispatch i a s)) =
    ShareCommand.objects s.
Proof.
  destruct a as [| | | | | | | | |[e|]]; try done.
  unfold share_dispatch, ShareCommand.swallow, ShareCommand.__joined_cb.
  cmd_unfold. by destruct (ShareCommand.objects s !! i).
Qed.

Lemma share_emitted_cons (i : nat) (a : JoinCommand.action)
    (tr : list JoinCommand.action) (s : ShareCommand.t) :
  trace_of (ShareCommand.emitted i (a :: tr) s) =
    ShareCommand.Join i a :: trace_of (share_dispatch i a s) ++
      trace_of (ShareCommand.emitted i tr (state_of (share_dispatch i a s))).
Proof.
  change (ShareCommand.emitted i (a :: tr))
    with (bind (perform (ShareCommand.Join i a))
            (λ _, bind (share_dispatch i a)
                    (λ _, ShareCommand.emitted i tr))).
  pose proof (share_dispatch_returns i a s) as [Hr _].
  cbv [bind perform]. unfold result_of, state_of, trace_of in *.
  destruct (share_dispatch i a s) as [[s1 t1] r1]. simpl in *. subst r1.
  by destruct (ShareCommand.emitted i tr s1) as [[s2 t2] r2].
Qed.

Lemma share_dispatch_registrations (i : nat) (a : JoinCommand.action)
    (s : ShareCommand.t) :
  is_Some (ShareCommand.objects s !! i) →
  registrations (ShareCommand.Join i a :: trace_of (share_dispatch i a s)) =
    join_successes (ShareCommand.Join i a :: trace_of (share_dispatch i a s)).
Proof.
  intros [j Hj]. destruct a as [| | | | | | | | |[e|]]; try done.
  unfold share_dispatch, ShareCommand.swallow, ShareCommand.__joined_cb.
  cmd_unfold. by rewrite Hj.
Qed.

Lemma share_emitted_registrations (i : nat) (tr : list JoinCommand.action)
    (s : ShareCommand.t) :
  is_Some (ShareCommand.objects s !! i) →
  registrations (trace_of (ShareCommand.emitted i tr s)) =
    join_successes (trace_of (ShareCommand.emitted i tr s)).
Proof.
  revert s. induction tr as [|a tr IH]; intros s Hs; [reflexivity|].
  rewrite share_emitted_cons.
  change (?x :: ?t1 ++ ?t2) with ((x :: t1) ++ t2).
  rewrite registrations_app, join_successes_app,
    share_dispatch_registrations by done.
  rewrite IH; [done|].
  by rewrite (proj2 (share_dispatch_returns i a s)).
Qed.

Lemma share_on_join_registrations (i : nat)
    (m : cmd JoinCommand.t JoinCommand.action unit) (s : ShareCommand.t) :
  registrations (trace_of (ShareCommand.on_join i m s)) =
    join_successes (trace_of (ShareCommand.on_join i m s)).
Proof.
  unfold ShareCommand.on_join.
  destruct (ShareCommand.objects s !! i) as [j|] eqn:Hj; [|reflexivity].
  destruct (m j) as [[j1 tr] r].
  pose proof (share_emitted_registrations i tr
    (ShareCommand.set_objects (<[i:=j1]> (ShareCommand.objects s)) s)) as H.
  unfold trace_of in *.
  destruct (ShareCommand.emitted _ _ _) as [[s1 t1] r1]. apply H.
  simpl. rewrite list_lookup_insert_eq by (by eapply lookup_lt_Some). eauto.
Qed.

Lemma share_handler_registrations (s : ShareCommand.t)
    (ev : ShareCommand.event) :
  registrations (trace_of (ShareCommand.handler ev s)) =
    join_successes (trace_of (ShareCommand.handler ev s)).
Proof.
  destruct ev as [|hs|e| |i jev]; simpl; try reflexivity.
  - destruct hs as [|h hs]; [reflexivity|].
    unfold ShareCommand.__got_handles_cb. cmd_unfold. simpl.
    pose proof (share_on_join_registrations
      (length (ShareCommand.objects s)) JoinCommand.run) as H.
    unfold trace_of in H.
    match goal with
    | |- context [ShareCommand.on_join _ _ ?s1] =>
        specialize (H s1); destruct (ShareCommand.on_join _ _ s1) as [[s2 t2] r2]
    end.
    exact H.
  - apply share_on_join_registrations.
Qed.

(** X23.  Over any deliveries to a share command, [AddActivity] is called
    once for each ['finished'] with no error of one of its join commands,
    and not otherwise: an activity is registered only after a join command
    has been admitted to its room. *)
Theorem registrations_follow_joins (s : ShareCommand.t)
    (evs : list ShareCommand.event) :
  registrations (deliver ShareCommand.handler s evs).2 =
    join_successes (deliver ShareCommand.handler s evs).2.
Proof.
  revert s. induction evs as [|ev evs IH]; intros s; [reflexivity|].
  rewrite deliver_cons. cbn [fst snd].
  by rewrite registrations_app, join_successes_app,
    share_handler_registrations, IH.
Qed.

(** ** The room of a join command *)

Lemma join_handler_requests_room (s : JoinCommand.t)
    (ev : JoinCommand.event) :
  Forall (requests_room (JoinCommand._room_handle s))
    (trace_of (JoinCommand.handler ev s)).
Proof.
  assert (∀ a, (∀ ctype htype r suppress,
                  a ≠ RequestChannel ctype htype r suppress) →
               requests_room (JoinCommand._room_handle s) a) as Hother.
  { intros a Ha ctype htype r suppress ->. by destruct (Ha ctype htype r suppress). }
  assert (∀ ctype,
            requests_room (JoinCommand._room_handle s)
              (RequestChannel ctype HANDLE_TYPE_ROOM
                 (JoinCommand._room_handle s) true)) as Hrequest.
  { intros ctype ct ht r sup H. destruct ht. simplify_eq. by repeat split. }
  join_cases ev;
    repeat match goal with
           | H : (_, _, _) = (_, _, _) |- _ => injection H as <- <- <-
           end; simpl;
    repeat first
      [ apply Forall_nil_2
      | apply Forall_cons; split;
        [first [apply Hrequest | apply Hother; intros ????; discriminate]|] ].
Qed.

(** X24.  The room handle of a join command never changes, and every
    channel it requests, after any deliveries, is a room channel for that
    handle, requested with the handler suppressed. *)
Theorem join_requests_its_room (room : option handle)
    (evs : list JoinCommand.event) :
  JoinCommand._room_handle
    (deliver JoinCommand.handler (JoinCommand.init room) evs).1 = room ∧
  Forall (requests_room room)
    (deliver JoinCommand.handler (JoinCommand.init room) evs).2.
Proof.
  split; [apply (join_deliver_room_handle evs (JoinCommand.init room))|].
  assert (∀ s, JoinCommand._room_handle s = room →
               Forall (requests_room room)
                 (deliver JoinCommand.handler s evs).2) as H; [|by apply H].
  induction evs as [|ev evs IH]; intros s Hs; [constructor|].
  rewrite deliver_cons. cbn [fst snd]. apply Forall_app. split.
  - rewrite <- Hs. apply join_handler_requests_room.
  - apply IH. by rewrite join_handler_room_handle.
Qed.

(** ** The property listing handler, the constructor, leaving *)

(** X10.  The property listing handler never lists, sets or emits: called
    with any listing on any command it leaves the command as it is, performs
    no effect and raises; the exception is the [AttributeError] of the
    missing [_joined_cb] whenever there is nothing to set or the text
    channel has a properties interface. *)
Theorem props_listed_never_calls (W : Z)
    (prop_specs : list JoinCommand.prop_spec) (s : JoinCommand.t) :
  ∃ e,
    JoinCommand.__join_activity_channel_props_listed_cb W prop_specs s =
      (s, [], inl e) ∧
    (JoinCommand.props_loop W prop_specs JoinCommand.props [] = [] ∨
     (∃ c, JoinCommand.text_channel s = Some c ∧
           PROPERTIES_INTERFACE ∈ interfaces c) →
     e = AttributeError "_joined_cb").
Proof.
  unfold JoinCommand.__join_activity_channel_props_listed_cb,
    JoinCommand.properties_interface.
  destruct (JoinCommand.props_loop W prop_specs JoinCommand.props [])
    as [|p l]; cmd_unfold; [eauto|].
  destruct (JoinCommand.text_channel s) as [c|] eqn:Hc; simpl.
  - destruct (bool_decide (PROPERTIES_INTERFACE ∈ interfaces c)) eqn:Hin;
      simpl; eexists; (split; [reflexivity|]); [done|].
    intros [?|(c' & [= <-] & Hc')]; [done|].
    by apply bool_decide_eq_false in Hin.
  - eexists. split; [reflexivity|]. by intros [?|(c' & ? & _)].
Qed.

(** X25.  [__init__] raises [ValueError] when it is given neither a room
    handle nor properties.  Otherwise it returns an activity for that room
    that holds no join command, whose attributes are the given properties
    with [True] for a missing [private], [False] for a missing [joined] and
    [None] for the others; it asks for the properties of the room and
    subscribes to their changes exactly when a room handle is given. *)
Theorem init_outcomes (room_handle : option handle)
    (properties : option (gmap string pyval)) :
  (room_handle = None → properties = None →
   result_of (Activity.init room_handle properties) =
     inl (ValueError "Need to pass one of room_handle or properties") ∧
   trace_of (Activity.init room_handle properties) = []) ∧
  (is_Some room_handle ∨ is_Some properties →
   result_of (Activity.init room_handle properties) = inr tt ∧
   trace_of (Activity.init room_handle properties) =
     match room_handle with
     | Some _ => [Activity.GetProperties room_handle;
                  Activity.ConnectPropertiesChanged]
     | None => []
     end ∧
   Activity._room_handle (state_of (Activity.init room_handle properties)) =
     room_handle ∧
   Activity._join_command (state_of (Activity.init room_handle properties)) =
     None ∧
   Activity._get_properties_call
     (state_of (Activity.init room_handle properties)) =
     bool_decide (is_Some room_handle) ∧
   Activity._joined (state_of (Activity.init room_handle properties)) =
     Activity.get (default ∅ properties) "joined" (init_default "joined") ∧
   ∀ key, key ∈ ["name"; "tags"; "color"; "private"; "id"; "type"] →
          field_of key (state_of (Activity.init room_handle properties)) =
            Activity.get (default ∅ properties) key (init_default key)).
Proof.
  split.
  - intros -> ->. by split.
  - intros Hsome.
    destruct room_handle as [h|], properties as [props|];
      try (by destruct Hsome as [[? [=]]|[? [=]]]).
    all: unfold Activity.init, Activity._start_tracking_properties;
      cmd_unfold; simpl; repeat split.
    all: intros key Hkey;
      repeat (apply elem_of_cons in Hkey as [->|Hkey]);
      try (by apply elem_of_nil in Hkey); reflexivity.
Qed.

Lemma init_outcomes_witness :
  result_of (Activity.init (Some 42) None) = inr tt ∧
  trace_of (Activity.init (Some 42) None) =
    [Activity.GetProperties (Some 42); Activity.ConnectPropertiesChanged].
Proof.
  destruct (proj2 (init_outcomes (Some 42) None)) as (H1 & H2 & _).
  - left. by exists 42.
  - by split.
Defined.

(** X26.  [leave] on an activity that has no text channel raises
    [AttributeError].  On one that has a text channel it only asks the
    channel to close: the activity is unchanged until the [Closed] signal,
    which makes it not joined and emits ['joined'] with [False]. *)
Theorem leave_then_closed (s : Facade.t) :
  (Activity.telepathy_text_chan (Facade.activity s) = None →
   Facade.leave s = (s, [], inl (AttributeError "Close"))) ∧
  (is_Some (Activity.telepathy_text_chan (Facade.activity s)) →
   Facade.leave s = (s, [Facade.Close], inr tt) ∧
   deliver Facade.handler s
     [Facade.CallLeave; Facade.ActivityEvent Activity.ClosedSignal] =
     (Facade.set_activity
        (Activity.set_joined (VBool false) (Facade.activity s)) s,
      [Facade.Close;
       Facade.Base (Activity.EmitJoined false (VStr "left activity"))])).
Proof.
  split.
  - intros Hc. unfold Facade.leave. cmd_unfold. by rewrite Hc.
  - intros [c Hc]. unfold deliver. simpl. unfold Facade.leave, Facade.lift.
    cmd_unfold. rewrite Hc. simpl. split; [done|]. by destruct s.
Qed.

Lemma leave_then_closed_witness :
  Facade.leave (Facade.of_activity activity_42) =
    (Facade.of_activity activity_42, [], inl (AttributeError "Close")).
Proof.
  exact (proj1 (leave_then_closed (Facade.of_activity activity_42)) eq_refl).
Defined.

(** ** The join commands of a share command *)

Lemma share_emitted_objects (i : nat) (tr : list JoinCommand.action)
    (s : ShareCommand.t) :
  ShareCommand.objects (state_of (ShareCommand.emitted i tr s)) =
    ShareCommand.objects s.
Proof.
  revert s. induction tr as [|a tr IH]; intros s; [reflexivity|].
  change (ShareCommand.emitted i (a :: tr))
    with (bind (perform (ShareCommand.Join i a))
            (λ _, bind (share_dispatch i a)
                    (λ _, ShareCommand.emitted i tr))).
  pose proof (share_dispatch_returns i a s) as [Hr Ho].
  specialize (IH (state_of (share_dispatch i a s))).
  cbv [bind perform]. unfold result_of, state_of in *.
  destruct (share_dispatch i a s) as [[s1 t1] r1]. simpl in *. subst r1.
  destruct (ShareCommand.emitted i tr s1) as [[s2 t2] r2]. simpl in *.
  congruence.
Qed.

Lemma share_on_join_objects (i : nat)
    (m : cmd JoinCommand.t JoinCommand.action unit) (s : ShareCommand.t) :
  length (ShareCommand.objects (state_of (ShareCommand.on_join i m s))) =
    length (ShareCommand.objects s).
Proof.
  unfold ShareCommand.on_join.
  destruct (ShareCommand.objects s !! i) as [j|]; [|reflexivity].
  destruct (m j) as [[j1 tr] r].
  pose proof (share_emitted_objects i tr
    (ShareCommand.set_objects (<[i:=j1]> (ShareCommand.objects s)) s)) as H.
  unfold state_of in *.
  destruct (ShareCommand.emitted _ _ _) as [[s1 t1] r1]. simpl in *.
  by rewrite H, length_insert.
Qed.

Lemma share_handler_objects (s : ShareCommand.t) (ev : ShareCommand.event) :
  length (ShareCommand.objects (state_of (ShareCommand.handler ev s))) =
    (length (ShareCommand.objects s) + lookups [ev])%nat.
Proof.
  destruct ev as [|hs|e| |i jev]; simpl; try (by rewrite Nat.add_0_r).
  - destruct hs as [|h hs]; [by rewrite Nat.add_0_r|].
    unfold ShareCommand.__got_handles_cb. cmd_unfold. simpl.
    pose proof (share_on_join_objects
      (length (ShareCommand.objects s)) JoinCommand.run) as H.
    unfold state_of in H.
    match goal with
    | |- context [ShareCommand.on_join _ _ ?s1] =>
        specialize (H s1); destruct (ShareCommand.on_join _ _ s1) as [[s2 t2] r2]
    end.
    simpl in *. rewrite H, length_app. reflexivity.
  - rewrite share_on_join_objects. by rewrite Nat.add_0_r.
Qed.

(** X27.  A share command makes one join command for each lookup reply that
    carries a handle, and never drops one: after any deliveries it holds as
    many join commands more as such replies were delivered.  A reply with no
    handle raises [IndexError] and changes nothing. *)
Theorem one_join_command_per_lookup (s : ShareCommand.t)
    (evs : list ShareCommand.event) :
  length (ShareCommand.objects (deliver ShareCommand.handler s evs).1) =
    (length (ShareCommand.objects s) + lookups evs)%nat ∧
  ShareCommand.handler (ShareCommand.GotHandles []) s =
    (s, [], inl IndexError).
Proof.
  split; [|reflexivity].
  revert s. induction evs as [|ev evs IH]; intros s;
    [by rewrite Nat.add_0_r|].
  rewrite deliver_cons. cbn [fst snd]. rewrite IH, share_handler_objects.
  change (ev :: evs) with ([ev] ++ evs). unfold lookups.
  rewrite filter_app, length_app. lia.
Qed.

(** ** The outcomes of a share command *)

Lemma own_outcomes_app (t1 t2 : list ShareCommand.action) :
  own_outcomes (t1 ++ t2) = own_outcomes t1 ++ own_outcomes t2.
Proof. apply omap_app. Qed.

Lemma join_errors_cons (a : JoinCommand.action)
    (tr : list JoinCommand.action) :
  join_errors (a :: tr) = join_errors [a] ++ join_errors tr.
Proof. change (a :: tr) with ([a] ++ tr). apply omap_app. Qed.

Lemma share_dispatch_outcomes (i : nat) (a : JoinCommand.action)
    (s : ShareCommand.t) :
  own_outcomes (trace_of (share_dispatch i a s)) = join_errors [a].
Proof.
  destruct a as [| | | | | | | | |[e|]]; try done.
  unfold share_dispatch, ShareCommand.swallow, ShareCommand.__joined_cb.
  cmd_unfold. by destruct (ShareCommand.objects s !! i).
Qed.

(** The share command emits the errors its join command finishes with, one
    emission for each, and nothing at a ['finished'] with no error. *)
Lemma share_emitted_outcomes (i : nat) (tr : list JoinCommand.action)
    (s : ShareCommand.t) :
  own_outcomes (trace_of (ShareCommand.emitted i tr s)) = join_errors tr.
Proof.
  revert s. induction tr as [|a tr IH]; intros s; [reflexivity|].
  rewrite share_emitted_cons, join_errors_cons.
  change (own_outcomes (ShareCommand.Join i a :: ?t)) with (own_outcomes t).
  by rewrite own_outcomes_app, share_dispatch_outcomes, IH.
Qed.

Lemma join_handler_errors (j : JoinCommand.t) (ev : JoinCommand.event) :
  join_errors (trace_of (JoinCommand.handler ev j)) =
    match ev with ErrorReply e => [Some e] | _ => [] end.
Proof. join_cases ev; done. Qed.

Lemma share_on_join_outcomes (i : nat)
    (m : cmd JoinCommand.t JoinCommand.action unit) (s : ShareCommand.t) :
  own_outcomes (trace_of (ShareCommand.on_join i m s)) =
    match ShareCommand.objects s !! i with
    | Some j => join_errors (trace_of (m j))
    | None => []
    end.
Proof.
  unfold ShareCommand.on_join.
  destruct (ShareCommand.objects s !! i) as [j|]; [|reflexivity].
  destruct (m j) as [[j1 tr] r].
  pose proof (share_emitted_outcomes i tr
    (ShareCommand.set_objects (<[i:=j1]> (ShareCommand.objects s)) s)) as H.
  destruct (ShareCommand.emitted _ _ _) as [[s1 t1] r1]. exact H.
Qed.

Lemma share_handler_outcomes (s : ShareCommand.t) (ev : ShareCommand.event) :
  own_outcomes (trace_of (ShareCommand.handler ev s)) = share_outcome s ev.
Proof.
  destruct ev as [|hs|e| |i jev]; simpl; try reflexivity.
  - destruct hs as [|h hs]; [reflexivity|].
    unfold ShareCommand.__got_handles_cb.
    cmd_unfold. simpl.
    pose proof (share_on_join_outcomes
      (length (ShareCommand.objects s)) JoinCommand.run) as H.
    unfold trace_of in H.
    match goal with
    | |- context [ShareCommand.on_join _ _ ?s1] =>
        specialize (H s1); destruct (ShareCommand.on_join _ _ s1) as [[s2 t2] r2]
    end.
    simpl in *. rewrite H.
    rewrite list_lookup_middle by done. reflexivity.
  - rewrite share_on_join_outcomes.
    destruct (ShareCommand.objects s !! i) as [j|] eqn:Hj.
    + rewrite join_handler_errors. by destruct jev.
    + by destruct jev.
Qed.

Lemma share_deliver_outcomes (evs : list ShareCommand.event)
    (s : ShareCommand.t) :
  own_outcomes (deliver ShareCommand.handler s evs).2 = share_outcomes s evs.
Proof.
  revert s. induction evs as [|ev evs IH]; intros s; [reflexivity|].
  rewrite deliver_cons. simpl.
  by rewrite own_outcomes_app, share_handler_outcomes, IH.
Qed.

(** The registration failure, for any activity id, room handle and error:
    the share command looks the id up, registers the activity when its join
    command has succeeded, and emits the error of the registration. *)
Lemma share_registration_error (activity_id : pyval) (h : handle)
    (e : error) :
  share_own
    (deliver ShareCommand.handler (ShareCommand.init activity_id)
       (share_events h ++ [ShareCommand.ErrorReply e])).2 =
    [ShareCommand.RequestHandles HANDLE_TYPE_ROOM [activity_id];
     ShareCommand.AddActivity activity_id (Some h);
     ShareCommand.EmitFinished (Some e)].
Proof. vm_compute. reflexivity. Qed.

(** The share command has no single failure outcome: when its join command
    is refused both channels, it emits ['finished'] twice, once with each
    error. *)
Lemma share_emits_each_join_failure :
  share_own
    (deliver ShareCommand.handler (ShareCommand.init (VStr "abc"))
       share_both_channels_refused).2 =
    [ShareCommand.RequestHandles HANDLE_TYPE_ROOM [VStr "abc"];
     ShareCommand.EmitFinished (Some "no text channel");
     ShareCommand.EmitFinished (Some "no tubes channel")] ∧
  ShareCommand.finished_count
    (deliver ShareCommand.handler (ShareCommand.init (VStr "abc"))
       share_both_channels_refused).2 ≠ 1%nat.
Proof. split; [by vm_compute|]. vm_compute. discriminate. Qed.

(** A refused [AddMembers] reaches no handler of the share command: the
    error handler given to the call reads [_join_failed_cb], which
    [_JoinCommand] does not define, so the delivery raises and the share
    command emits nothing. *)
Lemma share_add_members_refused :
  ShareCommand.handler
    (ShareCommand.JoinEvent 0 (AddMembersError "refused"))
    (deliver ShareCommand.handler (ShareCommand.init (VStr "abc"))
       (share_admission_pending 99)).1 =
    ((deliver ShareCommand.handler (ShareCommand.init (VStr "abc"))
        (share_admission_pending 99)).1,
     [], inl (AttributeError "_join_failed_cb")).
Proof. by vm_compute. Qed.

(** C7, as amended.  A share command looks the activity id up as a room
    handle; the reply creates a join command for the handle and runs it; a
    ['finished'] of that join command with no error stores its channels and
    registers the activity with [AddActivity], and emits nothing; the reply
    of [AddActivity] emits ['finished'] with no error.  Each failure is
    forwarded on its own: over any sequence of deliveries the share command
    emits, in the order of the deliveries, one ['finished'] for each
    delivery of its error handler (the lookup and [AddActivity] have no
    other), with the error delivered, one for each error handler delivery to
    its join command, with that error, one with no error for each reply of
    [AddActivity], and nothing else.  When the join command has succeeded
    and [AddActivity] fails, the one ['finished'] emitted carries the error
    of [AddActivity]. *)
Theorem share_forwards_each_failure :
  (∀ (s : ShareCommand.t) (evs : list ShareCommand.event),
     own_outcomes (deliver ShareCommand.handler s evs).2 =
       share_outcomes s evs) ∧
  (∀ s : ShareCommand.t,
     ShareCommand.handler ShareCommand.Run s =
       (s, [ShareCommand.RequestHandles HANDLE_TYPE_ROOM
              [ShareCommand._activity_id s]], inr tt)) ∧
  (∀ (s : ShareCommand.t) h hs,
     let i := length (ShareCommand.objects s) in
     ShareCommand.handler (ShareCommand.GotHandles (h :: hs)) s =
       (ShareCommand.set_join_command (Some i)
          (ShareCommand.set_objects
             (ShareCommand.objects s ++ [JoinCommand.init (Some h)])
             (ShareCommand.set_room_handle (Some h) s)),
        [ShareCommand.Join i
           (RequestChannel CHANNEL_TYPE_TEXT HANDLE_TYPE_ROOM (Some h) true);
         ShareCommand.Join i
           (RequestChannel CHANNEL_TYPE_TUBES HANDLE_TYPE_ROOM (Some h) true)],
        inr tt)) ∧
  (∀ (s : ShareCommand.t) i j ev j1 r,
     ShareCommand.objects s !! i = Some j →
     JoinCommand.handler ev j = (j1, [EmitFinished None], r) →
     ShareCommand.handler (ShareCommand.JoinEvent i ev) s =
       (ShareCommand.set_channels
          (JoinCommand.text_channel j1) (JoinCommand.tubes_channel j1)
          (ShareCommand.set_objects (<[i := j1]> (ShareCommand.objects s)) s),
        [ShareCommand.Join i (EmitFinished None);
         ShareCommand.AddActivity (ShareCommand._activity_id s)
           (ShareCommand.room_handle s)],
        r)) ∧
  (∀ (activity_id : pyval) (h : handle) (e : error),
     share_own
       (deliver ShareCommand.handler (ShareCommand.init activity_id)
          (share_events h ++ [ShareCommand.ErrorReply e])).2 =
       [ShareCommand.RequestHandles HANDLE_TYPE_ROOM [activity_id];
        ShareCommand.AddActivity activity_id (Some h);
        ShareCommand.EmitFinished (Some e)] ∧
     own_outcomes
       (deliver ShareCommand.handler (ShareCommand.init activity_id)
          (share_events h ++ [ShareCommand.ErrorReply e])).2 = [Some e]).
Proof.
  split; [intros s evs; apply share_deliver_outcomes|].
  split; [intros s; apply share_stages|].
  split; [intros s h hs; apply (proj1 (proj2 (share_stages s)))|].
  split; [intros s; apply (proj1 (proj2 (proj2 (share_stages s))))|].
  intros activity_id h e. split; [apply share_registration_error|].
  vm_compute. reflexivity.
Qed.

Lemma share_forwards_each_failure_witness :
  ShareCommand.objects
    (deliver ShareCommand.handler (ShareCommand.init (VStr "abc"))
       (share_admission_pending 99)).1 !! 0%nat =
    Some (deliver JoinCommand.handler (JoinCommand.init (Some 99))
            negotiation_events).1 ∧
  trace_of
    (ShareCommand.handler
       (ShareCommand.JoinEvent 0 (MembersChangedSignal "" [7] [] [] [] 0 0))
       (deliver ShareCommand.handler (ShareCommand.init (VStr "abc"))
          (share_admission_pending 99)).1) =
    [ShareCommand.Join 0 (EmitFinished None);
     ShareCommand.AddActivity (VStr "abc") (Some 99)].
Proof.
  split; [reflexivity|].
  rewrite (proj1 (proj2 (proj2 (proj2 share_forwards_each_failure)))
             (deliver ShareCommand.handler (ShareCommand.init (VStr "abc"))
                (share_admission_pending 99)).1
             0%nat
             (deliver JoinCommand.handler (JoinCommand.init (Some 99))
                negotiation_events).1
             (MembersChangedSignal "" [7] [] [] [] 0 0)
             (JoinCommand.set_finished true
                (deliver JoinCommand.handler (JoinCommand.init (Some 99))
                   negotiation_events).1)
             (inr tt) eq_refl eq_refl).
  reflexivity.
Defined.
